(** * Multi-chain momentum surfer: the momentum-to-strategy pipeline

    A shallow embedding of the five tool routes under [src/app/api/tools]
    (detect-momentum, analyze-momentum, get-cross-chain-prices,
    create-momentum-strategy, execute-momentum-trade) and the properties
    their specification states about them.

    Conventions of the embedding.
    - A JavaScript number is an exact rational ([Q]); the rounding error of
      IEEE doubles is outside the model.  Equality of numbers is [==]
      ([Qeq]).  NaN and the infinities are modelled where a route can
      produce them from a request ([number], in the price route).
    - A JSON field that may be absent or [null] is a [jsval].
    - An object literal used as a lookup table, and an object built key by
      key, is an insertion-ordered association list over its own keys.
      Where a key comes from the request as it is (the timeframe of the
      scan, the chain of the price route) the lookup also sees the members
      every object inherits ([obj_lookup]).  The tables of the strategy and
      execution routes that are indexed by the risk level or by a chain of
      the request are read over their own keys only.
    - The upstream fetches are inputs of the handlers; the clock-dependent
      fields ([timestamp], [tradeId]) are left out of the responses.
    - [Math.random()] is a stream of draws threaded through the handler. *)

From Stdlib Require Import QArith Qabs Qround Qminmax Lqa Lia ZArith.
From Stdlib Require Import List String Ascii Bool Arith.
From Stdlib Require Import Sorting.Sorted Sorting.Permutation.
Import ListNotations.

Open Scope Q_scope.
Open Scope string_scope.

(** ** JavaScript values and built-ins used by the routes *)

Module Js.

(** The value of a numeric JSON field: absent, [null], or a number. *)
Inductive jsval : Type :=
| undefined : jsval
| null : jsval
| num (q : Q) : jsval.

(** [v || d] for a numeric field: [undefined], [null] and [0] are falsy. *)
Definition or_num (v : jsval) (d : Q) : Q :=
  match v with
  | num q => if Qeq_bool q 0 then d else q
  | _ => d
  end.

(** [v !== null] *)
Definition strict_neq_null (v : jsval) : bool :=
  match v with
  | null => false
  | _ => true
  end.

(** Comparison operators on numbers. *)
Definition Qgtb (x y : Q) : bool := negb (Qle_bool x y).
Definition Qltb (x y : Q) : bool := negb (Qle_bool y x).
Definition Qgeb (x y : Q) : bool := Qle_bool y x.

(** [Math.abs(v) >= t]: [Math.abs(undefined)] is NaN and every comparison
    with NaN is false; [Math.abs(null)] is 0. *)
Definition abs_geb (v : jsval) (t : Q) : bool :=
  match v with
  | undefined => false
  | null => Qgeb 0 t
  | num q => Qgeb (Qabs q) t
  end.

(** [Math.round]: nearest integer, halves rounded up. *)
Definition Math_round (x : Q) : Q := inject_Z (Qfloor (x + 0.5)).

(** [s.toUpperCase()] on ASCII text. *)
Definition upper_ascii (c : ascii) : ascii :=
  let n := nat_of_ascii c in
  if andb (Nat.leb 97 n) (Nat.leb n 122) then ascii_of_nat (n - 32) else c.

Fixpoint toUpperCase (s : string) : string :=
  match s with
  | EmptyString => EmptyString
  | String c r => String (upper_ascii c) (toUpperCase r)
  end.

(** [s.split(",")]: always at least one piece. *)
Fixpoint split_comma_aux (cur : string) (s : string) : list string :=
  match s with
  | EmptyString => [cur]
  | String c r =>
      if Ascii.eqb c ","%char then cur :: split_comma_aux "" r
      else split_comma_aux (cur ++ String c "") r
  end.

Definition split_comma (s : string) : list string := split_comma_aux "" s.

(** [searchParams.get(k) || d]: [null] and the empty string are falsy. *)
Definition param_or (p : option string) (d : string) : string :=
  match p with
  | Some s => if String.eqb s "" then d else s
  | None => d
  end.

(** [searchParams.get(k)?.split(",") || d] *)
Definition param_split_or (p : option string) (d : list string) : list string :=
  match p with
  | Some s => split_comma s
  | None => d
  end.

(** [arr.includes(x)] on an array of strings. *)
Definition includes (arr : list string) (x : string) : bool :=
  existsb (String.eqb x) arr.

(** Objects keyed by strings, in insertion order. *)
Definition Obj (V : Type) : Type := list (string * V).

Fixpoint obj_get {V : Type} (o : Obj V) (k : string) : option V :=
  match o with
  | [] => None
  | (k', v) :: r => if String.eqb k k' then Some v else obj_get r k
  end.

(** [o[k] = v]: an existing key keeps its position, a new one goes last. *)
Fixpoint obj_set {V : Type} (o : Obj V) (k : string) (v : V) : Obj V :=
  match o with
  | [] => [(k, v)]
  | (k', v') :: r =>
      if String.eqb k k' then (k', v) :: r else (k', v') :: obj_set r k v
  end.

Definition Object_keys {V : Type} (o : Obj V) : list string := map fst o.
Definition Object_values {V : Type} (o : Obj V) : list V := map snd o.
Definition Object_entries {V : Type} (o : Obj V) : list (string * V) := o.

(** [arr.reduce((a, b) => a + b, 0)] *)
Definition sum (l : list Q) : Q := fold_left Qplus l 0.

(** [arr.slice(-n)]: the last [n] elements, all of them if there are fewer. *)
Definition slice_last {A : Type} (n : nat) (l : list A) : list A :=
  skipn (List.length l - n) l.

(** [arr.sort(cmp)] for a comparator returning a number.  The sort is
    stable: an element moves in front of another only when the comparator
    is positive for the pair in their current order. *)
Fixpoint sort_insert {A : Type} (cmp : A -> A -> Q) (x : A) (l : list A)
  : list A :=
  match l with
  | [] => [x]
  | y :: r => if Qgtb (cmp x y) 0 then y :: sort_insert cmp x r else x :: l
  end.

Definition Array_sort {A : Type} (cmp : A -> A -> Q) (l : list A) : list A :=
  fold_right (sort_insert cmp) [] l.

(** The order a descending sort on [key] establishes: [a] may stand in
    front of [b]. *)
Definition descending {A : Type} (key : A -> Q) (a b : A) : Prop :=
  key b <= key a.

(** The names every object literal inherits from [Object.prototype].  Each
    names a function or, for [__proto__], the prototype object: all are
    truthy and none is a string or a number. *)
Definition Object_prototype_members : list string :=
  [ "constructor"; "__defineGetter__"; "__defineSetter__"; "hasOwnProperty";
    "__lookupGetter__"; "__lookupSetter__"; "isPrototypeOf";
    "propertyIsEnumerable"; "toString"; "valueOf"; "__proto__";
    "toLocaleString" ].

(** [o[k]] on an object literal: an own value, an inherited member, or
    [undefined]. *)
Inductive Lookup (V : Type) : Type :=
| own (v : V)
| inherited
| absent.

Arguments own {V} v.
Arguments inherited {V}.
Arguments absent {V}.

Definition obj_lookup {V : Type} (o : Obj V) (k : string) : Lookup V :=
  match obj_get o k with
  | Some v => own v
  | None => if includes Object_prototype_members k then inherited else absent
  end.

(** The property key an inherited member turns into when it is used to
    index an object: the text of the function, or of the prototype
    object. *)
Definition member_to_key (k : string) : string :=
  if String.eqb k "__proto__" then "[object Object]"
  else if String.eqb k "constructor"
  then "function Object() { [native code] }"
  else "function " ++ k ++ "() { [native code] }".

(** A number that may be NaN or infinite.  The sign of zero is not kept: a
    division by zero takes the zero as positive. *)
Inductive number : Type :=
| NaN
| Infinity (negative : bool)
| finite (q : Q).

Definition num_sub (a b : number) : number :=
  match a, b with
  | NaN, _ | _, NaN => NaN
  | finite x, finite y => finite (x - y)
  | Infinity s, finite _ => Infinity s
  | finite _, Infinity s => Infinity (negb s)
  | Infinity s, Infinity t => if Bool.eqb s t then NaN else Infinity s
  end.

Definition num_mul (a b : number) : number :=
  match a, b with
  | NaN, _ | _, NaN => NaN
  | finite x, finite y => finite (x * y)
  | Infinity s, finite y | finite y, Infinity s =>
      if Qeq_bool y 0 then NaN else Infinity (xorb s (Qltb y 0))
  | Infinity s, Infinity t => Infinity (xorb s t)
  end.

Definition num_div (a b : number) : number :=
  match a, b with
  | NaN, _ | _, NaN => NaN
  | finite x, finite y =>
      if Qeq_bool y 0
      then if Qeq_bool x 0 then NaN else Infinity (Qltb x 0)
      else finite (x / y)
  | Infinity s, finite y => Infinity (xorb s (Qltb y 0))
  | finite _, Infinity _ => finite 0
  | Infinity _, Infinity _ => NaN
  end.

(** [a > b], [a >= b] and [a === b]: false as soon as one side is NaN. *)
Definition num_gtb (a b : number) : bool :=
  match a, b with
  | NaN, _ | _, NaN => false
  | finite x, finite y => Qgtb x y
  | Infinity s, Infinity t => andb (negb s) t
  | Infinity s, finite _ => negb s
  | finite _, Infinity t => t
  end.

Definition num_eqb (a b : number) : bool :=
  match a, b with
  | finite x, finite y => Qeq_bool x y
  | Infinity s, Infinity t => Bool.eqb s t
  | _, _ => false
  end.

Definition num_geb (a b : number) : bool := orb (num_gtb a b) (num_eqb a b).

(** [Math.min(a, b)] and [Math.max(a, b)]: NaN wins. *)
Definition num_min (a b : number) : number :=
  match a, b with
  | NaN, _ | _, NaN => NaN
  | _, _ => if num_gtb a b then b else a
  end.

Definition num_max (a b : number) : number :=
  match a, b with
  | NaN, _ | _, NaN => NaN
  | _, _ => if num_gtb b a then b else a
  end.

(** The outcome of a route: a JSON body, or an error status with a message. *)
Inductive Response (A : Type) : Type :=
| Ok (body : A)
| Error (status : nat) (message : string).

Arguments Ok {A} body.
Arguments Error {A} status message.

End Js.

Import Js.

(** ** detect-momentum/route.ts *)

Module DetectMomentum.

(** One entry of the markets snapshot. *)
Record Coin : Type := mkCoin {
  symbol : string;
  name : string;
  current_price : jsval;
  total_volume : jsval;
  market_cap : jsval;
  price_change_percentage_24h : jsval;
  price_change_percentage_1h_in_currency : jsval;
  price_change_percentage_24h_in_currency : jsval;
  price_change_percentage_7d_in_currency : jsval
}.

(** [coin[field]] for the change fields. *)
Definition coin_get (coin : Coin) (field : string) : jsval :=
  if String.eqb field "price_change_percentage_1h_in_currency"
  then price_change_percentage_1h_in_currency coin
  else if String.eqb field "price_change_percentage_24h_in_currency"
  then price_change_percentage_24h_in_currency coin
  else if String.eqb field "price_change_percentage_7d_in_currency"
  then price_change_percentage_7d_in_currency coin
  else if String.eqb field "price_change_percentage_24h"
  then price_change_percentage_24h coin
  else undefined.

Definition timeframeMappings : Obj string :=
  [ ("1h", "price_change_percentage_1h_in_currency");
    ("24h", "price_change_percentage_24h_in_currency");
    ("7d", "price_change_percentage_7d_in_currency") ].

(** [timeframeMappings[timeframe] || "price_change_percentage_24h_in_currency"]:
    an inherited member is truthy, so it is kept and later indexes the coin
    through its text, which names no field. *)
Definition changeField (timeframe : string) : string :=
  match obj_lookup timeframeMappings timeframe with
  | own f => f
  | inherited => member_to_key timeframe
  | absent => "price_change_percentage_24h_in_currency"
  end.

Definition chainMappings : Obj (list string) :=
  [ ("BTC", ["Bitcoin"; "Ethereum (wBTC)"; "BSC (BTCB)"; "Solana (Portal BTC)"]);
    ("ETH", ["Ethereum"; "BSC (ETH)"; "Polygon (ETH)"; "Arbitrum (ETH)";
             "Optimism (ETH)"]);
    ("SOL", ["Solana"; "Ethereum (Wrapped SOL)"; "BSC (SOL)"]);
    ("MATIC", ["Polygon"; "Ethereum (MATIC)"; "BSC (MATIC)"]);
    ("AVAX", ["Avalanche"; "Ethereum (AVAX)"; "BSC (AVAX)"]);
    ("BNB", ["BSC"; "Ethereum (BNB)"]);
    ("ADA", ["Cardano"; "Ethereum (ADA)"; "BSC (ADA)"]);
    ("DOT", ["Polkadot"; "Ethereum (DOT)"; "BSC (DOT)"]) ].

Definition getAvailableChains (sym : string) : list string :=
  match obj_get chainMappings sym with
  | Some l => l
  | None => ["Ethereum"; "BSC"]
  end.

Definition calculateMomentumScore (coin : Coin) : Q :=
  let change24h := or_num (price_change_percentage_24h coin) 0 in
  let change1h := or_num (price_change_percentage_1h_in_currency coin) 0 in
  let volume := or_num (total_volume coin) 0 in
  let marketCap := or_num (market_cap coin) 0 in
  let score := 0 in
  let score := score + Qabs change24h * 2 in
  let score := score + Qabs change1h * 3 in
  let score := score + Qmin ((volume / 1000000000) * 10) 20 in
  let score := score + Qmin ((marketCap / 1000000000) * 2) 10 in
  Math_round (score * 10) / 10.

Definition determineTrend (changePercent : jsval) : string :=
  match changePercent with
  | null | undefined => "neutral"
  | num c =>
      if Qgtb c 15 then "very_bullish"
      else if Qgtb c 8 then "strong_bullish"
      else if Qgtb c 3 then "bullish"
      else if Qgtb c (-3) then "neutral"
      else if Qgtb c (-8) then "bearish"
      else if Qgtb c (-15) then "strong_bearish"
      else "very_bearish"
  end.

(** One element of the [tokens] array of the response. *)
Record Token : Type := mkToken {
  token : string;
  token_name : string;
  change24h : Q;
  change1h : Q;
  change7d : Q;
  price : jsval;
  volume24h : jsval;
  marketCap : jsval;
  chains : list string;
  momentumScore : Q;
  trend : string
}.

(** The [summary] template string, by its interpolated values:
    "Found [found] tokens with [threshold]%+ momentum in [timeframe]". *)
Record Summary : Type := mkSummary {
  found : nat;
  summary_threshold : Q;
  summary_timeframe : string
}.

Record ScanBody : Type := mkScanBody {
  threshold : Q;
  timeframe : string;
  momentumDetected : bool;
  tokens : list Token;
  summary : Summary
}.

(** The filter callback. *)
Definition hasMomentum (field : string) (threshold : Q) (coin : Coin) : bool :=
  let change := coin_get coin field in
  andb (strict_neq_null change) (abs_geb change threshold).

(** The map callback. *)
Definition toToken (field : string) (coin : Coin) : Token :=
  {| token := toUpperCase (symbol coin);
     token_name := name coin;
     change24h := or_num (price_change_percentage_24h coin) 0;
     change1h := or_num (price_change_percentage_1h_in_currency coin) 0;
     change7d := or_num (price_change_percentage_7d_in_currency coin) 0;
     price := current_price coin;
     volume24h := total_volume coin;
     marketCap := market_cap coin;
     chains := getAvailableChains (toUpperCase (symbol coin));
     momentumScore := calculateMomentumScore coin;
     trend := determineTrend (coin_get coin field) |}.

Definition tokensWithMomentum (marketData : list Coin) (threshold : Q)
    (timeframe : string) : list Token :=
  let field := changeField timeframe in
  Array_sort (fun a b => momentumScore b - momentumScore a)
    (map (toToken field) (filter (hasMomentum field threshold) marketData)).

(** [GET]: [upstream] is the outcome of the markets fetch, [None] when the
    fetch throws or answers with a non-success status. *)
Definition GET (threshold : Q) (timeframe : string)
    (upstream : option (list Coin)) : Response ScanBody :=
  match upstream with
  | None =>
      Error 503 "Failed to fetch live market data. Please try again later."
  | Some marketData =>
      let found := tokensWithMomentum marketData threshold timeframe in
      Ok {| threshold := threshold;
            timeframe := timeframe;
            momentumDetected := Nat.ltb 0 (List.length found);
            tokens := firstn 10 found;
            summary := {| found := List.length found;
                          summary_threshold := threshold;
                          summary_timeframe := timeframe |} |}
  end.

(** The change a timeframe selects, in the words of the specification: the
    1h, 24h or 7d change for "1h", "24h" and "7d", the 24h change by
    default. *)
Definition selectedChange (timeframe : string) (coin : Coin) : jsval :=
  if String.eqb timeframe "1h"
  then price_change_percentage_1h_in_currency coin
  else if String.eqb timeframe "7d"
  then price_change_percentage_7d_in_currency coin
  else price_change_percentage_24h_in_currency coin.

(** A change value that passes the scan: a number, of absolute value at
    least the threshold. *)
Definition retained (threshold : Q) (change : jsval) : Prop :=
  exists c : Q, change = num c /\ threshold <= Qabs c.

(** The snapshot [coin] with its 24h change replaced by [c]. *)
Definition with_change24h (coin : Coin) (c : jsval) : Coin :=
  {| symbol := symbol coin;
     name := name coin;
     current_price := current_price coin;
     total_volume := total_volume coin;
     market_cap := market_cap coin;
     price_change_percentage_24h := c;
     price_change_percentage_1h_in_currency :=
       price_change_percentage_1h_in_currency coin;
     price_change_percentage_24h_in_currency :=
       price_change_percentage_24h_in_currency coin;
     price_change_percentage_7d_in_currency :=
       price_change_percentage_7d_in_currency coin |}.

End DetectMomentum.

(** ** analyze-momentum/route.ts *)

Module AnalyzeMomentum.

(** [coinData.market_data].  A field named after a per-currency object holds
    the value of its [?.usd] access: [undefined] when the object or its
    [usd] key is absent, [null] when the feed sends [null]. *)
Record MarketData : Type := mkMarketData {
  price_change_percentage_1h_in_currency : jsval;
  price_change_percentage_24h_in_currency : jsval;
  price_change_percentage_7d_in_currency : jsval;
  total_volume : jsval;
  market_cap : jsval;
  current_price : jsval;
  circulating_supply : jsval;
  sparkline_7d : option (list Q)
}.

Record CoinData : Type := mkCoinData {
  market_data : option MarketData
}.

Record TimeframeData : Type := mkTimeframeData {
  change : Q;
  volume : Q;
  trend : string
}.

Record TechnicalData : Type := mkTechnicalData {
  rsi : Q;
  volumeProfile : string;
  crossChainFlow : string;
  socialSentiment : Q
}.

Definition tokenMapping : Obj string :=
  [ ("BTC", "bitcoin"); ("ETH", "ethereum"); ("SOL", "solana");
    ("MATIC", "matic-network"); ("AVAX", "avalanche-2");
    ("BNB", "binancecoin"); ("ADA", "cardano"); ("DOT", "polkadot");
    ("LINK", "chainlink"); ("UNI", "uniswap") ].

Definition getTokenId (symbol : string) : option string :=
  obj_get tokenMapping symbol.

Definition determineTrend (changePercent : jsval) : string :=
  match changePercent with
  | null | undefined => "neutral"
  | num c =>
      if Qgtb c 15 then "very_bullish"
      else if Qgtb c 8 then "strong_bullish"
      else if Qgtb c 3 then "bullish"
      else if Qgtb c (-3) then "neutral"
      else if Qgtb c (-8) then "bearish"
      else if Qgtb c (-15) then "strong_bearish"
      else "very_bearish"
  end.

(** The [for] loop of [calculateRSI]: [prices[i] - prices[i - 1]] for
    [i] from 1. *)
Fixpoint changes (prices : list Q) : list Q :=
  match prices with
  | [] => []
  | a :: r =>
      match r with
      | [] => []
      | b :: _ => (b - a) :: changes r
      end
  end.

Definition gains (prices : list Q) : list Q :=
  map (fun ch => if Qgtb ch 0 then ch else 0) (changes prices).

Definition losses (prices : list Q) : list Q :=
  map (fun ch => if Qltb ch 0 then Qabs ch else 0) (changes prices).

Definition avgGain (prices : list Q) : Q :=
  sum (slice_last 14 (gains prices)) / 14.

Definition avgLoss (prices : list Q) : Q :=
  sum (slice_last 14 (losses prices)) / 14.

Definition calculateRSI (prices : list Q) : Q :=
  if Nat.ltb (List.length prices) 14 then 50
  else if Qeq_bool (avgLoss prices) 0 then 100
  else
    let rs := avgGain prices / avgLoss prices in
    let rsi := 100 - 100 / (1 + rs) in
    Math_round rsi.

Definition analyzeVolumeProfile (marketData : MarketData) : string :=
  let currentVolume := or_num (total_volume marketData) 0 in
  let marketCap := or_num (market_cap marketData) 0 in
  if Qeq_bool marketCap 0 then "unknown"
  else
    let volumeToMcapRatio := currentVolume / marketCap in
    if Qgtb volumeToMcapRatio 0.5 then "exploding"
    else if Qgtb volumeToMcapRatio 0.2 then "increasing"
    else if Qgtb volumeToMcapRatio 0.05 then "normal"
    else "decreasing".

Definition analyzeCrossChainFlow (marketData : MarketData) : string :=
  let change24h := or_num (price_change_percentage_24h_in_currency marketData) 0 in
  let volume := or_num (total_volume marketData) 0 in
  if andb (Qgtb change24h 5) (Qgtb volume 1000000000) then "very_positive"
  else if andb (Qgtb change24h 2) (Qgtb volume 500000000) then "positive"
  else if andb (Qgtb change24h (-2)) (Qgtb volume 100000000) then "neutral"
  else if Qltb change24h (-5) then "negative"
  else "neutral".

Definition calculateSocialSentiment (marketData : MarketData) : Q :=
  let change24h := or_num (price_change_percentage_24h_in_currency marketData) 0 in
  let volume := or_num (total_volume marketData) 0 in
  let marketCap := or_num (market_cap marketData) 0 in
  let sentiment := 0.5 in
  let sentiment := sentiment + (change24h / 100) * 0.3 in
  let sentiment :=
    if Qgtb marketCap 0
    then sentiment + Qmin ((volume / marketCap) * 0.2) 0.2
    else sentiment in
  Qmax 0 (Qmin 1 sentiment).

(** One of the three guarded assignments to [timeframeAnalysis]. *)
Definition addTimeframe (timeframes : list string) (marketData : MarketData)
    (key : string) (field : jsval) (acc : Obj TimeframeData)
  : Obj TimeframeData :=
  if andb (includes timeframes key) (strict_neq_null field)
  then obj_set acc key
         {| change := or_num field 0;
            volume := or_num (total_volume marketData) 0;
            trend := determineTrend (num (or_num field 0)) |}
  else acc.

Definition timeframeAnalysis (timeframes : list string)
    (marketData : MarketData) : Obj TimeframeData :=
  let acc := [] in
  let acc := addTimeframe timeframes marketData "1h"
               (price_change_percentage_1h_in_currency marketData) acc in
  let acc := addTimeframe timeframes marketData "24h"
               (price_change_percentage_24h_in_currency marketData) acc in
  let acc := addTimeframe timeframes marketData "7d"
               (price_change_percentage_7d_in_currency marketData) acc in
  acc.

(** The per-timeframe contribution. *)
Definition timeframeScore (data : TimeframeData) : Q :=
  let score := 0 in
  let score := score + Qmin (Qabs (change data) * 10) 50 in
  let score := score + Qmin ((volume data / 1000000000) * 5) 25 in
  score.

Definition avgScore (analysis : Obj TimeframeData) : Q :=
  let scores := map timeframeScore (Object_values analysis) in
  if Nat.ltb 0 (List.length scores)
  then sum scores / inject_Z (Z.of_nat (List.length scores))
  else 0.

Definition momentumStatus (avgScore : Q) : string * string :=
  if Qgtb avgScore 60 then ("very_strong", "aggressive_buy")
  else if Qgtb avgScore 40 then ("strong", "buy")
  else if Qgtb avgScore 20 then ("building", "cautious_buy")
  else if Qltb avgScore (-20) then ("fading", "sell")
  else ("neutral", "hold").

Record MarketSummary : Type := mkMarketSummary {
  currentPrice : Q;
  marketCap : Q;
  volume24h : Q;
  circulatingSupply : Q
}.

Record AnalyzeBody : Type := mkAnalyzeBody {
  token : string;
  momentumScore : Q;
  status : string;
  recommendation : string;
  timeframes : Obj TimeframeData;
  technicals : TechnicalData;
  riskLevel : string;
  marketData : MarketSummary
}.

(** The handler after the query string is read.  [upstream] is the outcome
    of the coin fetch, [None] when it throws or answers with a non-success
    status. *)
Definition analyze (token : string) (timeframes : list string)
    (upstream : option CoinData) : Response AnalyzeBody :=
  match getTokenId (toUpperCase token) with
  | None => Error 400 ("Token " ++ token ++ " not supported")
  | Some _ =>
    match upstream with
    | None =>
        Error 503 "Failed to fetch live market data. Please try again later."
    | Some coinData =>
      match market_data coinData with
      | None => Error 400 ("Market data for " ++ token ++ " not available")
      | Some md =>
          let analysis := timeframeAnalysis timeframes md in
          let technicals :=
            {| rsi := calculateRSI
                        (match sparkline_7d md with
                         | Some prices => prices
                         | None => []
                         end);
               volumeProfile := analyzeVolumeProfile md;
               crossChainFlow := analyzeCrossChainFlow md;
               socialSentiment := calculateSocialSentiment md |} in
          let avg := avgScore analysis in
          Ok {| token := toUpperCase token;
                momentumScore := Math_round (avg * 10) / 10;
                status := fst (momentumStatus avg);
                recommendation := snd (momentumStatus avg);
                timeframes := analysis;
                technicals := technicals;
                riskLevel := if Qgtb avg 50 then "high"
                             else if Qgtb avg 30 then "medium" else "low";
                marketData :=
                  {| currentPrice := or_num (current_price md) 0;
                     marketCap := or_num (market_cap md) 0;
                     volume24h := or_num (total_volume md) 0;
                     circulatingSupply :=
                       or_num (circulating_supply md) 0 |} |}
      end
    end
  end.

(** [GET]: the query parameters with their defaults. *)
Definition GET (token timeframes : option string)
    (upstream : option CoinData) : Response AnalyzeBody :=
  analyze (param_or token "BTC")
          (param_split_or timeframes ["1h"; "4h"; "24h"])
          upstream.

End AnalyzeMomentum.

(** ** get-cross-chain-prices/route.ts *)

Module CrossChainPrices.

(** A quote as it is at run time.  [None] stands for [undefined] and, in
    [symbol], for the inherited member found in the place of a string; the
    JSON of the response leaves both out and writes a NaN price as
    [null]. *)
Record ChainData : Type := mkChainData {
  symbol : option string;
  price : number;
  dex : option string;
  slippage : option Q
}.

Record ChainVariation : Type := mkChainVariation {
  priceFactor : Q;
  variation_slippage : Q;
  variation_dex : string
}.

(** The source of [Math.random()]: the draw of each call, in call order. *)
Definition Rng : Type := nat -> Q.

Definition Math_random (rng : Rng) : Q * Rng :=
  (rng 0%nat, fun n => rng (S n)).

Definition tokenMapping : Obj string :=
  [ ("BTC", "bitcoin"); ("ETH", "ethereum"); ("SOL", "solana");
    ("MATIC", "matic-network"); ("AVAX", "avalanche-2");
    ("BNB", "binancecoin"); ("ADA", "cardano"); ("DOT", "polkadot");
    ("LINK", "chainlink"); ("UNI", "uniswap") ].

(** [symbol] is upper-cased by the caller, and an upper-cased string names
    no inherited member. *)
Definition getTokenIds (sym : string) : option string :=
  obj_get tokenMapping sym.

Definition binanceMapping : Obj string :=
  [ ("BTC", "BTCUSDT"); ("ETH", "ETHUSDT"); ("SOL", "SOLUSDT");
    ("MATIC", "MATICUSDT"); ("AVAX", "AVAXUSDT"); ("BNB", "BNBUSDT");
    ("ADA", "ADAUSDT"); ("DOT", "DOTUSDT"); ("LINK", "LINKUSDT");
    ("UNI", "UNIUSDT") ].

Definition getBinanceSymbol (sym : string) : option string :=
  obj_get binanceMapping sym.

Definition chainVariations : Obj ChainVariation :=
  [ ("ethereum", mkChainVariation 1.0 0.1 "Uniswap V3");
    ("bsc", mkChainVariation 0.998 0.3 "PancakeSwap");
    ("polygon", mkChainVariation 1.001 0.4 "QuickSwap");
    ("solana", mkChainVariation 0.999 0.2 "Jupiter");
    ("arbitrum", mkChainVariation 1.0005 0.15 "Uniswap V3");
    ("optimism", mkChainVariation 1.0002 0.18 "Uniswap V3");
    ("avalanche", mkChainVariation 0.997 0.25 "Trader Joe") ].

Definition tokenSymbols : Obj (Obj string) :=
  [ ("BTC", [ ("ethereum", "wBTC"); ("bsc", "BTCB"); ("polygon", "wBTC");
              ("solana", "Portal BTC"); ("arbitrum", "wBTC");
              ("optimism", "wBTC"); ("avalanche", "BTC.b") ]);
    ("ETH", [ ("ethereum", "ETH"); ("bsc", "ETH"); ("polygon", "ETH");
              ("solana", "Wrapped ETH"); ("arbitrum", "ETH");
              ("optimism", "ETH"); ("avalanche", "WETH.e") ]);
    ("SOL", [ ("solana", "SOL"); ("ethereum", "SOL"); ("bsc", "SOL") ]) ].

(** [tokenSymbols[token]?.[chain]], for the upper-cased [token] the caller
    passes: the chain comes from the request as it is and may name an
    inherited member. *)
Definition symbolOn (token chain : string) : Lookup string :=
  match obj_get tokenSymbols token with
  | Some onChains => obj_lookup onChains chain
  | None => absent
  end.

(** [!x] for the outcome of a lookup in a table of objects or of strings. *)
Definition falsy_variation (chainData : Lookup ChainVariation) : bool :=
  match chainData with
  | absent => true
  | _ => false
  end.

Definition falsy_symbol (sym : Lookup string) : bool :=
  match sym with
  | absent => true
  | own s => String.eqb s ""
  | inherited => false
  end.

(** [getChainInfo]: draws from [rng] only past the guard.  An inherited
    member passes the guard; it has no [priceFactor], [slippage] or [dex],
    so the price factor, and with it the price, is NaN. *)
Definition getChainInfo (chain token : string) (basePrice volume24h : Q)
    (rng : Rng) : option ChainData * Rng :=
  let chainData := obj_lookup chainVariations chain in
  let sym := symbolOn token chain in
  if orb (falsy_variation chainData) (falsy_symbol sym) then (None, rng)
  else
    let volumeImpact := Qmin (volume24h / 10000000000) 0.002 in
    let (r, rng') := Math_random rng in
    let randomVariation := (r - 0.5) * 0.004 in
    let finalPriceFactor :=
      match chainData with
      | own variation =>
          finite (priceFactor variation + volumeImpact + randomVariation)
      | _ => NaN
      end in
    (Some {| symbol := match sym with own s => Some s | _ => None end;
             price := num_mul (finite basePrice) finalPriceFactor;
             slippage := match chainData with
                         | own variation => Some (variation_slippage variation)
                         | _ => None
                         end;
             dex := match chainData with
                    | own variation => Some (variation_dex variation)
                    | _ => None
                    end |}, rng').

(** The entry of the price feed for the token. *)
Record TokenData : Type := mkTokenData {
  usd : Q;
  usd_24h_vol : jsval;
  usd_24h_change : jsval
}.

(** The fields read from the answer of the second feed. *)
Record BinanceTicker : Type := mkBinanceTicker {
  ticker_volume : Q;
  priceChangePercent : Q
}.

(** [crossChainPrices[chain] = chainInfo]: the assignment to [__proto__]
    replaces the prototype of the object and creates no key. *)
Definition storeQuote (acc : Obj ChainData) (chain : string)
    (chainInfo : ChainData) : Obj ChainData :=
  if String.eqb chain "__proto__" then acc else obj_set acc chain chainInfo.

(** The [for ... of chains] loop, with the random source threaded. *)
Definition crossChainPrices (chains : list string) (token : string)
    (basePrice volume24h : Q) (rng : Rng) : Obj ChainData * Rng :=
  fold_left
    (fun (st : Obj ChainData * Rng) chain =>
       let (acc, rng) := st in
       match getChainInfo chain token basePrice volume24h rng with
       | (Some chainInfo, rng') => (storeQuote acc chain chainInfo, rng')
       | (None, rng') => (acc, rng')
       end)
    chains ([], rng).

(** [Math.min(...prices)] and [Math.max(...prices)] *)
Definition Math_min (prices : list number) : number :=
  fold_left num_min prices (Infinity false).

Definition Math_max (prices : list number) : number :=
  fold_left num_max prices (Infinity true).

(** [Object.keys(o).find(chain => o[chain].price === target)] *)
Definition findChain (o : Obj ChainData) (target : number) : option string :=
  match find (fun kv : string * ChainData => num_eqb (price (snd kv)) target) o
  with
  | Some kv => Some (fst kv)
  | None => None
  end.

(** The response keeps [opportunity] as text, the spread with two decimals
    and a percent sign; here it is the spread itself. *)
Record Arbitrage : Type := mkArbitrage {
  opportunity : number;
  buyChain : option string;
  sellChain : option string;
  profitable : bool;
  minSpread : string
}.

Record PriceMarketData : Type := mkPriceMarketData {
  basePrice : Q;
  volume24h : Q;
  change24h : Q;
  binanceData : option BinanceTicker
}.

Record PricesBody : Type := mkPricesBody {
  token : string;
  chains : Obj ChainData;
  arbitrage : Arbitrage;
  marketData : PriceMarketData
}.

(** The spread [((maxPrice - minPrice) / minPrice) * 100] of a quote set. *)
Definition spread (quotes : Obj ChainData) : number :=
  let prices := map price (Object_values quotes) in
  let minPrice := Math_min prices in
  let maxPrice := Math_max prices in
  num_mul (num_div (num_sub maxPrice minPrice) minPrice) (finite 100).

(** The handler after the query string is read.  [upstream] is the outcome
    of the price fetch ([None]: it failed), holding the entry of the token
    when the answer has one; [binance] is the outcome of the second fetch. *)
Definition prices (token : string) (chains : list string)
    (upstream : option (option TokenData)) (binance : option BinanceTicker)
    (rng : Rng) : Response PricesBody :=
  match getTokenIds (toUpperCase token) with
  | None => Error 400 ("Token " ++ token ++ " not supported")
  | Some _ =>
    match upstream with
    | None =>
        Error 503 "Failed to fetch live price data. Please try again later."
    | Some None => Error 400 ("Price data for " ++ token ++ " not available")
    | Some (Some tokenData) =>
        let basePrice := usd tokenData in
        let volume24h := or_num (usd_24h_vol tokenData) 0 in
        let quotes :=
          fst (crossChainPrices chains (toUpperCase token)
                 basePrice volume24h rng) in
        if Nat.eqb (List.length (Object_keys quotes)) 0
        then Error 400 "No supported chains found for this token"
        else
          let prices := map price (Object_values quotes) in
          let minPrice := Math_min prices in
          let maxPrice := Math_max prices in
          let arbitrageOpportunity := spread quotes in
          let binanceData :=
            match getBinanceSymbol (toUpperCase token) with
            | Some _ => binance
            | None => None
            end in
          Ok {| token := toUpperCase token;
                chains := quotes;
                arbitrage :=
                  {| opportunity := arbitrageOpportunity;
                     buyChain := findChain quotes minPrice;
                     sellChain := findChain quotes maxPrice;
                     profitable := num_gtb arbitrageOpportunity (finite 1);
                     minSpread := "0.5%" |};
                marketData :=
                  {| basePrice := basePrice;
                     volume24h := volume24h;
                     change24h := or_num (usd_24h_change tokenData) 0;
                     binanceData := binanceData |} |}
    end
  end.

(** [GET]: the query parameters with their defaults. *)
Definition GET (token chains : option string)
    (upstream : option (option TokenData)) (binance : option BinanceTicker)
    (rng : Rng) : Response PricesBody :=
  prices (param_or token "BTC")
         (param_split_or chains ["ethereum"; "bsc"; "polygon"; "solana"])
         upstream binance rng.

End CrossChainPrices.

(** ** create-momentum-strategy/route.ts *)

Module CreateStrategy.

Record AllocationData : Type := mkAllocationData {
  percentage : Q;
  amount : Q;
  symbol : string;
  reasoning : string
}.

Definition Allocation : Type := Obj AllocationData.

Record ExitStrategy : Type := mkExitStrategy {
  profitTarget : Q;
  stopLoss : Q;
  timeLimit : string;
  partialExit : Obj string
}.

Record Strategy : Type := mkStrategy {
  primary : string;
  allocation : Allocation;
  exitStrategy : ExitStrategy
}.

Definition riskMultipliers : Obj Q :=
  [ ("low", 0.3); ("medium", 0.6); ("high", 0.9) ].

(** [riskMultipliers[riskLevel] || 0.6] *)
Definition riskMultiplier (riskLevel : string) : Q :=
  match obj_get riskMultipliers riskLevel with
  | Some m => if Qeq_bool m 0 then 0.6 else m
  | None => 0.6
  end.

(** The templates, whose amounts are fractions of [maxPosition]. *)
Definition strategies (maxPosition : Q) : Obj Strategy :=
  [ ("BTC",
     {| primary := "ethereum";
        allocation :=
          [ ("ethereum", mkAllocationData 40 (maxPosition * 0.4) "wBTC"
                           "Highest liquidity, lowest slippage");
            ("bsc", mkAllocationData 25 (maxPosition * 0.25) "BTCB"
                      "Good liquidity, lower fees");
            ("polygon", mkAllocationData 20 (maxPosition * 0.2) "wBTC"
                          "Low fees, decent liquidity");
            ("solana", mkAllocationData 15 (maxPosition * 0.15) "Portal BTC"
                         "Fast execution, growing ecosystem") ];
        exitStrategy :=
          {| profitTarget := 15;
             stopLoss := 8;
             timeLimit := "24h";
             partialExit :=
               [ ("fifty_percent", "at 8% profit");
                 ("thirty_percent", "at 12% profit");
                 ("twenty_percent", "let it ride to target") ] |} |});
    ("ETH",
     {| primary := "ethereum";
        allocation :=
          [ ("ethereum", mkAllocationData 50 (maxPosition * 0.5) "ETH"
                           "Native chain, maximum liquidity");
            ("arbitrum", mkAllocationData 25 (maxPosition * 0.25) "ETH"
                           "L2 efficiency, high liquidity");
            ("bsc", mkAllocationData 15 (maxPosition * 0.15) "ETH"
                      "Cross-chain exposure");
            ("polygon", mkAllocationData 10 (maxPosition * 0.1) "ETH"
                          "Low fee option") ];
        exitStrategy :=
          {| profitTarget := 12;
             stopLoss := 6;
             timeLimit := "18h";
             partialExit :=
               [ ("forty_percent_a", "at 6% profit");
                 ("forty_percent_b", "at 10% profit");
                 ("twenty_percent", "hold to target") ] |} |});
    ("SOL",
     {| primary := "solana";
        allocation :=
          [ ("solana", mkAllocationData 60 (maxPosition * 0.6) "SOL"
                         "Native chain, best price discovery");
            ("ethereum", mkAllocationData 25 (maxPosition * 0.25) "SOL"
                           "Cross-chain arbitrage potential");
            ("bsc", mkAllocationData 15 (maxPosition * 0.15) "SOL"
                      "Additional exposure, lower fees") ];
        exitStrategy :=
          {| profitTarget := 20;
             stopLoss := 10;
             timeLimit := "12h";
             partialExit :=
               [ ("thirty_percent", "at 10% profit");
                 ("forty_percent", "at 15% profit");
                 ("thirty_percent_hold", "hold to target") ] |} |}) ].

(** The [forEach] over [Object.entries(strategy.allocation)]. *)
Definition filterAllocation (chains : list string) (template : Allocation)
  : Allocation :=
  fold_left
    (fun (filteredAllocation : Allocation) (entry : string * AllocationData) =>
       let (chain, data) := entry in
       if includes chains chain
       then obj_set filteredAllocation chain data
       else filteredAllocation)
    (Object_entries template) [].

(** [filteredAllocation[a].percentage], for a key [a] of the object. *)
Definition percentageOf (filteredAllocation : Allocation) (a : string) : Q :=
  match obj_get filteredAllocation a with
  | Some data => percentage data
  | None => 0
  end.

Definition executionOrderOf (filteredAllocation : Allocation) : list string :=
  Array_sort
    (fun a b =>
       percentageOf filteredAllocation b - percentageOf filteredAllocation a)
    (Object_keys filteredAllocation).

Record StrategyPlan : Type := mkStrategyPlan {
  plan_primary : string;
  plan_allocation : Allocation;
  executionOrder : list string;
  plan_exitStrategy : ExitStrategy
}.

Record StrategyBody : Type := mkStrategyBody {
  token : string;
  budget : Q;
  riskLevel : string;
  maxPosition : Q;
  strategy : StrategyPlan;
  estimatedReturns : Obj string;
  timeline : string;
  risks : list string
}.

(** The handler after the query string is read and the budget parsed. *)
Definition buildStrategy (token : string) (budget : Q) (riskLevel : string)
    (chains : list string) : Response StrategyBody :=
  let maxPosition := budget * riskMultiplier riskLevel in
  match obj_get (strategies maxPosition) (toUpperCase token) with
  | None => Error 400 ("Strategy for " ++ token ++ " not available")
  | Some strategy =>
      let filteredAllocation :=
        filterAllocation chains (allocation strategy) in
      Ok {| token := toUpperCase token;
            budget := budget;
            riskLevel := riskLevel;
            maxPosition := maxPosition;
            strategy :=
              {| plan_primary := primary strategy;
                 plan_allocation := filteredAllocation;
                 executionOrder := executionOrderOf filteredAllocation;
                 plan_exitStrategy := exitStrategy strategy |};
            estimatedReturns :=
              [ ("conservative", "8-12%"); ("moderate", "12-18%");
                ("aggressive", "18-25%") ];
            timeline := "Entry: 15-30 minutes, Full cycle: 12-24 hours";
            risks := [ "Cross-chain bridge delays"; "Momentum reversal";
                       "Liquidity gaps"; "Gas fee spikes" ] |}
  end.

(** [GET]: the query parameters with their defaults; [budget] is the parsed
    number, [None] when the parameter is absent. *)
Definition GET (token : option string) (budget : option Q)
    (riskLevel chains : option string) : Response StrategyBody :=
  buildStrategy (param_or token "BTC")
                (match budget with Some b => b | None => 2000 end)
                (param_or riskLevel "medium")
                (param_split_or chains
                   ["ethereum"; "bsc"; "polygon"; "solana"]).

(** The token has a template. *)
Definition supported (token : string) : Prop :=
  In (toUpperCase token) ["BTC"; "ETH"; "SOL"].

End CreateStrategy.

(** ** execute-momentum-trade/route.ts *)

Module ExecuteTrade.

(** [s.toLowerCase()] on ASCII text. *)
Definition lower_ascii (c : ascii) : ascii :=
  let n := nat_of_ascii c in
  if andb (Nat.leb 65 n) (Nat.leb n 90) then ascii_of_nat (n + 32) else c.

Fixpoint toLowerCase (s : string) : string :=
  match s with
  | EmptyString => EmptyString
  | String c r => String (lower_ascii c) (toLowerCase r)
  end.

(** [table[key] || fallback] for a table of strings. *)
Definition lookup_or (table : Obj string) (key fallback : string) : string :=
  match obj_get table key with
  | Some v => if String.eqb v "" then fallback else v
  | None => fallback
  end.

Definition symbols : Obj (Obj string) :=
  [ ("BTC", [ ("ethereum", "wBTC"); ("bsc", "BTCB");
              ("solana", "Portal BTC"); ("polygon", "wBTC");
              ("near", "nBTC") ]);
    ("ETH", [ ("ethereum", "ETH"); ("bsc", "ETH");
              ("solana", "Wrapped ETH"); ("polygon", "ETH");
              ("arbitrum", "ETH"); ("near", "nETH") ]);
    ("SOL", [ ("solana", "SOL"); ("ethereum", "SOL"); ("bsc", "SOL");
              ("near", "nSOL") ]) ].

Definition getTokenSymbol (token chain : string) : string :=
  match obj_get symbols (toUpperCase token) with
  | Some onChains => lookup_or onChains chain token
  | None => token
  end.

Definition gasEstimates : Obj string :=
  [ ("ethereum", "0.015 ETH"); ("bsc", "0.003 BNB");
    ("polygon", "0.01 MATIC"); ("arbitrum", "0.005 ETH");
    ("solana", "0.001 SOL"); ("near", "0.01 NEAR") ].

Definition getEstimatedGas (chain : string) : string :=
  lookup_or gasEstimates chain "0.01 ETH".

Definition slippages : Obj string :=
  [ ("ethereum", "0.1%"); ("bsc", "0.3%"); ("polygon", "0.4%");
    ("arbitrum", "0.2%"); ("solana", "0.2%"); ("near", "0.5%") ].

Definition getExpectedSlippage (chain : string) : string :=
  lookup_or slippages chain "0.5%".

Definition dexes : Obj string :=
  [ ("ethereum", "Uniswap V3"); ("bsc", "PancakeSwap");
    ("polygon", "QuickSwap"); ("arbitrum", "Uniswap V3");
    ("solana", "Jupiter"); ("near", "Ref Finance") ].

Definition getBestDex (chain : string) : string :=
  lookup_or dexes chain "Unknown DEX".

Definition addresses : Obj string :=
  [ ("ethereum", "0xE592427A0AEce92De3Edee1F18E0157C05861564");
    ("bsc", "0x10ED43C718714eb63d5aA57B78B54704E256024E");
    ("polygon", "0xa5E0829CaCEd8fFDD4De3c43696c57F7D7A678ff");
    ("arbitrum", "0xE592427A0AEce92De3Edee1F18E0157C05861564") ].

Definition getDexAddress (chain : string) : string :=
  lookup_or addresses chain "0x0000000000000000000000000000000000000000".

Definition chainIds : Obj Z :=
  [ ("ethereum", 1%Z); ("bsc", 56%Z); ("polygon", 137%Z);
    ("arbitrum", 42161%Z) ].

Definition getChainId (chain : string) : Z :=
  match obj_get chainIds chain with
  | Some n => if Z.eqb n 0 then 1%Z else n
  | None => 1%Z
  end.

Definition generateSwapData (token amount : string) : string :=
  "0x414bf389000000000000000000000000" ++ toLowerCase token
  ++ "0000000000000000000000000000000000000000000000000000000000000000000000000000000000000000"
  ++ amount.

(** [arr.map((x, index) => f(x, index))] *)
Fixpoint mapi_from {A B : Type} (f : A -> nat -> B) (index : nat)
    (l : list A) : list B :=
  match l with
  | [] => []
  | x :: r => f x index :: mapi_from f (S index) r
  end.

Definition mapi {A B : Type} (f : A -> nat -> B) (l : list A) : list B :=
  mapi_from f 0 l.

(** [amounts[index] || "1000"] *)
Definition amountAt (amounts : list string) (index : nat) : string :=
  match nth_error amounts index with
  | Some a => if String.eqb a "" then "1000" else a
  | None => "1000"
  end.

Record Trade : Type := mkTrade {
  chain : string;
  action : string;
  amount : string;
  symbol : string;
  estimatedGas : string;
  expectedSlippage : string;
  dex : string;
  priority : nat
}.

Record Timing : Type := mkTiming {
  estimatedDuration : string;
  optimalWindow : string;
  marketCondition : string
}.

Record Monitoring : Type := mkMonitoring {
  priceTargets : Obj string;
  alerts : list string
}.

Record ExecutionPlan : Type := mkExecutionPlan {
  token : string;
  status : string;
  trades : list Trade;
  timing : Timing;
  monitoring : Monitoring
}.

Inductive Payload : Type :=
| near_transaction (receiverId methodName token_in token_out amount_in
                    gas deposit : string)
| evm_transaction (to value data : string) (chainId : Z).

Record TransactionPayload : Type := mkTransactionPayload {
  payload_chain : string;
  payload : Payload
}.

Record PlanBody : Type := mkPlanBody {
  executionPlan : ExecutionPlan;
  transactionPayloads : list TransactionPayload;
  instructions : list string;
  warningsAndRisks : list string;
  nextSteps : string
}.

Definition tradeOf (token : string) (amounts : list string)
    (chain : string) (index : nat) : Trade :=
  let amount := amountAt amounts index in
  {| chain := chain;
     action := "buy";
     amount := amount;
     symbol := getTokenSymbol token chain;
     estimatedGas := getEstimatedGas chain;
     expectedSlippage := getExpectedSlippage chain;
     dex := getBestDex chain;
     priority := index + 1 |}.

Definition payloadOf (token : string) (amounts : list string)
    (chain : string) (index : nat) : TransactionPayload :=
  let amount := amountAt amounts index in
  if String.eqb chain "near"
  then {| payload_chain := chain;
          payload := near_transaction "dex.near" "swap" "near"
                       (getTokenSymbol token chain) amount
                       "100000000000000" amount |}
  else {| payload_chain := chain;
          payload := evm_transaction (getDexAddress chain) amount
                       (generateSwapData token amount)
                       (getChainId chain) |}.

(** The handler after the query string is read.  [strategy] is
    [searchParams.get("strategy")]: [None] when the parameter is absent. *)
Definition plan (strategy : option string) (token : string)
    (chains amounts : list string) : Response PlanBody :=
  if match strategy with
     | Some s => String.eqb s ""
     | None => true
     end
  then Error 400 "Strategy parameter is required"
  else
    Ok {| executionPlan :=
            {| token := toUpperCase token;
               status := "ready_for_execution";
               trades := mapi (tradeOf token amounts) chains;
               timing :=
                 {| estimatedDuration := "15-30 minutes";
                    optimalWindow := "Next 2 hours";
                    marketCondition := "favorable" |};
               monitoring :=
                 {| priceTargets :=
                      [ ("entry", "Current market +/- 0.5%");
                        ("profit", "+15%"); ("stopLoss", "-8%") ];
                    alerts :=
                      [ "Price movement > 2%"; "Volume spike > 50%";
                        "Cross-chain arbitrage > 3%" ] |} |};
          transactionPayloads := mapi (payloadOf token amounts) chains;
          instructions :=
            [ "1. Review the execution plan and transaction payloads";
              "2. Execute trades in the specified priority order";
              "3. Monitor price movements and momentum indicators";
              "4. Be ready to exit when profit targets are hit or momentum fades";
              "5. Use stop-losses to protect against sudden reversals" ];
          warningsAndRisks :=
            [ "High volatility - momentum can reverse quickly";
              "Cross-chain execution takes time - prices may move";
              "Gas fees can be high during volatile periods";
              "Not all chains may execute simultaneously" ];
          nextSteps :=
            "Use generate-transaction or generate-evm-tx tools to execute each payload" |}.

(** [GET]: the query parameters with their defaults. *)
Definition GET (strategy token chains amounts : option string)
  : Response PlanBody :=
  plan strategy
       (param_or token "BTC")
       (param_split_or chains ["ethereum"; "bsc"])
       (param_split_or amounts ["1000"; "500"]).

End ExecuteTrade.

(** * Properties *)

(** ** Numbers *)

Lemma Qgtb_true (x y : Q) : Qgtb x y = true <-> y < x.
Proof.
  unfold Qgtb. rewrite negb_true_iff, <- not_true_iff_false, Qle_bool_iff.
  split; [apply Qnot_le_lt | apply Qlt_not_le].
Qed.

Lemma Qgtb_false (x y : Q) : Qgtb x y = false <-> x <= y.
Proof.
  unfold Qgtb. rewrite negb_false_iff. apply Qle_bool_iff.
Qed.

Lemma Qgeb_true (x y : Q) : Qgeb x y = true <-> y <= x.
Proof. unfold Qgeb. apply Qle_bool_iff. Qed.

Lemma or_num_zero (c : Q) : or_num (num c) 0 == c.
Proof.
  simpl. destruct (Qeq_bool c 0) eqn:E; [|reflexivity].
  apply Qeq_bool_eq in E. symmetry. exact E.
Qed.

Lemma Math_round_mono (x y : Q) : x <= y -> Math_round x <= Math_round y.
Proof.
  intros H. unfold Math_round. rewrite <- Zle_Qle.
  apply Qfloor_resp_le. lra.
Qed.

Lemma Math_round_Z (z : Z) : Math_round (inject_Z z) == inject_Z z.
Proof.
  unfold Math_round.
  assert (E : Qfloor (inject_Z z + 0.5) = z).
  { pose proof (Qfloor_le (inject_Z z + 0.5)) as Hl.
    pose proof (Qlt_floor (inject_Z z + 0.5)) as Hu.
    set (f := Qfloor (inject_Z z + 0.5)) in *.
    rewrite inject_Z_plus in Hu. change (inject_Z 1) with 1 in Hu.
    assert (H1 : inject_Z f < inject_Z (z + 1)).
    { rewrite inject_Z_plus. change (inject_Z 1) with 1. lra. }
    assert (H2 : inject_Z (z + - 1) < inject_Z f).
    { rewrite inject_Z_plus. change (inject_Z (- 1)) with (- (1)). lra. }
    rewrite <- Zlt_Qlt in H1, H2. lia. }
  rewrite E. reflexivity.
Qed.

Lemma Math_round_lower (x : Q) (z : Z) :
  inject_Z z <= x -> inject_Z z <= Math_round x.
Proof.
  intros H. rewrite <- (Math_round_Z z). apply Math_round_mono. exact H.
Qed.

Lemma Math_round_upper (x : Q) (z : Z) :
  x <= inject_Z z -> Math_round x <= inject_Z z.
Proof.
  intros H. rewrite <- (Math_round_Z z). apply Math_round_mono. exact H.
Qed.

(** ** The momentum scorer *)

(** C7: the momentum score is monotonically non-decreasing in the absolute
    value of the 24h change, the other fields of the snapshot held fixed,
    and this survives the rounding to one decimal. *)
Theorem momentum_score_monotone_in_abs_change24h :
  forall (coin : DetectMomentum.Coin) (c c' : Q),
    Qabs c <= Qabs c' ->
    DetectMomentum.calculateMomentumScore
      (DetectMomentum.with_change24h coin (num c))
    <= DetectMomentum.calculateMomentumScore
      (DetectMomentum.with_change24h coin (num c')).
Proof.
  intros coin c c' H.
  unfold DetectMomentum.calculateMomentumScore.
  cbn [DetectMomentum.with_change24h
       DetectMomentum.price_change_percentage_24h
       DetectMomentum.price_change_percentage_1h_in_currency
       DetectMomentum.total_volume DetectMomentum.market_cap].
  cbv zeta.
  assert (Habs : Qabs (or_num (num c) 0) <= Qabs (or_num (num c') 0))
    by (rewrite !or_num_zero; exact H).
  apply Qmult_le_compat_r; [|discriminate].
  apply Math_round_mono. lra.
Qed.

Lemma momentum_score_monotone_witness :
  Qabs (-2) <= Qabs 3.5 /\
  DetectMomentum.calculateMomentumScore
    (DetectMomentum.with_change24h
       (DetectMomentum.mkCoin "btc" "Bitcoin" (num 60000) (num 30000000000)
          (num 1200000000000) null (num 0.4) (num 2) (num 5))
       (num (-2)))
  <= DetectMomentum.calculateMomentumScore
    (DetectMomentum.with_change24h
       (DetectMomentum.mkCoin "btc" "Bitcoin" (num 60000) (num 30000000000)
          (num 1200000000000) null (num 0.4) (num 2) (num 5))
       (num 3.5)).
Proof.
  split.
  - vm_compute. discriminate.
  - apply momentum_score_monotone_in_abs_change24h.
    vm_compute. discriminate.
Defined.

(** ** Sorting by a descending numeric key *)

Lemma firstn_In {A : Type} (n : nat) (l : list A) (x : A) :
  In x (firstn n l) -> In x l.
Proof.
  revert n. induction l as [|y r IH]; intros [|n]; simpl; try tauto.
  intros [->|H]; [left; reflexivity | right; eapply IH; exact H].
Qed.

Section SortDescending.

Context {A : Type}.
Variable key : A -> Q.

(** The comparator [(a, b) => key(b) - key(a)]. *)
Let cmp : A -> A -> Q := fun a b => key b - key a.

Let descending := descending key.

Lemma sort_insert_perm (x : A) (l : list A) :
  Permutation (sort_insert cmp x l) (x :: l).
Proof.
  induction l as [|y r IH]; simpl.
  - apply Permutation_refl.
  - destruct (Qgtb (cmp x y) 0).
    + eapply perm_trans; [apply perm_skip, IH | apply perm_swap].
    + apply Permutation_refl.
Qed.

Lemma Array_sort_perm (l : list A) : Permutation (Array_sort cmp l) l.
Proof.
  induction l as [|x r IH]; simpl.
  - apply perm_nil.
  - eapply perm_trans; [apply sort_insert_perm | apply perm_skip, IH].
Qed.

Lemma sort_insert_sorted (x : A) (l : list A) :
  StronglySorted descending l ->
  StronglySorted descending (sort_insert cmp x l).
Proof.
  induction 1 as [|y r Hr IH Hy]; simpl.
  - repeat constructor.
  - destruct (Qgtb (cmp x y) 0) eqn:E.
    + apply Qgtb_true in E. unfold cmp in E.
      constructor; [exact IH|].
      eapply Permutation_Forall.
      * apply Permutation_sym, sort_insert_perm.
      * constructor; [unfold descending, Js.descending; lra | exact Hy].
    + apply Qgtb_false in E. unfold cmp in E.
      constructor; [constructor; assumption|].
      constructor; [unfold descending, Js.descending; lra|].
      eapply Forall_impl; [|exact Hy].
      unfold descending, Js.descending. intros z Hz. lra.
Qed.

Lemma Array_sort_sorted (l : list A) :
  StronglySorted descending (Array_sort cmp l).
Proof.
  induction l as [|x r IH]; simpl.
  - constructor.
  - apply sort_insert_sorted, IH.
Qed.

Lemma firstn_sorted (n : nat) (l : list A) :
  StronglySorted descending l -> StronglySorted descending (firstn n l).
Proof.
  intros H. revert n.
  induction H as [|y r Hr IH Hy]; intros [|n]; simpl; try constructor.
  - apply IH.
  - rewrite Forall_forall in *. intros z Hz.
    apply Hy. eapply firstn_In. exact Hz.
Qed.

(** Adjacent entries of a sorted array are in order. *)
Lemma sorted_adjacent (l : list A) (i : nat) (a b : A) :
  StronglySorted descending l ->
  nth_error l i = Some a -> nth_error l (S i) = Some b ->
  key b <= key a.
Proof.
  intros H. revert i.
  induction H as [|y r Hr IH Hy]; intros i Ha Hb.
  - destruct i; discriminate.
  - destruct i as [|i].
    + injection Ha as <-. rewrite Forall_forall in Hy.
      apply Hy. apply (nth_error_In r 0). exact Hb.
    + apply (IH i); assumption.
Qed.

End SortDescending.

(** ** The momentum scanner *)

Lemma includes_In (arr : list string) (x : string) :
  includes arr x = true <-> In x arr.
Proof.
  unfold includes. rewrite existsb_exists. split.
  - intros (y & Hy & E). apply String.eqb_eq in E. subst y. exact Hy.
  - intros H. exists x. split; [exact H | apply String.eqb_refl].
Qed.

Lemma hasMomentum_retained (field : string) (threshold : Q)
    (coin : DetectMomentum.Coin) :
  DetectMomentum.hasMomentum field threshold coin = true <->
  DetectMomentum.retained threshold (DetectMomentum.coin_get coin field).
Proof.
  unfold DetectMomentum.hasMomentum, DetectMomentum.retained.
  destruct (DetectMomentum.coin_get coin field) as [| |c]; simpl.
  - split; [discriminate | intros (c & E & _); discriminate].
  - split; [discriminate | intros (c & E & _); discriminate].
  - rewrite Qgeb_true. split.
    + intros H. exists c. split; [reflexivity | exact H].
    + intros (c' & E & H). injection E as ->. exact H.
Qed.

Lemma coin_get_member_key (coin : DetectMomentum.Coin) (k : string) :
  DetectMomentum.coin_get coin (member_to_key k) = undefined.
Proof.
  unfold member_to_key, DetectMomentum.coin_get.
  destruct (String.eqb k "__proto__"); [reflexivity|].
  destruct (String.eqb k "constructor"); reflexivity.
Qed.

(** The field the scan reads is the one the timeframe selects; the name of
    an inherited member selects no field at all. *)
Lemma changeField_selects (timeframe : string) (coin : DetectMomentum.Coin) :
  DetectMomentum.coin_get coin (DetectMomentum.changeField timeframe)
  = if includes Object_prototype_members timeframe then undefined
    else DetectMomentum.selectedChange timeframe coin.
Proof.
  unfold DetectMomentum.changeField, obj_lookup,
    DetectMomentum.timeframeMappings, DetectMomentum.selectedChange.
  cbn [obj_get].
  destruct (String.eqb timeframe "1h") eqn:E1.
  { apply String.eqb_eq in E1. subst timeframe. reflexivity. }
  destruct (String.eqb timeframe "24h") eqn:E24.
  { apply String.eqb_eq in E24. subst timeframe. reflexivity. }
  destruct (String.eqb timeframe "7d") eqn:E7.
  { apply String.eqb_eq in E7. subst timeframe. reflexivity. }
  destruct (includes Object_prototype_members timeframe).
  - apply coin_get_member_key.
  - reflexivity.
Qed.

(** C2: the scan keeps exactly the coins whose selected change (the 1h,
    24h or 7d change of the coin, the 24h change for an unknown timeframe)
    is a number of absolute value at least the threshold, and none when the
    timeframe names an inherited member; it scores each with the momentum
    scorer, orders them by descending score, returns at most the first
    ten, reports [momentumDetected] exactly when something was kept, and
    counts in the summary everything kept, before the truncation. *)
Theorem scan_filters_sorts_truncates :
  forall (marketData : list DetectMomentum.Coin) (threshold : Q)
         (timeframe : string),
    let field := DetectMomentum.changeField timeframe in
    let selects coin :=
      ~ In timeframe Object_prototype_members /\
      DetectMomentum.retained threshold
        (DetectMomentum.selectedChange timeframe coin) in
    let kept :=
      filter (DetectMomentum.hasMomentum field threshold) marketData in
    let ranked :=
      DetectMomentum.tokensWithMomentum marketData threshold timeframe in
    exists body : DetectMomentum.ScanBody,
      DetectMomentum.GET threshold timeframe (Some marketData) = Ok body /\
      (forall coin, In coin kept <-> In coin marketData /\ selects coin) /\
      Permutation ranked (map (DetectMomentum.toToken field) kept) /\
      (forall coin,
         DetectMomentum.token (DetectMomentum.toToken field coin)
           = toUpperCase (DetectMomentum.symbol coin) /\
         DetectMomentum.momentumScore (DetectMomentum.toToken field coin)
           = DetectMomentum.calculateMomentumScore coin) /\
      StronglySorted (descending DetectMomentum.momentumScore) ranked /\
      DetectMomentum.tokens body = firstn 10 ranked /\
      (forall i a b,
         nth_error (DetectMomentum.tokens body) i = Some a ->
         nth_error (DetectMomentum.tokens body) (S i) = Some b ->
         DetectMomentum.momentumScore b <= DetectMomentum.momentumScore a) /\
      (List.length (DetectMomentum.tokens body) <= 10)%nat /\
      (DetectMomentum.momentumDetected body = true <->
         exists coin, In coin marketData /\ selects coin) /\
      DetectMomentum.found (DetectMomentum.summary body) = List.length kept /\
      DetectMomentum.threshold body = threshold /\
      DetectMomentum.timeframe body = timeframe.
Proof.
  intros marketData threshold timeframe field selects kept ranked.
  assert (Hperm : Permutation ranked (map (DetectMomentum.toToken field) kept))
    by apply Array_sort_perm.
  assert (Hsorted : StronglySorted (descending DetectMomentum.momentumScore)
                      ranked)
    by apply Array_sort_sorted.
  assert (Hlen : List.length ranked = List.length kept).
  { rewrite (Permutation_length Hperm). apply length_map. }
  assert (Hsel : forall coin,
            DetectMomentum.hasMomentum field threshold coin = true
            <-> selects coin).
  { intros coin. unfold selects, field.
    rewrite hasMomentum_retained, changeField_selects.
    destruct (includes Object_prototype_members timeframe) eqn:Ei.
    - apply includes_In in Ei.
      split; [intros (c & E & _); discriminate E | intros [H _]; contradiction].
    - split; [intros H; split; [|exact H] | intros [_ H]; exact H].
      intros Hin. apply includes_In in Hin. congruence. }
  assert (Hkept : forall coin, In coin kept <->
            In coin marketData /\ selects coin).
  { intros coin. unfold kept. rewrite filter_In, Hsel. reflexivity. }
  eexists. split; [reflexivity|]. cbn [DetectMomentum.tokens
    DetectMomentum.momentumDetected DetectMomentum.summary
    DetectMomentum.found DetectMomentum.threshold DetectMomentum.timeframe].
  fold ranked.
  split; [exact Hkept|].
  split; [exact Hperm|].
  split; [intros coin; split; reflexivity|].
  split; [exact Hsorted|].
  split; [reflexivity|].
  split.
  { intros i a b Ha Hb.
    apply (sorted_adjacent DetectMomentum.momentumScore
             (firstn 10 ranked) i a b); [|assumption|assumption].
    apply firstn_sorted, Hsorted. }
  split; [apply firstn_le_length|].
  split; [|split; [exact Hlen | split; reflexivity]].
  rewrite Nat.ltb_lt, Hlen. split.
  - intros H.
    destruct kept as [|coin r] eqn:E; [simpl in H; lia|].
    exists coin. apply Hkept. left. reflexivity.
  - intros (coin & Hin).
    apply Hkept in Hin. destruct kept; [contradiction | simpl; lia].
Qed.

(** ** Sums of arrays of numbers *)

Lemma fold_plus_shift (l : list Q) (acc : Q) :
  fold_left Qplus l acc == acc + sum l.
Proof.
  unfold sum. revert acc.
  induction l as [|x r IH]; intros acc; simpl.
  - lra.
  - rewrite (IH (acc + x)), (IH (0 + x)). lra.
Qed.

Lemma sum_cons (x : Q) (l : list Q) : sum (x :: l) == x + sum l.
Proof.
  unfold sum at 1. simpl. rewrite fold_plus_shift. lra.
Qed.

(** Every element between [lo] and [hi]: the sum is between [n * lo] and
    [n * hi]. *)
Lemma sum_bounds (lo hi : Q) (l : list Q) :
  Forall (fun x => lo <= x <= hi) l ->
  inject_Z (Z.of_nat (List.length l)) * lo <= sum l
  <= inject_Z (Z.of_nat (List.length l)) * hi.
Proof.
  induction 1 as [|x r Hx Hr IH].
  - unfold sum. cbn [List.length Z.of_nat fold_left].
    change (inject_Z 0) with 0. lra.
  - rewrite sum_cons. cbn [List.length].
    rewrite Nat2Z.inj_succ. unfold Z.succ. rewrite inject_Z_plus.
    change (inject_Z 1) with 1. lra.
Qed.


Lemma Forall_skipn {A : Type} (P : A -> Prop) (n : nat) (l : list A) :
  Forall P l -> Forall P (skipn n l).
Proof.
  intros H. revert n.
  induction H as [|x r Hx Hr IH]; intros [|n]; simpl; auto.
Qed.

(** ** The oscillator *)








(** ** The timeframes mapping of the analysis *)

(** The three guarded assignments, read back key by key. *)
Lemma timeframeAnalysis_entries (tfs : list string)
    (md : AnalyzeMomentum.MarketData) :
  AnalyzeMomentum.timeframeAnalysis tfs md =
    (AnalyzeMomentum.addTimeframe tfs md "1h"
       (AnalyzeMomentum.price_change_percentage_1h_in_currency md) []
     ++ AnalyzeMomentum.addTimeframe tfs md "24h"
       (AnalyzeMomentum.price_change_percentage_24h_in_currency md) []
     ++ AnalyzeMomentum.addTimeframe tfs md "7d"
       (AnalyzeMomentum.price_change_percentage_7d_in_currency md) [])%list.
Proof.
  unfold AnalyzeMomentum.timeframeAnalysis, AnalyzeMomentum.addTimeframe.
  destruct (includes tfs "1h" &&
            strict_neq_null
              (AnalyzeMomentum.price_change_percentage_1h_in_currency md))%bool;
  destruct (includes tfs "24h" &&
            strict_neq_null
              (AnalyzeMomentum.price_change_percentage_24h_in_currency md))%bool;
  destruct (includes tfs "7d" &&
            strict_neq_null
              (AnalyzeMomentum.price_change_percentage_7d_in_currency md))%bool;
  reflexivity.
Qed.

Lemma addTimeframe_fresh (tfs : list string)
    (md : AnalyzeMomentum.MarketData) (key : string) (field : jsval) :
  AnalyzeMomentum.addTimeframe tfs md key field [] = [] \/
  exists data,
    AnalyzeMomentum.addTimeframe tfs md key field [] = [(key, data)] /\
    includes tfs key = true /\ field <> null /\
    AnalyzeMomentum.volume data
      = or_num (AnalyzeMomentum.total_volume md) 0.
Proof.
  unfold AnalyzeMomentum.addTimeframe.
  destruct (includes tfs key) eqn:Ei; [|left; reflexivity].
  destruct field; simpl; try (left; reflexivity);
    right; eexists; (split; [reflexivity|]); repeat split; discriminate.
Qed.

(** A successful analysis is the body built from the fetched market data. *)
Lemma analyze_ok_inv (tok : string) (tfs : list string)
    (upstream : option AnalyzeMomentum.CoinData)
    (body : AnalyzeMomentum.AnalyzeBody) :
  AnalyzeMomentum.analyze tok tfs upstream = Ok body ->
  exists md,
    upstream = Some (AnalyzeMomentum.mkCoinData (Some md)) /\
    AnalyzeMomentum.timeframes body
      = AnalyzeMomentum.timeframeAnalysis tfs md /\
    AnalyzeMomentum.momentumScore body
      = Math_round
          (AnalyzeMomentum.avgScore (AnalyzeMomentum.timeframes body) * 10)
        / 10 /\
    AnalyzeMomentum.status body
      = fst (AnalyzeMomentum.momentumStatus
               (AnalyzeMomentum.avgScore (AnalyzeMomentum.timeframes body))) /\
    AnalyzeMomentum.recommendation body
      = snd (AnalyzeMomentum.momentumStatus
               (AnalyzeMomentum.avgScore (AnalyzeMomentum.timeframes body))).
Proof.
  unfold AnalyzeMomentum.analyze.
  destruct (AnalyzeMomentum.getTokenId (toUpperCase tok)); [|discriminate].
  destruct upstream as [[[md|]]|]; simpl; try discriminate.
  intros H. injection H as <-. exists md. simpl. repeat split.
Qed.

(** C10: a successful analysis never has a "4h" entry, whatever was
    requested: its keys are among "1h", "24h" and "7d"; the default request
    gives at most two entries. *)
Theorem analyze_never_has_4h_entry :
  forall (tok tfs : option string)
         (upstream : option AnalyzeMomentum.CoinData)
         (body : AnalyzeMomentum.AnalyzeBody),
    AnalyzeMomentum.GET tok tfs upstream = Ok body ->
    obj_get (AnalyzeMomentum.timeframes body) "4h" = None /\
    (forall k, In k (Object_keys (AnalyzeMomentum.timeframes body)) ->
       k = "1h" \/ k = "24h" \/ k = "7d") /\
    (tfs = None ->
       (List.length (AnalyzeMomentum.timeframes body) <= 2)%nat).
Proof.
  intros tok tfs upstream body H.
  unfold AnalyzeMomentum.GET in H.
  apply analyze_ok_inv in H. destruct H as (md & _ & -> & _).
  rewrite timeframeAnalysis_entries.
  set (reqd := param_split_or tfs ["1h"; "4h"; "24h"]).
  destruct (addTimeframe_fresh reqd md "1h"
              (AnalyzeMomentum.price_change_percentage_1h_in_currency md))
    as [-> | (d1 & -> & _)];
  destruct (addTimeframe_fresh reqd md "24h"
              (AnalyzeMomentum.price_change_percentage_24h_in_currency md))
    as [-> | (d2 & -> & _)];
  destruct (addTimeframe_fresh reqd md "7d"
              (AnalyzeMomentum.price_change_percentage_7d_in_currency md))
    as [E7 | (d3 & E7 & I7 & _)]; rewrite E7;
  (split; [reflexivity|]);
  (split; [simpl; intuition congruence|]);
  intros ->; simpl; try lia;
  discriminate I7.
Qed.

Lemma analyze_never_has_4h_entry_witness :
  match
    AnalyzeMomentum.GET (Some "BTC") (Some "1h,4h,24h,7d")
      (Some (AnalyzeMomentum.mkCoinData
               (Some (AnalyzeMomentum.mkMarketData
                        (num 0.4) (num 2) (num 5)
                        (num 30000000000) (num 1200000000000)
                        (num 60000) (num 19000000) None))))
  with
  | Ok body => obj_get (AnalyzeMomentum.timeframes body) "4h" = None
  | Error _ _ => False
  end.
Proof.
  destruct (AnalyzeMomentum.GET _ _ _) as [body|st msg] eqn:E.
  - exact (proj1 (analyze_never_has_4h_entry _ _ _ _ E)).
  - vm_compute in E. discriminate E.
Defined.

(** ** The aggregate score of the analysis *)

Lemma Qltb_true (x y : Q) : Qltb x y = true <-> x < y.
Proof.
  unfold Qltb. rewrite negb_true_iff, <- not_true_iff_false, Qle_bool_iff.
  split; [apply Qnot_le_lt | apply Qlt_not_le].
Qed.

Lemma timeframeScore_upper (data : AnalyzeMomentum.TimeframeData) :
  AnalyzeMomentum.timeframeScore data <= 75.
Proof.
  unfold AnalyzeMomentum.timeframeScore. cbv zeta.
  pose proof (Q.le_min_r (Qabs (AnalyzeMomentum.change data) * 10) 50).
  pose proof (Q.le_min_r (AnalyzeMomentum.volume data / 1000000000 * 5) 25).
  lra.
Qed.

Lemma timeframeScore_lower (data : AnalyzeMomentum.TimeframeData) :
  0 <= AnalyzeMomentum.volume data ->
  0 <= AnalyzeMomentum.timeframeScore data.
Proof.
  intros Hv. unfold AnalyzeMomentum.timeframeScore. cbv zeta.
  assert (H1 : 0 <= Qmin (Qabs (AnalyzeMomentum.change data) * 10) 50).
  { apply Q.min_glb; [|discriminate].
    pose proof (Qabs_nonneg (AnalyzeMomentum.change data)). lra. }
  assert (H2 : 0 <= Qmin (AnalyzeMomentum.volume data / 1000000000 * 5) 25).
  { apply Q.min_glb; [|discriminate].
    unfold Qdiv. change (/ 1000000000) with (1 # 1000000000).
    lra. }
  lra.
Qed.

Lemma avgScore_bounds (analysis : Obj AnalyzeMomentum.TimeframeData) :
  Forall (fun data => 0 <= AnalyzeMomentum.volume data)
    (Object_values analysis) ->
  0 <= AnalyzeMomentum.avgScore analysis <= 75.
Proof.
  intros Hv. unfold AnalyzeMomentum.avgScore. cbv zeta.
  set (scores := map AnalyzeMomentum.timeframeScore (Object_values analysis)).
  destruct (Nat.ltb 0 (List.length scores)) eqn:E; [|split; discriminate].
  apply Nat.ltb_lt in E.
  assert (Hn : 0 < inject_Z (Z.of_nat (List.length scores))).
  { change 0 with (inject_Z 0). rewrite <- Zlt_Qlt. lia. }
  assert (Hall : Forall (fun x => 0 <= x <= 75) scores).
  { unfold scores. rewrite Forall_map.
    eapply Forall_impl; [|exact Hv].
    intros data Hd. split;
      [apply timeframeScore_lower, Hd | apply timeframeScore_upper]. }
  destruct (sum_bounds 0 75 scores Hall) as [Hl Hu].
  split.
  - apply Qle_shift_div_l; [exact Hn | lra].
  - apply Qle_shift_div_r; [exact Hn | lra].
Qed.

Lemma timeframeAnalysis_volumes (tfs : list string)
    (md : AnalyzeMomentum.MarketData) :
  Forall (fun data => AnalyzeMomentum.volume data
                      = or_num (AnalyzeMomentum.total_volume md) 0)
    (Object_values (AnalyzeMomentum.timeframeAnalysis tfs md)).
Proof.
  rewrite timeframeAnalysis_entries. unfold Object_values.
  rewrite !map_app, !Forall_app.
  repeat split;
    match goal with
    | |- context [AnalyzeMomentum.addTimeframe tfs md ?k ?f []] =>
        destruct (addTimeframe_fresh tfs md k f) as [-> | (d & -> & _ & _ & E)]
    end; simpl; repeat constructor; exact E.
Qed.

Lemma momentumStatus_not_fading (avg : Q) :
  0 <= avg ->
  fst (AnalyzeMomentum.momentumStatus avg) <> "fading" /\
  snd (AnalyzeMomentum.momentumStatus avg) <> "sell".
Proof.
  intros H. unfold AnalyzeMomentum.momentumStatus.
  destruct (Qgtb avg 60); [split; discriminate|].
  destruct (Qgtb avg 40); [split; discriminate|].
  destruct (Qgtb avg 20); [split; discriminate|].
  destruct (Qltb avg (-20)) eqn:E; [|split; discriminate].
  apply Qltb_true in E. lra.
Qed.

(** C9, as the code has it: when the total volume of the snapshot is absent
    or not negative, the aggregate score is between 0 and 75, also after
    rounding, the status is never "fading" and the recommendation never
    "sell". *)
Theorem analyze_score_bounded_for_nonnegative_volume :
  forall (tok tfs : option string) (md : AnalyzeMomentum.MarketData)
         (body : AnalyzeMomentum.AnalyzeBody),
    0 <= or_num (AnalyzeMomentum.total_volume md) 0 ->
    AnalyzeMomentum.GET tok tfs
      (Some (AnalyzeMomentum.mkCoinData (Some md))) = Ok body ->
    0 <= AnalyzeMomentum.avgScore (AnalyzeMomentum.timeframes body) <= 75 /\
    0 <= AnalyzeMomentum.momentumScore body <= 75 /\
    AnalyzeMomentum.status body <> "fading" /\
    AnalyzeMomentum.recommendation body <> "sell".
Proof.
  intros tok tfs md body Hvol H.
  unfold AnalyzeMomentum.GET in H.
  apply analyze_ok_inv in H.
  destruct H as (md' & Eup & Etf & -> & -> & ->).
  injection Eup as <-.
  assert (Hb : 0 <= AnalyzeMomentum.avgScore (AnalyzeMomentum.timeframes body)
               <= 75).
  { apply avgScore_bounds. rewrite Etf.
    eapply Forall_impl; [|apply timeframeAnalysis_volumes].
    intros data ->. exact Hvol. }
  split; [exact Hb|].
  split; [|apply momentumStatus_not_fading, Hb].
  destruct Hb as [Hl Hu]. split.
  - apply Qle_shift_div_l; [reflexivity|].
    assert (Hr := Math_round_lower
                    (AnalyzeMomentum.avgScore
                       (AnalyzeMomentum.timeframes body) * 10) 0).
    change (inject_Z 0) with 0 in Hr. lra.
  - apply Qle_shift_div_r; [reflexivity|].
    assert (Hr := Math_round_upper
                    (AnalyzeMomentum.avgScore
                       (AnalyzeMomentum.timeframes body) * 10) 750).
    change (inject_Z 750) with 750 in Hr. lra.
Qed.

Lemma analyze_score_bounded_witness :
  0 <= or_num (num 30000000000) 0 /\
  match
    AnalyzeMomentum.GET (Some "ETH") (Some "1h,24h")
      (Some (AnalyzeMomentum.mkCoinData
               (Some (AnalyzeMomentum.mkMarketData
                        (num 0.4) (num (-6)) (num 5)
                        (num 30000000000) (num 400000000000)
                        (num 3000) (num 120000000) None))))
  with
  | Ok body => AnalyzeMomentum.status body <> "fading"
  | Error _ _ => False
  end.
Proof.
  split; [vm_compute; discriminate|].
  destruct (AnalyzeMomentum.GET _ _ _) as [body|st msg] eqn:E.
  - refine (proj1 (proj2 (proj2
      (analyze_score_bounded_for_nonnegative_volume _ _ _ _ _ E)))).
    vm_compute. discriminate.
  - vm_compute in E. discriminate E.
Defined.

(** C9 as stated fails: a snapshot whose total volume is negative drives
    the score below -20, and the analysis answers "fading" and "sell". *)
Lemma analyze_negative_volume_is_fading :
  match
    AnalyzeMomentum.GET (Some "BTC") (Some "24h")
      (Some (AnalyzeMomentum.mkCoinData
               (Some (AnalyzeMomentum.mkMarketData
                        null (num 0) null
                        (num (-10000000000)) (num 1200000000000)
                        (num 60000) (num 19000000) None))))
  with
  | Ok body =>
      AnalyzeMomentum.momentumScore body == -50 /\
      AnalyzeMomentum.status body = "fading" /\
      AnalyzeMomentum.recommendation body = "sell"
  | Error _ _ => False
  end.
Proof.
  vm_compute. repeat split.
Qed.

(** ** Absent change data in the analysis *)

(** A change that the feed sends as [null] yields no entry. *)
Lemma analyze_null_change_omitted (tfs : list string)
    (md : AnalyzeMomentum.MarketData) (key : string) :
  AnalyzeMomentum.addTimeframe tfs md key null [] = [].
Proof.
  unfold AnalyzeMomentum.addTimeframe.
  rewrite andb_false_r. reflexivity.
Qed.

(** C1 at an input where it breaks: the 1h change object is absent from the
    market data (its [?.usd] access is [undefined]); the strict comparison
    with [null] lets it through and the "1h" entry is filled with zero. *)
Theorem analyze_absent_change_is_zero_filled :
  match
    AnalyzeMomentum.GET (Some "BTC") (Some "1h")
      (Some (AnalyzeMomentum.mkCoinData
               (Some (AnalyzeMomentum.mkMarketData
                        undefined (num 2) (num 5)
                        (num 30000000000) (num 1200000000000)
                        (num 60000) (num 19000000) None))))
  with
  | Ok body =>
      obj_get (AnalyzeMomentum.timeframes body) "1h"
      = Some (AnalyzeMomentum.mkTimeframeData 0 30000000000 "neutral")
  | Error _ _ => False
  end.
Proof.
  vm_compute. reflexivity.
Qed.

(** ** Arbitrage over the quote set *)

(** C3 at an input where it breaks: the chain "constructor" names a member
    that every object inherits, so both table lookups of [getChainInfo] are
    truthy and the chain is quoted, at a price that is NaN.  The quote set
    is not empty, the response is a success, and of its highest and lowest
    price neither is at least the other; the spread is NaN and no chain is
    named to buy or to sell on. *)
Theorem prices_quote_inherited_chain_at_NaN :
  forall (tokenData : CrossChainPrices.TokenData)
         (binance : option CrossChainPrices.BinanceTicker)
         (rng : CrossChainPrices.Rng),
    exists body : CrossChainPrices.PricesBody,
      CrossChainPrices.GET (Some "BTC") (Some "constructor")
        (Some (Some tokenData)) binance rng = Ok body /\
      CrossChainPrices.chains body
        = [("constructor",
            CrossChainPrices.mkChainData None NaN None None)] /\
      (let prices :=
         map CrossChainPrices.price
           (Object_values (CrossChainPrices.chains body)) in
       CrossChainPrices.Math_min prices = NaN /\
       CrossChainPrices.Math_max prices = NaN /\
       num_geb (CrossChainPrices.Math_max prices)
         (CrossChainPrices.Math_min prices) = false) /\
      CrossChainPrices.opportunity (CrossChainPrices.arbitrage body) = NaN /\
      CrossChainPrices.profitable (CrossChainPrices.arbitrage body) = false /\
      CrossChainPrices.buyChain (CrossChainPrices.arbitrage body) = None /\
      CrossChainPrices.sellChain (CrossChainPrices.arbitrage body) = None.
Proof.
  intros tokenData binance rng.
  eexists. split; [reflexivity|]. repeat split.
Qed.

(** ** Objects as insertion-ordered maps *)

Lemma obj_get_keys {V : Type} (o : Obj V) (k : string) :
  In k (Object_keys o) <-> obj_get o k <> None.
Proof.
  induction o as [|[k' v] r IH]; simpl.
  - split; [intros [] | intros H; apply H; reflexivity].
  - destruct (String.eqb k k') eqn:E.
    + apply String.eqb_eq in E. subst k'.
      split; [discriminate | intros _; left; reflexivity].
    + apply String.eqb_neq in E. rewrite <- IH.
      split; [intros [H|H]; [congruence | exact H] | intros H; right; exact H].
Qed.

Lemma obj_set_fresh {V : Type} (o : Obj V) (k : string) (v : V) :
  ~ In k (Object_keys o) -> obj_set o k v = (o ++ [(k, v)])%list.
Proof.
  induction o as [|[k' v'] r IH]; simpl; intros H.
  - reflexivity.
  - destruct (String.eqb k k') eqn:E.
    + apply String.eqb_eq in E. exfalso. apply H. left. symmetry. exact E.
    + rewrite IH; [reflexivity | intros Hin; apply H; right; exact Hin].
Qed.

(** Reading a key of an object filtered on its keys. *)
Lemma obj_get_filter {V : Type} (keep : string -> bool) (o : Obj V)
    (k : string) :
  obj_get (filter (fun kv => keep (fst kv)) o) k
  = if keep k then obj_get o k else None.
Proof.
  induction o as [|[k' v] r IH]; simpl.
  - destruct (keep k); reflexivity.
  - destruct (keep k') eqn:Ek'; simpl.
    + destruct (String.eqb k k') eqn:E.
      * apply String.eqb_eq in E. subst k'. rewrite Ek'. reflexivity.
      * exact IH.
    + destruct (String.eqb k k') eqn:E.
      * apply String.eqb_eq in E. subst k'. rewrite IH, Ek'. reflexivity.
      * exact IH.
Qed.

(** ** The strategy builder *)

(** Over a template with distinct keys, the [forEach] is a filter that
    keeps the order of the template. *)
Lemma filterAllocation_fold (chains : list string)
    (entries acc : CreateStrategy.Allocation) :
  NoDup (Object_keys (acc ++ entries)%list) ->
  fold_left
    (fun (filteredAllocation : CreateStrategy.Allocation)
         (entry : string * CreateStrategy.AllocationData) =>
       let (chain, data) := entry in
       if includes chains chain
       then obj_set filteredAllocation chain data
       else filteredAllocation)
    entries
    (filter (fun kv => includes chains (fst kv)) acc)
  = filter (fun kv => includes chains (fst kv)) (acc ++ entries)%list.
Proof.
  revert acc. induction entries as [|[k d] r IH]; intros acc Hnd; simpl.
  - rewrite app_nil_r. reflexivity.
  - assert (Hk : ~ In k (Object_keys acc)).
    { unfold Object_keys in *. rewrite map_app in Hnd. simpl in Hnd.
      apply NoDup_remove_2 in Hnd. intros Hin. apply Hnd.
      apply in_or_app. left. exact Hin. }
    replace (acc ++ (k, d) :: r)%list with ((acc ++ [(k, d)]) ++ r)%list
      in * by (rewrite <- app_assoc; reflexivity).
    rewrite <- (IH _ Hnd). f_equal.
    rewrite filter_app. simpl.
    destruct (includes chains k).
    + apply obj_set_fresh. intros Hin. apply Hk.
      unfold Object_keys in *. apply in_map_iff in Hin.
      destruct Hin as (kv & E & Hin). apply filter_In in Hin.
      apply in_map_iff. exists kv. tauto.
    + rewrite app_nil_r. reflexivity.
Qed.

Lemma filterAllocation_filter (chains : list string)
    (template : CreateStrategy.Allocation) :
  NoDup (Object_keys template) ->
  CreateStrategy.filterAllocation chains template
  = filter (fun kv => includes chains (fst kv)) template.
Proof.
  intros H. apply (filterAllocation_fold chains template []). exact H.
Qed.

(** The templates of the three supported tokens have distinct chains. *)
Lemma strategies_supported (maxPosition : Q) (tok : string) :
  CreateStrategy.supported tok ->
  exists template,
    obj_get (CreateStrategy.strategies maxPosition) (toUpperCase tok)
    = Some template /\
    NoDup (Object_keys (CreateStrategy.allocation template)).
Proof.
  unfold CreateStrategy.supported.
  intros [E|[E|[E|[]]]]; rewrite <- E; simpl; eexists;
    (split; [reflexivity|]); simpl;
    repeat (constructor; [simpl; intuition discriminate|]); constructor.
Qed.

(** C4: for a supported token, a positive budget and a risk level among
    low, medium and high, the maximum position is the budget times 0.3,
    0.6 or 0.9, and the returned allocation has exactly the chains of the
    token's template that were requested, each with the entry of the
    template as it is. *)
Theorem strategy_position_and_filtered_allocation :
  forall (tok : string) (budget : Q) (riskLevel : string)
         (chains : list string),
    0 < budget ->
    CreateStrategy.supported tok ->
    In riskLevel ["low"; "medium"; "high"] ->
    exists (body : CreateStrategy.StrategyBody)
           (template : CreateStrategy.Strategy),
      CreateStrategy.buildStrategy tok budget riskLevel chains = Ok body /\
      obj_get (CreateStrategy.strategies (CreateStrategy.maxPosition body))
        (toUpperCase tok) = Some template /\
      (riskLevel = "low" ->
         CreateStrategy.maxPosition body = budget * 0.3) /\
      (riskLevel = "medium" ->
         CreateStrategy.maxPosition body = budget * 0.6) /\
      (riskLevel = "high" ->
         CreateStrategy.maxPosition body = budget * 0.9) /\
      (forall chain,
         In chain
           (Object_keys
              (CreateStrategy.plan_allocation (CreateStrategy.strategy body)))
         <-> In chain (Object_keys (CreateStrategy.allocation template)) /\
             In chain chains) /\
      (forall chain,
         In chain chains ->
         obj_get
           (CreateStrategy.plan_allocation (CreateStrategy.strategy body))
           chain
         = obj_get (CreateStrategy.allocation template) chain).
Proof.
  intros tok budget riskLevel chains _ Htok Hrisk.
  unfold CreateStrategy.buildStrategy.
  destruct (strategies_supported
              (budget * CreateStrategy.riskMultiplier riskLevel) tok Htok)
    as (template & Etpl & Hnd).
  rewrite Etpl. eexists. exists template.
  split; [reflexivity|].
  cbn [CreateStrategy.maxPosition CreateStrategy.strategy
       CreateStrategy.plan_allocation].
  split; [exact Etpl|].
  split; [intros ->; reflexivity|].
  split; [intros ->; reflexivity|].
  split; [intros ->; reflexivity|].
  rewrite (filterAllocation_filter chains _ Hnd).
  split.
  - intros chain. rewrite !obj_get_keys, obj_get_filter, <- includes_In.
    destruct (includes chains chain); split; try tauto.
    + intros [_ H]. discriminate H.
  - intros chain Hin. rewrite obj_get_filter.
    apply includes_In in Hin. rewrite Hin. reflexivity.
Qed.

Lemma strategy_position_witness :
  0 < 2000 /\
  CreateStrategy.supported "btc" /\
  In "low" ["low"; "medium"; "high"] /\
  match CreateStrategy.buildStrategy "btc" 2000 "low" ["ethereum"; "bsc"] with
  | Ok body => CreateStrategy.maxPosition body = 2000 * 0.3
  | Error _ _ => False
  end.
Proof.
  assert (Hb : 0 < 2000) by reflexivity.
  assert (Ht : CreateStrategy.supported "btc") by (left; reflexivity).
  assert (Hr : In "low" ["low"; "medium"; "high"]) by (left; reflexivity).
  repeat (split; [assumption|]).
  destruct (strategy_position_and_filtered_allocation
              "btc" 2000 "low" ["ethereum"; "bsc"] Hb Ht Hr)
    as (body & template & -> & _ & Hlow & _).
  apply Hlow. reflexivity.
Defined.

(** The scenario of the specification: a low-risk plan for BTC over two
    of its four chains keeps their 40 and 25 percent as they are. *)
Example strategy_low_risk_two_chains :
  match CreateStrategy.GET (Some "BTC") (Some 2000) (Some "low")
          (Some "ethereum,bsc") with
  | Ok body =>
      CreateStrategy.maxPosition body == 600 /\
      map (fun kv => (fst kv, CreateStrategy.percentage (snd kv)))
        (CreateStrategy.plan_allocation (CreateStrategy.strategy body))
      = [("ethereum", 40); ("bsc", 25)] /\
      CreateStrategy.executionOrder (CreateStrategy.strategy body)
      = ["ethereum"; "bsc"]
  | Error _ _ => False
  end.
Proof.
  vm_compute. repeat split.
Qed.

(** ** The execution planner *)

Lemma mapi_from_length {A B : Type} (f : A -> nat -> B) (index : nat)
    (l : list A) :
  List.length (ExecuteTrade.mapi_from f index l) = List.length l.
Proof.
  revert index. induction l as [|x r IH]; intros index; simpl.
  - reflexivity.
  - rewrite IH. reflexivity.
Qed.

Lemma mapi_from_nth {A B : Type} (f : A -> nat -> B) (index i : nat)
    (l : list A) :
  nth_error (ExecuteTrade.mapi_from f index l) i
  = option_map (fun x => f x (index + i)%nat) (nth_error l i).
Proof.
  revert index i. induction l as [|x r IH]; intros index [|i]; simpl;
    try reflexivity.
  - rewrite Nat.add_0_r. reflexivity.
  - rewrite IH. replace (S index + i)%nat with (index + S i)%nat by lia.
    reflexivity.
Qed.

Lemma trades_chains (tok : string) (amounts chains : list string)
    (index : nat) :
  map ExecuteTrade.chain
    (ExecuteTrade.mapi_from (ExecuteTrade.tradeOf tok amounts) index chains)
  = chains.
Proof.
  revert index. induction chains as [|c r IH]; intros index; simpl.
  - reflexivity.
  - rewrite IH. reflexivity.
Qed.

Lemma trades_priorities (tok : string) (amounts chains : list string)
    (index : nat) :
  map ExecuteTrade.priority
    (ExecuteTrade.mapi_from (ExecuteTrade.tradeOf tok amounts) index chains)
  = seq (index + 1) (List.length chains).
Proof.
  revert index. induction chains as [|c r IH]; intros index; simpl.
  - reflexivity.
  - rewrite IH. reflexivity.
Qed.

(** C5: with a non-empty strategy reference the plan has one trade per
    input chain, in input order, with priorities 1, 2, ... by position; a
    position without an amount gets "1000". *)
Theorem plan_has_one_trade_per_chain :
  forall (strategy tok : string) (chains amounts : list string),
    strategy <> "" ->
    exists body : ExecuteTrade.PlanBody,
      ExecuteTrade.plan (Some strategy) tok chains amounts = Ok body /\
      let trades := ExecuteTrade.trades (ExecuteTrade.executionPlan body) in
      List.length trades = List.length chains /\
      map ExecuteTrade.chain trades = chains /\
      map ExecuteTrade.priority trades = seq 1 (List.length chains) /\
      (forall i t, nth_error trades i = Some t ->
         ExecuteTrade.priority t = (i + 1)%nat /\
         nth_error chains i = Some (ExecuteTrade.chain t)) /\
      (forall i t, nth_error trades i = Some t ->
         nth_error amounts i = None -> ExecuteTrade.amount t = "1000") /\
      (forall i t a, nth_error trades i = Some t ->
         nth_error amounts i = Some a -> a <> "" ->
         ExecuteTrade.amount t = a).
Proof.
  intros strategy tok chains amounts Hs.
  unfold ExecuteTrade.plan.
  apply String.eqb_neq in Hs. rewrite Hs.
  eexists. split; [reflexivity|].
  cbn [ExecuteTrade.executionPlan ExecuteTrade.trades]. cbv zeta.
  unfold ExecuteTrade.mapi.
  split; [apply mapi_from_length|].
  split; [apply trades_chains|].
  split; [apply (trades_priorities tok amounts chains 0)|].
  assert (Hnth : forall i t,
            nth_error
              (ExecuteTrade.mapi_from (ExecuteTrade.tradeOf tok amounts)
                 0 chains) i = Some t ->
            exists c, nth_error chains i = Some c /\
                      t = ExecuteTrade.tradeOf tok amounts c i).
  { intros i t H. rewrite mapi_from_nth in H.
    destruct (nth_error chains i) as [c|]; [|discriminate].
    exists c. simpl in H. injection H as <-. split; reflexivity. }
  split; [|split].
  - intros i t H. destruct (Hnth i t H) as (c & Ec & ->).
    split; [reflexivity | exact Ec].
  - intros i t H Ha. destruct (Hnth i t H) as (c & _ & ->).
    cbn [ExecuteTrade.tradeOf ExecuteTrade.amount].
    unfold ExecuteTrade.amountAt. rewrite Ha. reflexivity.
  - intros i t a H Ha Hne. destruct (Hnth i t H) as (c & _ & ->).
    cbn [ExecuteTrade.tradeOf ExecuteTrade.amount].
    unfold ExecuteTrade.amountAt. rewrite Ha.
    apply String.eqb_neq in Hne. rewrite Hne. reflexivity.
Qed.

Lemma plan_has_one_trade_per_chain_witness :
  "momentum_btc" <> "" /\
  match
    ExecuteTrade.plan (Some "momentum_btc") "btc"
      ["ethereum"; "bsc"; "near"] ["1000"; "500"]
  with
  | Ok body =>
      map ExecuteTrade.priority
        (ExecuteTrade.trades (ExecuteTrade.executionPlan body))
      = [1; 2; 3]%nat
  | Error _ _ => False
  end.
Proof.
  assert (Hs : "momentum_btc" <> "") by discriminate.
  split; [exact Hs|].
  destruct (plan_has_one_trade_per_chain "momentum_btc" "btc"
              ["ethereum"; "bsc"; "near"] ["1000"; "500"] Hs)
    as (body & -> & _ & _ & Hp & _).
  exact Hp.
Defined.

(** C8: without a strategy reference, absent or empty, the plan operation
    answers 400 with its message and builds no plan, whatever the other
    parameters; and it fails in no other case. *)
Theorem plan_fails_only_without_strategy :
  forall (strategy tok chains amounts : option string),
    (strategy = None \/ strategy = Some "" ->
       ExecuteTrade.GET strategy tok chains amounts
       = Error 400 "Strategy parameter is required") /\
    ((exists status message,
        ExecuteTrade.GET strategy tok chains amounts = Error status message)
     <-> strategy = None \/ strategy = Some "").
Proof.
  intros strategy tok chains amounts.
  unfold ExecuteTrade.GET, ExecuteTrade.plan.
  destruct strategy as [s|].
  - destruct (String.eqb s "") eqn:E.
    + apply String.eqb_eq in E. subst s.
      split; [reflexivity|].
      split; [intros _; right; reflexivity | intros _; eauto].
    + apply String.eqb_neq in E.
      split; [intros [H|H]; [discriminate | congruence]|].
      split; [intros (st & msg & H); discriminate
             | intros [H|H]; [discriminate | congruence]].
  - split; [reflexivity|].
    split; [intros _; left; reflexivity | intros _; eauto].
Qed.

Lemma plan_fails_only_without_strategy_witness :
  ExecuteTrade.GET (Some "") (Some "ETH") (Some "ethereum,near") None
  = Error 400 "Strategy parameter is required".
Proof.
  apply (plan_fails_only_without_strategy
           (Some "") (Some "ETH") (Some "ethereum,near") None).
  right. reflexivity.
Defined.

(** * Further properties of the routes *)

(** ** Query parameters *)

Lemma append_empty_r (s : string) : s ++ "" = s.
Proof.
  induction s as [|c r IH]; simpl; [reflexivity | rewrite IH; reflexivity].
Qed.

Lemma append_assoc (a b c : string) : (a ++ b) ++ c = a ++ (b ++ c).
Proof.
  induction a as [|x r IH]; simpl; [reflexivity | rewrite IH; reflexivity].
Qed.

Lemma split_comma_aux_nonempty (cur s : string) : split_comma_aux cur s <> [].
Proof.
  revert cur. induction s as [|c r IH]; intros cur; simpl.
  - discriminate.
  - destruct (Ascii.eqb c ","%char); [discriminate | apply IH].
Qed.

Lemma split_comma_aux_join (cur s : string) :
  String.concat "," (split_comma_aux cur s) = cur ++ s.
Proof.
  revert cur. induction s as [|c r IH]; intros cur; simpl.
  - symmetry. apply append_empty_r.
  - destruct (Ascii.eqb c ","%char) eqn:E.
    + apply Ascii.eqb_eq in E. subst c.
      pose proof (split_comma_aux_nonempty "" r) as Hne.
      pose proof (IH "") as Hr.
      destruct (split_comma_aux "" r) as [|p ps]; [contradiction|].
      change (String.concat "," (cur :: p :: ps))
        with (cur ++ "," ++ String.concat "," (p :: ps)).
      rewrite Hr. reflexivity.
    + rewrite IH, append_assoc. reflexivity.
Qed.

Lemma split_comma_aux_pieces (cur s p : string) :
  ~ In ","%char (list_ascii_of_string cur) ->
  In p (split_comma_aux cur s) ->
  ~ In ","%char (list_ascii_of_string p).
Proof.
  revert cur. induction s as [|c r IH]; intros cur Hcur; simpl.
  - intros [<-|[]]. exact Hcur.
  - destruct (Ascii.eqb c ","%char) eqn:E.
    + intros [<-|Hin]; [exact Hcur|].
      apply (IH ""); [intros [] | exact Hin].
    + apply IH. apply Ascii.eqb_neq in E.
      clear IH. induction cur as [|x t IHt]; simpl.
      * intros [H|[]]. apply E. exact H.
      * intros [H|H]; [apply Hcur; left; exact H|].
        apply IHt; [intros Ht; apply Hcur; right; exact Ht | exact H].
Qed.

(** Splitting a list parameter at its commas loses nothing: there is always
    at least one piece, no piece holds a comma, and joining the pieces with
    commas gives the parameter back. *)
Theorem split_comma_round_trip :
  forall s : string,
    split_comma s <> [] /\
    (forall p, In p (split_comma s) ->
       ~ In ","%char (list_ascii_of_string p)) /\
    String.concat "," (split_comma s) = s.
Proof.
  intros s. unfold split_comma.
  split; [apply split_comma_aux_nonempty|].
  split.
  - intros p. apply split_comma_aux_pieces. intros [].
  - apply split_comma_aux_join.
Qed.

Lemma upper_ascii_idempotent (c : ascii) :
  upper_ascii (upper_ascii c) = upper_ascii c.
Proof.
  unfold upper_ascii.
  destruct (Nat.leb 97 (nat_of_ascii c) && Nat.leb (nat_of_ascii c) 122)%bool
    eqn:E; [|rewrite E; reflexivity].
  apply andb_true_iff in E. destruct E as [E1 E2].
  apply Nat.leb_le in E1, E2.
  rewrite nat_ascii_embedding by lia.
  replace (Nat.leb 97 (nat_of_ascii c - 32)) with false
    by (symmetry; apply Nat.leb_gt; lia).
  reflexivity.
Qed.

Lemma toUpperCase_idempotent (s : string) :
  toUpperCase (toUpperCase s) = toUpperCase s.
Proof.
  induction s as [|c r IH]; simpl.
  - reflexivity.
  - rewrite upper_ascii_idempotent, IH. reflexivity.
Qed.

(** ** Rounding *)

(** [Math.round] moves a number by at most one half and lands on an
    integer. *)
Lemma Math_round_within_half (x : Q) :
  x - 0.5 <= Math_round x <= x + 0.5.
Proof.
  unfold Math_round.
  pose proof (Qfloor_le (x + 0.5)) as Hl.
  pose proof (Qlt_floor (x + 0.5)) as Hu.
  rewrite inject_Z_plus in Hu. change (inject_Z 1) with 1 in Hu.
  split; lra.
Qed.

(** ** The trend ladder *)

Ltac trend_cases c :=
  destruct (Qgtb c 15) eqn:E15;
    [apply Qgtb_true in E15 | apply Qgtb_false in E15;
  destruct (Qgtb c 8) eqn:E8;
    [apply Qgtb_true in E8 | apply Qgtb_false in E8;
  destruct (Qgtb c 3) eqn:E3;
    [apply Qgtb_true in E3 | apply Qgtb_false in E3;
  destruct (Qgtb c (-3)) eqn:En3;
    [apply Qgtb_true in En3 | apply Qgtb_false in En3;
  destruct (Qgtb c (-8)) eqn:En8;
    [apply Qgtb_true in En8 | apply Qgtb_false in En8;
  destruct (Qgtb c (-15)) eqn:En15;
    [apply Qgtb_true in En15 | apply Qgtb_false in En15]]]]]].

(** The seven trends partition the changes at 15, 8, 3, -3, -8 and -15;
    the bullish bounds are strict and the bearish ones are not, so a change
    of exactly 3 is neutral while a change of exactly -3 is bearish.  A
    missing change is neutral. *)
Theorem determineTrend_buckets :
  forall c : Q,
    (DetectMomentum.determineTrend (num c) = "very_bullish" <-> 15 < c) /\
    (DetectMomentum.determineTrend (num c) = "strong_bullish"
     <-> 8 < c <= 15) /\
    (DetectMomentum.determineTrend (num c) = "bullish" <-> 3 < c <= 8) /\
    (DetectMomentum.determineTrend (num c) = "neutral" <-> -3 < c <= 3) /\
    (DetectMomentum.determineTrend (num c) = "bearish" <-> -8 < c <= -3) /\
    (DetectMomentum.determineTrend (num c) = "strong_bearish"
     <-> -15 < c <= -8) /\
    (DetectMomentum.determineTrend (num c) = "very_bearish" <-> c <= -15) /\
    DetectMomentum.determineTrend null = "neutral" /\
    DetectMomentum.determineTrend undefined = "neutral" /\
    AnalyzeMomentum.determineTrend (num c)
    = DetectMomentum.determineTrend (num c).
Proof.
  intros c.
  unfold DetectMomentum.determineTrend, AnalyzeMomentum.determineTrend.
  trend_cases c;
    repeat (split; [split; [intros H; try discriminate H; lra
                           | intros H; try reflexivity; exfalso; lra]|]);
    repeat split.
Qed.

(** ** More on the momentum scorer *)

(** The score is a multiple of 0.1; the volume and market-cap terms add at
    most 30 to the two change terms, and nothing below zero when volume and
    market cap are absent or not negative. *)
Theorem momentum_score_bounds :
  forall coin : DetectMomentum.Coin,
    let base :=
      Qabs (or_num (DetectMomentum.price_change_percentage_24h coin) 0) * 2
      + Qabs (or_num (DetectMomentum.price_change_percentage_1h_in_currency
                        coin) 0) * 3 in
    (exists z : Z,
       DetectMomentum.calculateMomentumScore coin * 10 == inject_Z z) /\
    DetectMomentum.calculateMomentumScore coin <= base + 30 + 0.05 /\
    (0 <= or_num (DetectMomentum.total_volume coin) 0 ->
     0 <= or_num (DetectMomentum.market_cap coin) 0 ->
     base - 0.05 <= DetectMomentum.calculateMomentumScore coin /\
     0 <= DetectMomentum.calculateMomentumScore coin).
Proof.
  intros coin base. unfold DetectMomentum.calculateMomentumScore.
  cbv zeta. fold base.
  set (vol := or_num (DetectMomentum.total_volume coin) 0).
  set (cap := or_num (DetectMomentum.market_cap coin) 0).
  set (raw := 0 + _ + _ + _ + _).
  pose proof (Math_round_within_half (raw * 10)) as [Hl Hu].
  pose proof (Q.le_min_r (vol / 1000000000 * 10) 20) as Hv.
  pose proof (Q.le_min_r (cap / 1000000000 * 2) 10) as Hc.
  assert (Hraw : raw == base + Qmin (vol / 1000000000 * 10) 20
                        + Qmin (cap / 1000000000 * 2) 10)
    by (unfold raw, base; ring).
  split; [|split].
  - exists (Qfloor (raw * 10 + 0.5)). unfold Math_round. field.
  - apply Qle_shift_div_r; [reflexivity|]. lra.
  - intros Hvol Hcap.
    assert (Hv0 : 0 <= Qmin (vol / 1000000000 * 10) 20).
    { apply Q.min_glb; [|discriminate].
      unfold Qdiv. change (/ 1000000000) with (1 # 1000000000). lra. }
    assert (Hc0 : 0 <= Qmin (cap / 1000000000 * 2) 10).
    { apply Q.min_glb; [|discriminate].
      unfold Qdiv. change (/ 1000000000) with (1 # 1000000000). lra. }
    assert (Hb : 0 <= base).
    { unfold base.
      pose proof (Qabs_nonneg
        (or_num (DetectMomentum.price_change_percentage_24h coin) 0)).
      pose proof (Qabs_nonneg
        (or_num (DetectMomentum.price_change_percentage_1h_in_currency
                   coin) 0)).
      lra. }
    split.
    + apply Qle_shift_div_l; [reflexivity|]. lra.
    + apply Qle_shift_div_l; [reflexivity|].
      assert (Hr := Math_round_lower (raw * 10) 0).
      change (inject_Z 0) with 0 in Hr. lra.
Qed.

Lemma momentum_score_bounds_witness :
  0 <= DetectMomentum.calculateMomentumScore
         (DetectMomentum.mkCoin "eth" "Ethereum" (num 3000)
            (num 15000000000) null (num (-6.2)) (num 0.4) (num (-6))
            undefined).
Proof.
  apply (momentum_score_bounds
           (DetectMomentum.mkCoin "eth" "Ethereum" (num 3000)
              (num 15000000000) null (num (-6.2)) (num 0.4) (num (-6))
              undefined));
    vm_compute; discriminate.
Defined.

(** ** More on the momentum scanner *)

Section SortStable.

Context {A : Type}.
Variable key : A -> Q.
Variable k : Q.

Let cmp : A -> A -> Q := fun a b => key b - key a.
Let same : A -> bool := fun a => Qeq_bool (key a) k.

Lemma sort_insert_stable (x : A) (l : list A) :
  filter same (sort_insert cmp x l) = filter same (x :: l).
Proof.
  induction l as [|y r IH]; [reflexivity|].
  cbn [sort_insert]. destruct (Qgtb (cmp x y) 0) eqn:E; [|reflexivity].
  apply Qgtb_true in E. unfold cmp in E.
  cbn [filter] in *. rewrite IH.
  destruct (same x) eqn:Ex; [|reflexivity].
  destruct (same y) eqn:Ey; [|reflexivity].
  unfold same in Ex, Ey.
  apply Qeq_bool_eq in Ex. apply Qeq_bool_eq in Ey. lra.
Qed.

(** Elements of equal key leave the sort in the order they came in. *)
Lemma Array_sort_stable (l : list A) :
  filter same (Array_sort cmp l) = filter same l.
Proof.
  induction l as [|x r IH]; [reflexivity|].
  cbn [Array_sort fold_right]. rewrite sort_insert_stable.
  cbn [filter]. fold (Array_sort cmp r). rewrite IH. reflexivity.
Qed.

End SortStable.

(** Tokens of equal momentum score are ranked in the order of the market
    snapshot. *)
Theorem scan_ties_keep_snapshot_order :
  forall (marketData : list DetectMomentum.Coin) (threshold : Q)
         (timeframe : string) (score : Q),
    let field := DetectMomentum.changeField timeframe in
    filter (fun t => Qeq_bool (DetectMomentum.momentumScore t) score)
      (DetectMomentum.tokensWithMomentum marketData threshold timeframe)
    = filter (fun t => Qeq_bool (DetectMomentum.momentumScore t) score)
        (map (DetectMomentum.toToken field)
           (filter (DetectMomentum.hasMomentum field threshold) marketData)).
Proof.
  intros marketData threshold timeframe score field.
  apply (Array_sort_stable DetectMomentum.momentumScore score).
Qed.

Lemma scan_token_origin (marketData : list DetectMomentum.Coin)
    (threshold : Q) (timeframe : string) (body : DetectMomentum.ScanBody)
    (t : DetectMomentum.Token) :
  DetectMomentum.GET threshold timeframe (Some marketData) = Ok body ->
  In t (DetectMomentum.tokens body) ->
  exists coin,
    In coin marketData /\
    DetectMomentum.retained threshold
      (DetectMomentum.coin_get coin (DetectMomentum.changeField timeframe)) /\
    t = DetectMomentum.toToken (DetectMomentum.changeField timeframe) coin.
Proof.
  intros H Hin. injection H as <-.
  change (In t (firstn 10
                  (DetectMomentum.tokensWithMomentum marketData threshold
                     timeframe))) in Hin.
  apply firstn_In in Hin.
  unfold DetectMomentum.tokensWithMomentum in Hin.
  apply (Permutation_in _ (Array_sort_perm DetectMomentum.momentumScore _))
    in Hin.
  apply in_map_iff in Hin. destruct Hin as (coin & <- & Hc).
  apply filter_In in Hc. destruct Hc as [Hc Hm].
  apply hasMomentum_retained in Hm.
  exists coin. repeat split; assumption.
Qed.

(** With a threshold above 3 no returned token is labelled "neutral": the
    trend is read from the same change the filter tested. *)
Theorem scan_tokens_not_neutral_above_3 :
  forall (marketData : list DetectMomentum.Coin) (threshold : Q)
         (timeframe : string) (body : DetectMomentum.ScanBody)
         (t : DetectMomentum.Token),
    3 < threshold ->
    DetectMomentum.GET threshold timeframe (Some marketData) = Ok body ->
    In t (DetectMomentum.tokens body) ->
    DetectMomentum.trend t <> "neutral".
Proof.
  intros marketData threshold timeframe body t Hth H Hin.
  destruct (scan_token_origin _ _ _ _ _ H Hin) as (coin & _ & Hr & ->).
  cbn [DetectMomentum.toToken DetectMomentum.trend].
  destruct Hr as (c & -> & Hc).
  unfold DetectMomentum.determineTrend.
  assert (Habs : 3 < Qabs c) by lra.
  assert (Hout : c < -3 \/ 3 < c).
  { revert Habs. apply Qabs_case; intros; lra. }
  trend_cases c; try discriminate. lra.
Qed.

Lemma scan_tokens_not_neutral_witness :
  3 < 5 /\
  match
    DetectMomentum.GET 5 "24h"
      (Some [DetectMomentum.mkCoin "sol" "Solana" (num 150) (num 4000000000)
               (num 70000000000) (num (-7)) (num 0.2) (num (-7)) (num 1)])
  with
  | Ok body =>
      Forall (fun t => DetectMomentum.trend t <> "neutral")
        (DetectMomentum.tokens body)
  | Error _ _ => False
  end.
Proof.
  assert (Hth : 3 < 5) by reflexivity.
  split; [exact Hth|].
  destruct (DetectMomentum.GET _ _ _) as [body|st msg] eqn:E.
  - apply Forall_forall. intros t Hin.
    exact (scan_tokens_not_neutral_above_3 _ _ _ _ t Hth E Hin).
  - discriminate E.
Defined.

(** Raising the threshold never adds a token: every coin that passes the
    higher threshold passes the lower one, and the count reported in the
    summary does not grow. *)
Theorem scan_found_antitone_in_threshold :
  forall (marketData : list DetectMomentum.Coin) (lo hi : Q)
         (timeframe : string)
         (body_lo body_hi : DetectMomentum.ScanBody),
    lo <= hi ->
    DetectMomentum.GET lo timeframe (Some marketData) = Ok body_lo ->
    DetectMomentum.GET hi timeframe (Some marketData) = Ok body_hi ->
    (forall coin,
       DetectMomentum.hasMomentum (DetectMomentum.changeField timeframe)
         hi coin = true ->
       DetectMomentum.hasMomentum (DetectMomentum.changeField timeframe)
         lo coin = true) /\
    (DetectMomentum.found (DetectMomentum.summary body_hi)
     <= DetectMomentum.found (DetectMomentum.summary body_lo))%nat /\
    (DetectMomentum.momentumDetected body_hi = true ->
     DetectMomentum.momentumDetected body_lo = true).
Proof.
  intros marketData lo hi timeframe body_lo body_hi Hle Hlo Hhi.
  injection Hlo as <-. injection Hhi as <-.
  cbn [DetectMomentum.summary DetectMomentum.found
       DetectMomentum.momentumDetected].
  set (field := DetectMomentum.changeField timeframe).
  assert (Himp : forall coin,
            DetectMomentum.hasMomentum field hi coin = true ->
            DetectMomentum.hasMomentum field lo coin = true).
  { intros coin. rewrite !hasMomentum_retained.
    intros (c & E & Hc). exists c. split; [exact E | lra]. }
  assert (Hlen : forall tf th,
            List.length (DetectMomentum.tokensWithMomentum marketData th tf)
            = List.length
                (filter (DetectMomentum.hasMomentum
                           (DetectMomentum.changeField tf) th) marketData)).
  { intros tf th. unfold DetectMomentum.tokensWithMomentum.
    rewrite (Permutation_length
               (Array_sort_perm DetectMomentum.momentumScore _)).
    apply length_map. }
  assert (Hcount : (List.length
                      (filter (DetectMomentum.hasMomentum field hi) marketData)
                    <= List.length
                      (filter (DetectMomentum.hasMomentum field lo) marketData))%nat).
  { clear Hlen. induction marketData as [|coin r IH]; simpl; [lia|].
    destruct (DetectMomentum.hasMomentum field hi coin) eqn:Eh.
    - rewrite (Himp coin Eh). simpl. lia.
    - destruct (DetectMomentum.hasMomentum field lo coin); simpl; lia. }
  split; [exact Himp|].
  rewrite !Hlen. fold field.
  split; [exact Hcount|].
  rewrite !Nat.ltb_lt. lia.
Qed.

Lemma scan_found_antitone_witness :
  3 <= 5 /\
  match
    DetectMomentum.GET 3 "1h"
      (Some [DetectMomentum.mkCoin "sol" "Solana" (num 150) (num 4000000000)
               (num 70000000000) (num (-7)) (num 4) (num (-7)) (num 1)]),
    DetectMomentum.GET 5 "1h"
      (Some [DetectMomentum.mkCoin "sol" "Solana" (num 150) (num 4000000000)
               (num 70000000000) (num (-7)) (num 4) (num (-7)) (num 1)])
  with
  | Ok body_lo, Ok body_hi =>
      (DetectMomentum.found (DetectMomentum.summary body_hi)
       <= DetectMomentum.found (DetectMomentum.summary body_lo))%nat
  | _, _ => False
  end.
Proof.
  assert (Hle : 3 <= 5) by discriminate.
  split; [exact Hle|].
  destruct (DetectMomentum.GET 3 _ _) as [body_lo|st msg] eqn:Elo;
    [|discriminate Elo].
  destruct (DetectMomentum.GET 5 _ _) as [body_hi|st msg] eqn:Ehi;
    [|discriminate Ehi].
  exact (proj1 (proj2
    (scan_found_antitone_in_threshold _ _ _ _ _ _ Hle Elo Ehi))).
Defined.

(** ** Outcomes of the analysis *)

(** The analysis checks the token before it looks at the feed: an unknown
    token is a 400 whatever the feed did, a failed fetch is a 503, a coin
    without market data is a 400, and everything else succeeds. *)
Theorem analyze_outcomes :
  forall (tok : string) (tfs : list string)
         (upstream : option AnalyzeMomentum.CoinData),
    (AnalyzeMomentum.getTokenId (toUpperCase tok) = None ->
     AnalyzeMomentum.analyze tok tfs upstream
     = Error 400 ("Token " ++ tok ++ " not supported")) /\
    (AnalyzeMomentum.getTokenId (toUpperCase tok) <> None ->
     upstream = None ->
     AnalyzeMomentum.analyze tok tfs upstream
     = Error 503
         "Failed to fetch live market data. Please try again later.") /\
    (AnalyzeMomentum.getTokenId (toUpperCase tok) <> None ->
     upstream = Some (AnalyzeMomentum.mkCoinData None) ->
     AnalyzeMomentum.analyze tok tfs upstream
     = Error 400 ("Market data for " ++ tok ++ " not available")) /\
    ((exists body, AnalyzeMomentum.analyze tok tfs upstream = Ok body) <->
     AnalyzeMomentum.getTokenId (toUpperCase tok) <> None /\
     exists md, upstream = Some (AnalyzeMomentum.mkCoinData (Some md))).
Proof.
  intros tok tfs upstream. unfold AnalyzeMomentum.analyze.
  destruct (AnalyzeMomentum.getTokenId (toUpperCase tok)) as [id|].
  - split; [discriminate|].
    split; [intros _ ->; reflexivity|].
    split; [intros _ ->; reflexivity|].
    destruct upstream as [[[md|]]|]; simpl.
    + split; [intros _; split; [discriminate | eauto] | intros _; eauto].
    + split; [intros (b & H); discriminate
             | intros (_ & md & H); discriminate].
    + split; [intros (b & H); discriminate
             | intros (_ & md & H); discriminate].
  - split; [reflexivity|].
    split; [intros H; contradiction H; reflexivity|].
    split; [intros H; contradiction H; reflexivity|].
    split; [intros (b & H); discriminate
           | intros (H & _); contradiction H; reflexivity].
Qed.

Lemma analyze_outcomes_witness :
  AnalyzeMomentum.analyze "doge" ["24h"] None
  = Error 400 "Token doge not supported".
Proof.
  apply (analyze_outcomes "doge" ["24h"] None). reflexivity.
Defined.

(** Which timeframes are requested matters, not their order or repetition:
    two requests naming the same timeframes get the same answer. *)
Theorem analyze_depends_on_requested_set :
  forall (tok : string) (tfs tfs' : list string)
         (upstream : option AnalyzeMomentum.CoinData),
    (forall k, In k tfs <-> In k tfs') ->
    AnalyzeMomentum.analyze tok tfs upstream
    = AnalyzeMomentum.analyze tok tfs' upstream.
Proof.
  intros tok tfs tfs' upstream Hsame.
  assert (Hinc : forall k, includes tfs k = includes tfs' k).
  { intros k. destruct (includes tfs k) eqn:E, (includes tfs' k) eqn:E';
      try reflexivity.
    - apply includes_In, Hsame, includes_In in E. congruence.
    - apply includes_In, Hsame, includes_In in E'. congruence. }
  assert (Htf : forall md, AnalyzeMomentum.timeframeAnalysis tfs md
                           = AnalyzeMomentum.timeframeAnalysis tfs' md).
  { intros md.
    unfold AnalyzeMomentum.timeframeAnalysis, AnalyzeMomentum.addTimeframe.
    rewrite !Hinc. reflexivity. }
  unfold AnalyzeMomentum.analyze.
  destruct (AnalyzeMomentum.getTokenId (toUpperCase tok)); [|reflexivity].
  destruct upstream as [[[md|]]|]; simpl; try reflexivity.
  rewrite Htf. reflexivity.
Qed.

Lemma analyze_depends_on_requested_set_witness :
  let upstream :=
    Some (AnalyzeMomentum.mkCoinData
            (Some (AnalyzeMomentum.mkMarketData
                     (num 0.4) (num (-6)) (num 5)
                     (num 30000000000) (num 400000000000)
                     (num 3000) (num 120000000) None))) in
  match AnalyzeMomentum.analyze "BTC" ["24h"; "1h"; "24h"] upstream with
  | Ok body =>
      AnalyzeMomentum.analyze "BTC" ["1h"; "24h"] upstream = Ok body /\
      map fst (AnalyzeMomentum.timeframes body) = ["1h"; "24h"]
  | Error _ _ => False
  end.
Proof.
  intros upstream.
  rewrite (analyze_depends_on_requested_set
             "BTC" ["24h"; "1h"; "24h"] ["1h"; "24h"] upstream).
  - vm_compute. split; reflexivity.
  - intros k. simpl. tauto.
Defined.

(** The token is matched without regard to case. *)
Theorem analyze_token_case_insensitive :
  forall (tok : string) (tfs : list string)
         (upstream : option AnalyzeMomentum.CoinData)
         (body : AnalyzeMomentum.AnalyzeBody),
    AnalyzeMomentum.analyze tok tfs upstream = Ok body ->
    AnalyzeMomentum.analyze (toUpperCase tok) tfs upstream = Ok body /\
    AnalyzeMomentum.token body = toUpperCase tok.
Proof.
  intros tok tfs upstream body. unfold AnalyzeMomentum.analyze.
  rewrite toUpperCase_idempotent.
  destruct (AnalyzeMomentum.getTokenId (toUpperCase tok)); [|discriminate].
  destruct upstream as [[[md|]]|]; simpl; try discriminate.
  intros H. injection H as <-. split; reflexivity.
Qed.

Lemma analyze_token_case_insensitive_witness :
  match
    AnalyzeMomentum.analyze "eth" ["24h"]
      (Some (AnalyzeMomentum.mkCoinData
               (Some (AnalyzeMomentum.mkMarketData
                        (num 0.4) (num (-6)) (num 5)
                        (num 30000000000) (num 400000000000)
                        (num 3000) (num 120000000) None))))
  with
  | Ok body => AnalyzeMomentum.token body = "ETH"
  | Error _ _ => False
  end.
Proof.
  destruct (AnalyzeMomentum.analyze _ _ _) as [body|st msg] eqn:E.
  - exact (proj2 (analyze_token_case_insensitive _ _ _ _ E)).
  - vm_compute in E. discriminate E.
Defined.

(** A successful analysis, field by field. *)
Lemma analyze_ok_fields (tok : string) (tfs : list string)
    (upstream : option AnalyzeMomentum.CoinData)
    (body : AnalyzeMomentum.AnalyzeBody) :
  AnalyzeMomentum.analyze tok tfs upstream = Ok body ->
  exists md avg,
    upstream = Some (AnalyzeMomentum.mkCoinData (Some md)) /\
    AnalyzeMomentum.timeframes body
      = AnalyzeMomentum.timeframeAnalysis tfs md /\
    avg = AnalyzeMomentum.avgScore (AnalyzeMomentum.timeframes body) /\
    AnalyzeMomentum.momentumScore body = Math_round (avg * 10) / 10 /\
    AnalyzeMomentum.status body
      = fst (AnalyzeMomentum.momentumStatus avg) /\
    AnalyzeMomentum.recommendation body
      = snd (AnalyzeMomentum.momentumStatus avg) /\
    AnalyzeMomentum.riskLevel body
      = (if Qgtb avg 50 then "high"
         else if Qgtb avg 30 then "medium" else "low").
Proof.
  unfold AnalyzeMomentum.analyze.
  destruct (AnalyzeMomentum.getTokenId (toUpperCase tok)); [|discriminate].
  destruct upstream as [[[md|]]|]; simpl; try discriminate.
  intros H. injection H as <-. exists md. eexists. simpl. repeat split.
Qed.

Ltac status_cases avg :=
  unfold AnalyzeMomentum.momentumStatus;
  (destruct (Qgtb avg 60) eqn:E60;
    [apply Qgtb_true in E60 | apply Qgtb_false in E60]);
  (destruct (Qgtb avg 50) eqn:E50;
    [apply Qgtb_true in E50 | apply Qgtb_false in E50]);
  (destruct (Qgtb avg 40) eqn:E40;
    [apply Qgtb_true in E40 | apply Qgtb_false in E40]);
  (destruct (Qgtb avg 30) eqn:E30;
    [apply Qgtb_true in E30 | apply Qgtb_false in E30]);
  (destruct (Qgtb avg 20) eqn:E20;
    [apply Qgtb_true in E20 | apply Qgtb_false in E20]);
  (destruct (Qltb avg (-20)) eqn:En20;
    [apply Qltb_true in En20 |]); cbn [fst snd].

(** Status, recommendation and risk level are read from one score, so they
    agree: a very strong momentum is always high risk, high risk comes only
    with a strong or very strong status, a neutral or fading status is
    always low risk, and each status has its one recommendation. *)
Theorem analyze_status_and_risk_agree :
  forall (tok : string) (tfs : list string)
         (upstream : option AnalyzeMomentum.CoinData)
         (body : AnalyzeMomentum.AnalyzeBody),
    AnalyzeMomentum.analyze tok tfs upstream = Ok body ->
    (AnalyzeMomentum.status body = "very_strong" ->
     AnalyzeMomentum.riskLevel body = "high") /\
    (AnalyzeMomentum.riskLevel body = "high" ->
     AnalyzeMomentum.status body = "very_strong" \/
     AnalyzeMomentum.status body = "strong") /\
    (AnalyzeMomentum.status body = "neutral" \/
     AnalyzeMomentum.status body = "fading" ->
     AnalyzeMomentum.riskLevel body = "low") /\
    In (AnalyzeMomentum.status body, AnalyzeMomentum.recommendation body)
       [ ("very_strong", "aggressive_buy"); ("strong", "buy");
         ("building", "cautious_buy"); ("fading", "sell");
         ("neutral", "hold") ].
Proof.
  intros tok tfs upstream body H.
  destruct (analyze_ok_fields _ _ _ _ H)
    as (md & avg & _ & _ & _ & _ & -> & -> & ->).
  status_cases avg;
    try (exfalso; lra);
    (split; [intros E; try discriminate E; reflexivity|]);
    (split; [intros E; try discriminate E; auto|]);
    (split; [intros [E|E]; try discriminate E; reflexivity|]);
    simpl; tauto.
Qed.

Lemma analyze_status_and_risk_agree_witness :
  match
    AnalyzeMomentum.analyze "eth" ["1h"; "24h"]
      (Some (AnalyzeMomentum.mkCoinData
               (Some (AnalyzeMomentum.mkMarketData
                        (num 7) (num (-6)) (num 5)
                        (num 30000000000) (num 400000000000)
                        (num 3000) (num 120000000) None))))
  with
  | Ok body =>
      AnalyzeMomentum.status body = "very_strong" ->
      AnalyzeMomentum.riskLevel body = "high"
  | Error _ _ => False
  end.
Proof.
  destruct (AnalyzeMomentum.analyze _ _ _) as [body|st msg] eqn:E.
  - exact (proj1 (analyze_status_and_risk_agree _ _ _ _ E)).
  - vm_compute in E. discriminate E.
Defined.

Lemma avgScore_upper (analysis : Obj AnalyzeMomentum.TimeframeData) :
  AnalyzeMomentum.avgScore analysis <= 75.
Proof.
  unfold AnalyzeMomentum.avgScore. cbv zeta.
  set (scores := map AnalyzeMomentum.timeframeScore (Object_values analysis)).
  destruct (Nat.ltb 0 (List.length scores)) eqn:E; [|discriminate].
  apply Nat.ltb_lt in E.
  assert (Hn : 0 < inject_Z (Z.of_nat (List.length scores))).
  { change 0 with (inject_Z 0). rewrite <- Zlt_Qlt. lia. }
  assert (Hall : Forall (fun x => x <= x <= 75) scores).
  { unfold scores. rewrite Forall_map. apply Forall_forall.
    intros data _. split; [apply Qle_refl | apply timeframeScore_upper]. }
  assert (Hsum : sum scores
                 <= inject_Z (Z.of_nat (List.length scores)) * 75).
  { clear E Hn. induction Hall as [|x r [_ Hx] Hr IH].
    - unfold sum. cbn [List.length Z.of_nat fold_left].
      change (inject_Z 0) with 0. lra.
    - rewrite sum_cons. cbn [List.length].
      rewrite Nat2Z.inj_succ. unfold Z.succ. rewrite inject_Z_plus.
      change (inject_Z 1) with 1. lra. }
  apply Qle_shift_div_r; [exact Hn | lra].
Qed.

(** Whatever the snapshot holds, the score of a successful analysis is at
    most 75, before and after rounding. *)
Theorem analyze_score_at_most_75 :
  forall (tok : string) (tfs : list string)
         (upstream : option AnalyzeMomentum.CoinData)
         (body : AnalyzeMomentum.AnalyzeBody),
    AnalyzeMomentum.analyze tok tfs upstream = Ok body ->
    AnalyzeMomentum.avgScore (AnalyzeMomentum.timeframes body) <= 75 /\
    AnalyzeMomentum.momentumScore body <= 75.
Proof.
  intros tok tfs upstream body H.
  destruct (analyze_ok_fields _ _ _ _ H)
    as (md & avg & _ & _ & -> & -> & _).
  pose proof (avgScore_upper (AnalyzeMomentum.timeframes body)) as Hu.
  split; [exact Hu|].
  apply Qle_shift_div_r; [reflexivity|].
  assert (Hr := Math_round_upper
                  (AnalyzeMomentum.avgScore
                     (AnalyzeMomentum.timeframes body) * 10) 750).
  change (inject_Z 750) with 750 in Hr. lra.
Qed.

Lemma analyze_score_at_most_75_witness :
  match
    AnalyzeMomentum.analyze "sol" ["1h"; "24h"; "7d"]
      (Some (AnalyzeMomentum.mkCoinData
               (Some (AnalyzeMomentum.mkMarketData
                        (num 40) (num (-60)) (num 90)
                        (num 900000000000) (num 400000000000)
                        (num 150) (num 400000000) None))))
  with
  | Ok body => AnalyzeMomentum.momentumScore body <= 75
  | Error _ _ => False
  end.
Proof.
  destruct (AnalyzeMomentum.analyze _ _ _) as [body|st msg] eqn:E.
  - exact (proj2 (analyze_score_at_most_75 _ _ _ _ E)).
  - vm_compute in E. discriminate E.
Defined.

(** A request that names none of "1h", "24h" and "7d" still succeeds: it
    has no timeframe entry and reports a score of 0, a neutral status, the
    recommendation to hold and a low risk. *)
Theorem analyze_without_timeframes_is_neutral :
  forall (tok : string) (tfs : list string)
         (upstream : option AnalyzeMomentum.CoinData)
         (body : AnalyzeMomentum.AnalyzeBody),
    ~ In "1h" tfs -> ~ In "24h" tfs -> ~ In "7d" tfs ->
    AnalyzeMomentum.analyze tok tfs upstream = Ok body ->
    AnalyzeMomentum.timeframes body = [] /\
    AnalyzeMomentum.momentumScore body == 0 /\
    AnalyzeMomentum.status body = "neutral" /\
    AnalyzeMomentum.recommendation body = "hold" /\
    AnalyzeMomentum.riskLevel body = "low".
Proof.
  intros tok tfs upstream body H1 H24 H7 H.
  destruct (analyze_ok_fields _ _ _ _ H)
    as (md & avg & _ & Etf & Eavg & -> & -> & -> & ->).
  assert (Hempty : AnalyzeMomentum.timeframes body = []).
  { rewrite Etf.
    unfold AnalyzeMomentum.timeframeAnalysis, AnalyzeMomentum.addTimeframe.
    rewrite <- includes_In in H1, H24, H7.
    apply not_true_is_false in H1, H24, H7.
    rewrite H1, H24, H7. reflexivity. }
  rewrite Hempty in Eavg. subst avg.
  split; [exact Hempty|].
  split; [vm_compute; reflexivity|].
  repeat split.
Qed.

Lemma analyze_without_timeframes_witness :
  match
    AnalyzeMomentum.GET (Some "BTC") (Some "4h")
      (Some (AnalyzeMomentum.mkCoinData
               (Some (AnalyzeMomentum.mkMarketData
                        (num 7) (num (-6)) (num 5)
                        (num 30000000000) (num 1200000000000)
                        (num 60000) (num 19000000) None))))
  with
  | Ok body => AnalyzeMomentum.status body = "neutral"
  | Error _ _ => False
  end.
Proof.
  unfold AnalyzeMomentum.GET.
  destruct (AnalyzeMomentum.analyze _ _ _) as [body|st msg] eqn:E.
  - refine (proj1 (proj2 (proj2
      (analyze_without_timeframes_is_neutral _ _ _ _ _ _ _ E))));
      simpl; intros [H|[]]; discriminate H.
  - vm_compute in E. discriminate E.
Defined.

(** ** Entries of the timeframes mapping *)

Lemma timeframeAnalysis_get (tfs : list string)
    (md : AnalyzeMomentum.MarketData) (key : string) (field : jsval) :
  (key = "1h" /\
   field = AnalyzeMomentum.price_change_percentage_1h_in_currency md) \/
  (key = "24h" /\
   field = AnalyzeMomentum.price_change_percentage_24h_in_currency md) \/
  (key = "7d" /\
   field = AnalyzeMomentum.price_change_percentage_7d_in_currency md) ->
  obj_get (AnalyzeMomentum.timeframeAnalysis tfs md) key
  = if (includes tfs key && strict_neq_null field)%bool
    then Some {| AnalyzeMomentum.change := or_num field 0;
                 AnalyzeMomentum.volume :=
                   or_num (AnalyzeMomentum.total_volume md) 0;
                 AnalyzeMomentum.trend :=
                   AnalyzeMomentum.determineTrend (num (or_num field 0)) |}
    else None.
Proof.
  intros Hkey.
  unfold AnalyzeMomentum.timeframeAnalysis, AnalyzeMomentum.addTimeframe.
  destruct Hkey as [[-> ->]|[[-> ->]|[-> ->]]];
    destruct (includes tfs "1h" &&
              strict_neq_null
                (AnalyzeMomentum.price_change_percentage_1h_in_currency md))%bool;
    destruct (includes tfs "24h" &&
              strict_neq_null
                (AnalyzeMomentum.price_change_percentage_24h_in_currency md))%bool;
    destruct (includes tfs "7d" &&
              strict_neq_null
                (AnalyzeMomentum.price_change_percentage_7d_in_currency md))%bool;
    reflexivity.
Qed.

(** A requested timeframe whose change is a number gets an entry with that
    change, the total volume of the coin and the trend of the change; the
    other requested timeframes do not disturb it. *)
Theorem analysis_entry_of_numeric_change :
  forall (tfs : list string) (md : AnalyzeMomentum.MarketData)
         (key : string) (c : Q),
    In key tfs ->
    (key = "1h" /\
     AnalyzeMomentum.price_change_percentage_1h_in_currency md = num c) \/
    (key = "24h" /\
     AnalyzeMomentum.price_change_percentage_24h_in_currency md = num c) \/
    (key = "7d" /\
     AnalyzeMomentum.price_change_percentage_7d_in_currency md = num c) ->
    exists data,
      obj_get (AnalyzeMomentum.timeframeAnalysis tfs md) key = Some data /\
      AnalyzeMomentum.change data == c /\
      AnalyzeMomentum.volume data
        = or_num (AnalyzeMomentum.total_volume md) 0 /\
      AnalyzeMomentum.trend data
        = AnalyzeMomentum.determineTrend (num (AnalyzeMomentum.change data)).
Proof.
  intros tfs md key c Hin Hkey.
  apply includes_In in Hin.
  rewrite (timeframeAnalysis_get tfs md key (num c))
    by (destruct Hkey as [[-> <-]|[[-> <-]|[-> <-]]]; tauto).
  rewrite Hin. cbn [strict_neq_null andb].
  eexists. split; [reflexivity|].
  cbn [AnalyzeMomentum.change AnalyzeMomentum.volume AnalyzeMomentum.trend].
  split; [apply or_num_zero | split; reflexivity].
Qed.

Lemma analysis_entry_of_numeric_change_witness :
  match
    obj_get
      (AnalyzeMomentum.timeframeAnalysis ["7d"; "24h"]
         (AnalyzeMomentum.mkMarketData null (num (-6)) (num 5)
            (num 30000000000) (num 400000000000) (num 3000)
            (num 120000000) None))
      "24h"
  with
  | Some data => AnalyzeMomentum.change data == -6
  | None => False
  end.
Proof.
  destruct (analysis_entry_of_numeric_change ["7d"; "24h"]
              (AnalyzeMomentum.mkMarketData null (num (-6)) (num 5)
                 (num 30000000000) (num 400000000000) (num 3000)
                 (num 120000000) None)
              "24h" (-6))
    as (data & E & Hc & _).
  - right. left. reflexivity.
  - right. left. split; reflexivity.
  - rewrite E. exact Hc.
Defined.

(** ** The oscillator on monotone series *)

Lemma changes_length (prices : list Q) :
  List.length (AnalyzeMomentum.changes prices)
  = (List.length prices - 1)%nat.
Proof.
  induction prices as [|a r IH]; [reflexivity|].
  destruct r as [|b r']; [reflexivity|].
  change (AnalyzeMomentum.changes (a :: b :: r'))
    with ((b - a) :: AnalyzeMomentum.changes (b :: r')).
  cbn [List.length] in *. rewrite IH. lia.
Qed.

Lemma changes_of_sorted (R : Q -> Q -> Prop) (P : Q -> Prop)
    (prices : list Q) :
  (forall a b, R a b -> P (b - a)) ->
  Sorted R prices -> Forall P (AnalyzeMomentum.changes prices).
Proof.
  intros HR. induction 1 as [|a r Hr IH Hhd]; [constructor|].
  destruct r as [|b r']; [constructor|].
  change (AnalyzeMomentum.changes (a :: b :: r'))
    with ((b - a) :: AnalyzeMomentum.changes (b :: r')).
  constructor; [|exact IH].
  apply HR. inversion Hhd. assumption.
Qed.

Lemma sum_zeros (l : list Q) : Forall (fun x => x == 0) l -> sum l == 0.
Proof.
  induction 1 as [|x r Hx Hr IH].
  - reflexivity.
  - rewrite sum_cons, Hx, IH. reflexivity.
Qed.

Lemma sum_positive (l : list Q) :
  l <> [] -> Forall (fun x => 0 < x) l -> 0 < sum l.
Proof.
  intros Hne H. induction H as [|x r Hx Hr IH]; [contradiction|].
  rewrite sum_cons.
  destruct r as [|y r'].
  - unfold sum. simpl. lra.
  - assert (0 < sum (y :: r')) by (apply IH; discriminate). lra.
Qed.

Lemma slice_last_nonempty {A : Type} (n : nat) (l : list A) :
  l <> [] -> slice_last (S n) l <> [].
Proof.
  intros Hne E. unfold slice_last in E.
  apply (f_equal (@List.length A)) in E.
  rewrite length_skipn in E.
  destruct l as [|x r]; [contradiction|].
  cbn [List.length] in E. lia.
Qed.

(** On a series of at least 14 points that never falls, a flat one
    included, the oscillator is at its maximum of 100. *)
Theorem rsi_of_non_falling_series_is_100 :
  forall prices : list Q,
    (14 <= List.length prices)%nat ->
    Sorted Qle prices ->
    AnalyzeMomentum.calculateRSI prices = 100.
Proof.
  intros prices Hlen Hsorted. unfold AnalyzeMomentum.calculateRSI.
  replace (Nat.ltb (List.length prices) 14) with false
    by (symmetry; apply Nat.ltb_ge; exact Hlen).
  assert (Hloss : AnalyzeMomentum.avgLoss prices == 0).
  { unfold AnalyzeMomentum.avgLoss.
    rewrite sum_zeros; [reflexivity|].
    apply Forall_skipn. unfold AnalyzeMomentum.losses.
    rewrite Forall_map.
    eapply Forall_impl;
      [|apply (changes_of_sorted Qle (fun ch => 0 <= ch));
        [intros a b Hab; cbv beta; lra | exact Hsorted]].
    intros ch Hch. cbv beta in *.
    destruct (Qltb ch 0) eqn:E; [|reflexivity].
    apply Qltb_true in E. lra. }
  apply Qeq_eq_bool in Hloss. rewrite Hloss. reflexivity.
Qed.

Lemma rsi_of_non_falling_series_witness :
  AnalyzeMomentum.calculateRSI
    [5; 5; 5; 5; 5; 5; 5; 5; 5; 5; 5; 5; 5; 5] = 100.
Proof.
  apply rsi_of_non_falling_series_is_100.
  - simpl. lia.
  - repeat (constructor; try discriminate).
Defined.

(** On a series of at least 14 points that falls at every step the
    oscillator is 0. *)
Theorem rsi_of_falling_series_is_0 :
  forall prices : list Q,
    (14 <= List.length prices)%nat ->
    Sorted (fun a b => b < a) prices ->
    AnalyzeMomentum.calculateRSI prices == 0.
Proof.
  intros prices Hlen Hsorted. unfold AnalyzeMomentum.calculateRSI.
  replace (Nat.ltb (List.length prices) 14) with false
    by (symmetry; apply Nat.ltb_ge; exact Hlen).
  assert (Hneg : Forall (fun ch => ch < 0) (AnalyzeMomentum.changes prices)).
  { apply (changes_of_sorted (fun a b => b < a)); [|exact Hsorted].
    intros a b Hab. cbv beta. lra. }
  assert (Hgain : AnalyzeMomentum.avgGain prices == 0).
  { unfold AnalyzeMomentum.avgGain.
    rewrite sum_zeros; [reflexivity|].
    apply Forall_skipn. unfold AnalyzeMomentum.gains.
    rewrite Forall_map.
    eapply Forall_impl; [|exact Hneg].
    intros ch Hch. cbv beta in *.
    destruct (Qgtb ch 0) eqn:E; [|reflexivity].
    apply Qgtb_true in E. lra. }
  assert (Hloss : 0 < AnalyzeMomentum.avgLoss prices).
  { unfold AnalyzeMomentum.avgLoss.
    apply Qlt_shift_div_l; [reflexivity|].
    assert (0 < sum (slice_last 14 (AnalyzeMomentum.losses prices))); [|lra].
    apply sum_positive.
    - apply slice_last_nonempty. intros E.
      apply (f_equal (@List.length Q)) in E.
      unfold AnalyzeMomentum.losses in E.
      rewrite length_map, changes_length in E. simpl in E. lia.
    - apply Forall_skipn. unfold AnalyzeMomentum.losses.
      rewrite Forall_map.
      eapply Forall_impl; [|exact Hneg].
      intros ch Hch. cbv beta in *.
      replace (Qltb ch 0) with true
        by (symmetry; apply Qltb_true; exact Hch).
      rewrite Qabs_neg by lra. lra. }
  destruct (Qeq_bool (AnalyzeMomentum.avgLoss prices) 0) eqn:E.
  { apply Qeq_bool_eq in E. lra. }
  cbv zeta. unfold Math_round.
  rewrite (Qfloor_comp _ (0 + 0.5)); [reflexivity|].
  rewrite Hgain. field. lra.
Qed.

Lemma rsi_of_falling_series_witness :
  AnalyzeMomentum.calculateRSI
    [14; 13; 12; 11; 10; 9; 8; 7; 6; 5; 4; 3; 2; 1] == 0.
Proof.
  apply rsi_of_falling_series_is_0.
  - simpl. lia.
  - repeat (constructor; try reflexivity).
Defined.

(** ** The secondary indicators *)

(** The sentiment is between 0 and 1, and a better 24h change never lowers
    it, volume and market cap being equal. *)
Theorem sentiment_bounded_and_monotone :
  forall md : AnalyzeMomentum.MarketData,
    0 <= AnalyzeMomentum.calculateSocialSentiment md <= 1 /\
    (forall md' : AnalyzeMomentum.MarketData,
       AnalyzeMomentum.total_volume md' = AnalyzeMomentum.total_volume md ->
       AnalyzeMomentum.market_cap md' = AnalyzeMomentum.market_cap md ->
       or_num (AnalyzeMomentum.price_change_percentage_24h_in_currency md) 0
       <= or_num
            (AnalyzeMomentum.price_change_percentage_24h_in_currency md') 0 ->
       AnalyzeMomentum.calculateSocialSentiment md
       <= AnalyzeMomentum.calculateSocialSentiment md').
Proof.
  intros md. unfold AnalyzeMomentum.calculateSocialSentiment. cbv zeta.
  split.
  - split.
    + apply Q.le_max_l.
    + apply Q.max_lub; [discriminate | apply Q.le_min_l].
  - intros md' -> -> Hc.
    apply Q.max_le_compat_l, Q.min_le_compat_l.
    destruct (Qgtb (or_num (AnalyzeMomentum.market_cap md) 0) 0);
      unfold Qdiv; change (/ 100) with (1 # 100); lra.
Qed.

Lemma sentiment_bounded_and_monotone_witness :
  AnalyzeMomentum.calculateSocialSentiment
    (AnalyzeMomentum.mkMarketData null (num (-6)) null (num 30000000000)
       (num 400000000000) (num 3000) null None)
  <= AnalyzeMomentum.calculateSocialSentiment
       (AnalyzeMomentum.mkMarketData (num 1) (num 9) null (num 30000000000)
          (num 400000000000) (num 2900) null None).
Proof.
  apply (sentiment_bounded_and_monotone
           (AnalyzeMomentum.mkMarketData null (num (-6)) null
              (num 30000000000) (num 400000000000) (num 3000) null None)).
  - reflexivity.
  - reflexivity.
  - vm_compute. discriminate.
Defined.

(** The cross-chain flow is "negative" exactly when the 24h change is
    below -5, whatever the volume, and "very_positive" exactly when the
    change is above 5 on a volume above one billion. *)
Theorem cross_chain_flow_extremes :
  forall md : AnalyzeMomentum.MarketData,
    let change24h :=
      or_num (AnalyzeMomentum.price_change_percentage_24h_in_currency md) 0 in
    let volume := or_num (AnalyzeMomentum.total_volume md) 0 in
    (AnalyzeMomentum.analyzeCrossChainFlow md = "negative"
     <-> change24h < -5) /\
    (AnalyzeMomentum.analyzeCrossChainFlow md = "very_positive"
     <-> 5 < change24h /\ 1000000000 < volume).
Proof.
  intros md change24h volume.
  unfold AnalyzeMomentum.analyzeCrossChainFlow. cbv zeta.
  fold change24h. fold volume.
  (destruct (Qgtb change24h 5) eqn:C5;
    [apply Qgtb_true in C5 | apply Qgtb_false in C5]);
  (destruct (Qgtb volume 1000000000) eqn:V1;
    [apply Qgtb_true in V1 | apply Qgtb_false in V1]);
  (destruct (Qgtb change24h 2) eqn:C2;
    [apply Qgtb_true in C2 | apply Qgtb_false in C2]);
  (destruct (Qgtb volume 500000000) eqn:V2;
    [apply Qgtb_true in V2 | apply Qgtb_false in V2]);
  (destruct (Qgtb change24h (-2)) eqn:Cn2;
    [apply Qgtb_true in Cn2 | apply Qgtb_false in Cn2]);
  (destruct (Qgtb volume 100000000) eqn:V3;
    [apply Qgtb_true in V3 | apply Qgtb_false in V3]);
  (destruct (Qltb change24h (-5)) eqn:Cn5;
    [apply Qltb_true in Cn5
    | apply not_true_iff_false in Cn5; rewrite Qltb_true in Cn5]);
  cbn [andb];
  (split; split; intros H; try discriminate H; try reflexivity;
   try (exfalso; lra); try (split; assumption); try lra).
Qed.

Lemma Qdiv_gt (a b c : Q) : 0 < c -> (a < b / c <-> a * c < b).
Proof.
  intros Hc.
  assert (E : b / c * c == b) by (field; lra).
  rewrite <- (Qmult_lt_r a (b / c) c Hc), E. reflexivity.
Qed.

(** The volume profile is "unknown" exactly when the market cap is absent
    or zero; on a positive market cap it is "exploding" exactly when the
    volume is above half the cap and "decreasing" exactly when it is at
    most a twentieth of it. *)
Theorem volume_profile_buckets :
  forall md : AnalyzeMomentum.MarketData,
    let volume := or_num (AnalyzeMomentum.total_volume md) 0 in
    let cap := or_num (AnalyzeMomentum.market_cap md) 0 in
    (AnalyzeMomentum.analyzeVolumeProfile md = "unknown" <-> cap == 0) /\
    (0 < cap ->
     (AnalyzeMomentum.analyzeVolumeProfile md = "exploding"
      <-> 0.5 * cap < volume) /\
     (AnalyzeMomentum.analyzeVolumeProfile md = "decreasing"
      <-> volume <= 0.05 * cap)).
Proof.
  intros md volume cap.
  unfold AnalyzeMomentum.analyzeVolumeProfile. cbv zeta.
  fold volume. fold cap.
  destruct (Qeq_bool cap 0) eqn:E0.
  - apply Qeq_bool_eq in E0.
    split; [split; [intros _; exact E0 | reflexivity]|].
    intros Hpos. lra.
  - apply Qeq_bool_neq in E0.
    (destruct (Qgtb (volume / cap) 0.5) eqn:E5;
      [apply Qgtb_true in E5 | apply Qgtb_false in E5]);
    (destruct (Qgtb (volume / cap) 0.2) eqn:E2;
      [apply Qgtb_true in E2 | apply Qgtb_false in E2]);
    (destruct (Qgtb (volume / cap) 0.05) eqn:E05;
      [apply Qgtb_true in E05 | apply Qgtb_false in E05]);
    (split; [split; [intros H; discriminate H | intros H; contradiction]|]);
    intros Hpos;
    try rewrite (Qdiv_gt _ _ _ Hpos) in E5;
    try rewrite (Qdiv_gt _ _ _ Hpos) in E2;
    try rewrite (Qdiv_gt _ _ _ Hpos) in E05;
    try (apply Qle_not_lt in E5; rewrite (Qdiv_gt _ _ _ Hpos) in E5);
    try (apply Qle_not_lt in E2; rewrite (Qdiv_gt _ _ _ Hpos) in E2);
    try (apply Qle_not_lt in E05; rewrite (Qdiv_gt _ _ _ Hpos) in E05);
    (split; split; intros H; try discriminate H; try reflexivity; lra).
Qed.

Lemma volume_profile_buckets_witness :
  AnalyzeMomentum.analyzeVolumeProfile
    (AnalyzeMomentum.mkMarketData null null null (num 300) (num 400)
       null null None) = "exploding".
Proof.
  apply (volume_profile_buckets
           (AnalyzeMomentum.mkMarketData null null null (num 300) (num 400)
              null null None)).
  - reflexivity.
  - reflexivity.
Defined.

(** ** The quote set *)

Lemma obj_set_In {V : Type} (o : Obj V) (k c : string) (v q : V) :
  In (c, q) (obj_set o k v) -> (c = k /\ q = v) \/ In (c, q) o.
Proof.
  induction o as [|[k' v'] r IH]; simpl.
  - intros [H|[]]. injection H as <- <-. left. split; reflexivity.
  - destruct (String.eqb k k') eqn:E.
    + apply String.eqb_eq in E. subst k'.
      intros [H|H]; [injection H as <- <-; left; split; reflexivity
                    | right; right; exact H].
    + intros [H|H]; [right; left; exact H|].
      destruct (IH H) as [Hn|Ho]; [left; exact Hn | right; right; exact Ho].
Qed.

Lemma obj_set_keys {V : Type} (o : Obj V) (k : string) (v : V) :
  Object_keys (obj_set o k v)
  = if existsb (String.eqb k) (Object_keys o)
    then Object_keys o else (Object_keys o ++ [k])%list.
Proof.
  induction o as [|[k' v'] r IH]; simpl; [reflexivity|].
  destruct (String.eqb k k') eqn:E; simpl.
  - apply String.eqb_eq in E. subst k'. reflexivity.
  - rewrite IH. destruct (existsb (String.eqb k) (Object_keys r));
      reflexivity.
Qed.

Lemma obj_set_NoDup {V : Type} (o : Obj V) (k : string) (v : V) :
  NoDup (Object_keys o) -> NoDup (Object_keys (obj_set o k v)).
Proof.
  intros H. rewrite obj_set_keys.
  destruct (existsb (String.eqb k) (Object_keys o)) eqn:E; [exact H|].
  apply NoDup_app; [exact H | repeat constructor; intros [] |].
  intros x Hx [Ex|[]]. subst x.
  assert (Ht : existsb (String.eqb k) (Object_keys o) = true)
    by (apply existsb_exists; exists k; split;
        [exact Hx | apply String.eqb_refl]).
  congruence.
Qed.

Lemma obj_set_get_same {V : Type} (o : Obj V) (k : string) (v : V) :
  obj_get (obj_set o k v) k = Some v.
Proof.
  induction o as [|[k' v'] r IH]; simpl.
  - rewrite String.eqb_refl. reflexivity.
  - destruct (String.eqb k k') eqn:E; simpl; rewrite E;
      [reflexivity | exact IH].
Qed.

Lemma obj_set_get_other {V : Type} (o : Obj V) (k c : string) (v : V) :
  c <> k -> obj_get (obj_set o k v) c = obj_get o c.
Proof.
  intros Hne. induction o as [|[k' v'] r IH]; simpl.
  - apply String.eqb_neq in Hne. rewrite Hne. reflexivity.
  - destruct (String.eqb k k') eqn:E; simpl.
    + apply String.eqb_eq in E. subst k'.
      apply String.eqb_neq in Hne. rewrite Hne. reflexivity.
    + rewrite IH. reflexivity.
Qed.

Lemma obj_get_In {V : Type} (o : Obj V) (k : string) (v : V) :
  obj_get o k = Some v -> In (k, v) o.
Proof.
  induction o as [|[k' v'] r IH]; simpl; [discriminate|].
  destruct (String.eqb k k') eqn:E.
  - apply String.eqb_eq in E. subst k'. intros H. injection H as <-.
    left. reflexivity.
  - intros H. right. apply IH. exact H.
Qed.

(** An upper-cased string names no inherited member, so the tables that
    are indexed by the upper-cased token are read over their own keys. *)
Lemma toUpperCase_not_inherited (s : string) :
  ~ In (toUpperCase s) Object_prototype_members.
Proof.
  intros Hin.
  assert (Hfix : toUpperCase (toUpperCase s) = toUpperCase s)
    by apply toUpperCase_idempotent.
  unfold Object_prototype_members in Hin. cbn [In] in Hin.
  repeat (destruct Hin as [Hin|Hin];
          [rewrite <- Hin in Hfix; vm_compute in Hfix; discriminate Hfix|]).
  exact Hin.
Qed.









(** No inherited member is a key of the chain table or of a symbol table;
    no key of the chain table is an inherited member. *)
Lemma inherited_chain_lookups (tok chain : string) :
  In chain Object_prototype_members ->
  obj_lookup CrossChainPrices.chainVariations chain = inherited /\
  (CrossChainPrices.symbolOn tok chain = inherited \/
   CrossChainPrices.symbolOn tok chain = absent).
Proof.
  intros Hin.
  assert (Hsym : forall onChains,
            In onChains (Object_values CrossChainPrices.tokenSymbols) ->
            obj_lookup onChains chain = inherited).
  { intros onChains Hon. unfold Object_prototype_members in Hin.
    cbn in Hon. cbn [In] in Hin.
    repeat (destruct Hin as [Hin|Hin];
            [subst chain;
             repeat (destruct Hon as [Hon|Hon]; [subst onChains; reflexivity|]);
             contradiction|]).
    contradiction. }
  split.
  - unfold Object_prototype_members in Hin. cbn [In] in Hin.
    repeat (destruct Hin as [Hin|Hin]; [subst chain; reflexivity|]).
    contradiction.
  - unfold CrossChainPrices.symbolOn.
    destruct (obj_get CrossChainPrices.tokenSymbols tok) as [onChains|] eqn:E;
      [|right; reflexivity].
    left. apply Hsym. apply obj_get_In in E.
    unfold Object_values. apply in_map_iff. exists (tok, onChains).
    split; [reflexivity | exact E].
Qed.

Lemma own_chain_variation (chain : string)
    (cv : CrossChainPrices.ChainVariation) :
  obj_get CrossChainPrices.chainVariations chain = Some cv ->
  ~ In chain Object_prototype_members /\
  0.997 <= CrossChainPrices.priceFactor cv <= 1.001.
Proof.
  intros H. split.
  - intros Hin.
    destruct (inherited_chain_lookups "" chain Hin) as [E _].
    unfold obj_lookup in E. rewrite H in E. discriminate E.
  - apply obj_get_In in H. unfold CrossChainPrices.chainVariations in H.
    cbn [In] in H.
    repeat (destruct H as [H|H]; [injection H as _ <-; split; discriminate|]).
    contradiction.
Qed.

Section QuoteSet.

Variable tok : string.
Variables basePrice volume24h : Q.

(** The step of the loop over the requested chains. *)
Let step (st : Obj CrossChainPrices.ChainData * CrossChainPrices.Rng)
    (chain : string) :=
  let (acc, rng) := st in
  match CrossChainPrices.getChainInfo chain tok basePrice volume24h rng with
  | (Some chainInfo, rng') =>
      (CrossChainPrices.storeQuote acc chain chainInfo, rng')
  | (None, rng') => (acc, rng')
  end.

(** A chain passes the guard of [getChainInfo] when both lookups are
    truthy. *)
Let passes (chain : string) : Prop :=
  CrossChainPrices.falsy_variation
    (obj_lookup CrossChainPrices.chainVariations chain) = false /\
  CrossChainPrices.falsy_symbol (CrossChainPrices.symbolOn tok chain) = false.

(** What a quote looks like, for draws within [P]: the quote of a chain of
    the table, or the empty quote of an inherited member. *)
Let quoted (P : Q -> Prop) (chain : string)
    (q : CrossChainPrices.ChainData) : Prop :=
  (exists cv sym r,
     P r /\
     ~ In chain Object_prototype_members /\
     obj_get CrossChainPrices.chainVariations chain = Some cv /\
     CrossChainPrices.symbolOn tok chain = own sym /\
     q = {| CrossChainPrices.symbol := Some sym;
            CrossChainPrices.price :=
              finite (basePrice
                      * (CrossChainPrices.priceFactor cv
                         + Qmin (volume24h / 10000000000) 0.002
                         + (r - 0.5) * 0.004));
            CrossChainPrices.dex :=
              Some (CrossChainPrices.variation_dex cv);
            CrossChainPrices.slippage :=
              Some (CrossChainPrices.variation_slippage cv) |}) \/
  (In chain Object_prototype_members /\
   q = CrossChainPrices.mkChainData None NaN None None).

(** What [getChainInfo] answers, and when. *)
Lemma getChainInfo_some (chain : string) (rng : CrossChainPrices.Rng)
    (q : CrossChainPrices.ChainData) (rng' : CrossChainPrices.Rng) :
  CrossChainPrices.getChainInfo chain tok basePrice volume24h rng
  = (Some q, rng') ->
  passes chain /\ rng' = (fun n => rng (S n)) /\
  quoted (fun r => r = rng 0%nat) chain q.
Proof.
  unfold CrossChainPrices.getChainInfo, passes, quoted.
  destruct (obj_lookup CrossChainPrices.chainVariations chain)
    as [cv| |] eqn:Ev; cbn [CrossChainPrices.falsy_variation orb];
    [| |discriminate].
  - assert (Hown : obj_get CrossChainPrices.chainVariations chain = Some cv).
    { unfold obj_lookup in Ev.
      destruct (obj_get CrossChainPrices.chainVariations chain);
        [injection Ev as ->; reflexivity|].
      destruct (includes Object_prototype_members chain); discriminate Ev. }
    destruct (own_chain_variation _ _ Hown) as [Hni _].
    destruct (CrossChainPrices.symbolOn tok chain) as [sym| |] eqn:Es;
      cbn [CrossChainPrices.falsy_symbol]; [| |discriminate].
    + destruct (String.eqb sym "") eqn:E; [discriminate|].
      cbn. intros H. injection H as <- <-.
      split; [split; reflexivity|]. split; [reflexivity|].
      left. exists cv, sym, (rng 0%nat). repeat split; assumption.
    + exfalso. unfold CrossChainPrices.symbolOn in Es.
      destruct (obj_get CrossChainPrices.tokenSymbols tok) as [onChains|];
        [|discriminate Es].
      unfold obj_lookup in Es.
      destruct (obj_get onChains chain); [discriminate Es|].
      destruct (includes Object_prototype_members chain) eqn:Ei;
        [|discriminate Es].
      apply includes_In in Ei. contradiction.
  - assert (Hin : In chain Object_prototype_members).
    { unfold obj_lookup in Ev.
      destruct (obj_get CrossChainPrices.chainVariations chain);
        [discriminate Ev|].
      destruct (includes Object_prototype_members chain) eqn:Ei;
        [apply includes_In; exact Ei | discriminate Ev]. }
    destruct (inherited_chain_lookups tok chain Hin) as [_ [Es|Es]];
      rewrite Es; cbn [CrossChainPrices.falsy_symbol]; [|discriminate].
    cbn. intros H. injection H as <- <-.
    split; [split; reflexivity|]. split; [reflexivity|].
    right. split; [exact Hin | reflexivity].
Qed.

Lemma getChainInfo_none (chain : string) (rng rng' : CrossChainPrices.Rng) :
  CrossChainPrices.getChainInfo chain tok basePrice volume24h rng
  = (None, rng') ->
  ~ passes chain /\ rng' = rng.
Proof.
  unfold CrossChainPrices.getChainInfo, passes.
  destruct (CrossChainPrices.falsy_variation _) eqn:Ev;
    cbn [orb].
  - intros H. injection H as <-. split; [intros [H _]; discriminate H|].
    reflexivity.
  - destruct (CrossChainPrices.falsy_symbol _) eqn:Es.
    + intros H. injection H as <-. split; [intros [_ H]; discriminate H|].
      reflexivity.
    + cbn. discriminate.
Qed.

Lemma storeQuote_In (acc : Obj CrossChainPrices.ChainData)
    (chain c : string) (info q : CrossChainPrices.ChainData) :
  In (c, q) (CrossChainPrices.storeQuote acc chain info) ->
  (c = chain /\ q = info) \/ In (c, q) acc.
Proof.
  unfold CrossChainPrices.storeQuote.
  destruct (String.eqb chain "__proto__"); [right; assumption|].
  apply obj_set_In.
Qed.

Lemma loop_quotes (P : Q -> Prop) (chains : list string)
    (acc : Obj CrossChainPrices.ChainData) (rng : CrossChainPrices.Rng) :
  (forall n, P (rng n)) ->
  (forall c q, In (c, q) acc -> quoted P c q) ->
  forall c q, In (c, q) (fst (fold_left step chains (acc, rng))) ->
              quoted P c q.
Proof.
  revert acc rng. induction chains as [|chain r IH]; intros acc rng Hrng Hacc.
  - exact Hacc.
  - cbn [fold_left]. unfold step at 2.
    destruct (CrossChainPrices.getChainInfo chain tok basePrice volume24h rng)
      as [[info|] rng'] eqn:E.
    + destruct (getChainInfo_some _ _ _ _ E) as (_ & -> & Hq).
      apply IH; [intros n; apply Hrng|].
      intros c q Hin. apply storeQuote_In in Hin.
      destruct Hin as [[-> ->]|Hin]; [|apply Hacc; exact Hin].
      destruct Hq as [(cv & sym & r0 & -> & Hq)|Hq]; [left | right; exact Hq].
      exists cv, sym, (rng 0%nat). split; [apply Hrng | exact Hq].
    + destruct (getChainInfo_none _ _ _ E) as [_ ->].
      apply IH; assumption.
Qed.

Lemma loop_keys (chains : list string)
    (acc : Obj CrossChainPrices.ChainData) (rng : CrossChainPrices.Rng) :
  NoDup (Object_keys acc) ->
  NoDup (Object_keys (fst (fold_left step chains (acc, rng)))) /\
  (forall c,
     In c (Object_keys (fst (fold_left step chains (acc, rng)))) <->
     In c (Object_keys acc) \/
     (In c chains /\ passes c /\ c <> "__proto__")).
Proof.
  revert acc rng. induction chains as [|chain r IH]; intros acc rng Hnd.
  - split; [exact Hnd|]. intros c. simpl. tauto.
  - cbn [fold_left]. unfold step at 2 4.
    destruct (CrossChainPrices.getChainInfo chain tok basePrice volume24h rng)
      as [[info|] rng'] eqn:E.
    + destruct (getChainInfo_some _ _ _ _ E) as (Hpass & _ & _).
      unfold CrossChainPrices.storeQuote.
      destruct (String.eqb chain "__proto__") eqn:Ep.
      * apply String.eqb_eq in Ep.
        destruct (IH acc rng' Hnd) as [Hnd' Hkeys].
        split; [exact Hnd'|].
        intros c. rewrite Hkeys. cbn [In].
        split; [intros [H|(H1 & H2 & H3)]; [left; exact H | right; tauto]
               | intros [H|([H|H] & H2 & H3)];
                 [left; exact H | congruence | right; tauto]].
      * apply String.eqb_neq in Ep.
        destruct (IH (obj_set acc chain info) rng' (obj_set_NoDup _ _ _ Hnd))
          as [Hnd' Hkeys].
        split; [exact Hnd'|].
        intros c. rewrite Hkeys, !obj_get_keys.
        destruct (String.eqb c chain) eqn:Ec.
        -- apply String.eqb_eq in Ec. subst c. rewrite obj_set_get_same.
           split; [intros _; right; split; [left; reflexivity | tauto]
                  | intros _; left; discriminate].
        -- apply String.eqb_neq in Ec.
           rewrite (obj_set_get_other _ _ _ _ Ec). cbn [In].
           split; [intros [H|(H1 & H2 & H3)]; [left; exact H | right; tauto]
                  | intros [H|([H|H] & H2 & H3)];
                    [left; exact H | congruence | right; tauto]].
    + destruct (getChainInfo_none _ _ _ E) as [Hns ->].
      destruct (IH acc rng Hnd) as [Hnd' Hkeys].
      split; [exact Hnd'|].
      intros c. rewrite Hkeys. cbn [In].
      split; [intros [H|(H1 & H2 & H3)]; [left; exact H | right; tauto]
             | intros [H|([H|H] & H2 & H3)];
               [left; exact H | subst c; contradiction | right; tauto]].
Qed.

End QuoteSet.

(** A successful price response, field by field. *)
Lemma prices_ok_fields (tok : string) (chains : list string)
    (upstream : option (option CrossChainPrices.TokenData))
    (binance : option CrossChainPrices.BinanceTicker)
    (rng : CrossChainPrices.Rng) (body : CrossChainPrices.PricesBody) :
  CrossChainPrices.prices tok chains upstream binance rng = Ok body ->
  let prices :=
    map CrossChainPrices.price
      (Object_values (CrossChainPrices.chains body)) in
  exists tokenData,
    upstream = Some (Some tokenData) /\
    CrossChainPrices.chains body
      = fst (CrossChainPrices.crossChainPrices chains (toUpperCase tok)
               (CrossChainPrices.usd tokenData)
               (or_num (CrossChainPrices.usd_24h_vol tokenData) 0) rng) /\
    CrossChainPrices.chains body <> [] /\
    CrossChainPrices.basePrice (CrossChainPrices.marketData body)
      = CrossChainPrices.usd tokenData /\
    CrossChainPrices.volume24h (CrossChainPrices.marketData body)
      = or_num (CrossChainPrices.usd_24h_vol tokenData) 0 /\
    CrossChainPrices.opportunity (CrossChainPrices.arbitrage body)
      = CrossChainPrices.spread (CrossChainPrices.chains body) /\
    CrossChainPrices.profitable (CrossChainPrices.arbitrage body)
      = num_gtb (CrossChainPrices.spread (CrossChainPrices.chains body))
          (finite 1) /\
    CrossChainPrices.buyChain (CrossChainPrices.arbitrage body)
      = CrossChainPrices.findChain (CrossChainPrices.chains body)
          (CrossChainPrices.Math_min prices) /\
    CrossChainPrices.sellChain (CrossChainPrices.arbitrage body)
      = CrossChainPrices.findChain (CrossChainPrices.chains body)
          (CrossChainPrices.Math_max prices).
Proof.
  unfold CrossChainPrices.prices.
  destruct (CrossChainPrices.getTokenIds (toUpperCase tok)) as [id|];
    [|discriminate].
  destruct upstream as [[tokenData|]|]; try discriminate.
  cbv zeta.
  destruct (Nat.eqb _ 0) eqn:Elen; [discriminate|].
  intros H. injection H as <-. exists tokenData.
  cbn [CrossChainPrices.chains CrossChainPrices.marketData
       CrossChainPrices.basePrice CrossChainPrices.volume24h
       CrossChainPrices.arbitrage CrossChainPrices.buyChain
       CrossChainPrices.sellChain CrossChainPrices.opportunity
       CrossChainPrices.profitable] in *.
  repeat split; try reflexivity.
  intros E. rewrite E in Elen. discriminate Elen.
Qed.

(** The quotes of a response, one by one, and its keys. *)
Lemma response_quotes (P : Q -> Prop) (tok : string) (chains : list string)
    (tokenData : CrossChainPrices.TokenData) (rng : CrossChainPrices.Rng) :
  (forall n, P (rng n)) ->
  let base := CrossChainPrices.usd tokenData in
  let vol := or_num (CrossChainPrices.usd_24h_vol tokenData) 0 in
  let quotes :=
    fst (CrossChainPrices.crossChainPrices chains (toUpperCase tok)
           base vol rng) in
  NoDup (Object_keys quotes) /\
  (forall chain,
     In chain (Object_keys quotes) <->
     In chain chains /\
     (CrossChainPrices.falsy_variation
        (obj_lookup CrossChainPrices.chainVariations chain) = false /\
      CrossChainPrices.falsy_symbol
        (CrossChainPrices.symbolOn (toUpperCase tok) chain) = false) /\
     chain <> "__proto__") /\
  (forall chain q,
     In (chain, q) quotes ->
     (exists cv sym r,
        P r /\
        ~ In chain Object_prototype_members /\
        obj_get CrossChainPrices.chainVariations chain = Some cv /\
        CrossChainPrices.symbolOn (toUpperCase tok) chain = own sym /\
        q = {| CrossChainPrices.symbol := Some sym;
               CrossChainPrices.price :=
                 finite (base
                         * (CrossChainPrices.priceFactor cv
                            + Qmin (vol / 10000000000) 0.002
                            + (r - 0.5) * 0.004));
               CrossChainPrices.dex :=
                 Some (CrossChainPrices.variation_dex cv);
               CrossChainPrices.slippage :=
                 Some (CrossChainPrices.variation_slippage cv) |}) \/
     (In chain Object_prototype_members /\
      q = CrossChainPrices.mkChainData None NaN None None)).
Proof.
  intros HP base vol quotes.
  assert (Hk := loop_keys (toUpperCase tok) base vol chains [] rng
                  (NoDup_nil _)).
  destruct Hk as [Hnd Hkeys].
  split; [exact Hnd|]. split.
  - intros chain. unfold quotes, CrossChainPrices.crossChainPrices.
    rewrite Hkeys. cbn [Object_keys map In]. tauto.
  - intros chain q Hin.
    exact (loop_quotes (toUpperCase tok) base vol P chains [] rng HP
             (fun c q' (H : In (c, q') []) => match H with end)
             chain q Hin).
Qed.

(** With draws between 0 and 1, a base price and a volume that are not
    negative, every quote of a chain of the table is within 0.51 percent of
    the base price (half a percent in exact arithmetic); the quote of an
    inherited member has the price NaN. *)
Theorem quotes_close_to_base_price :
  forall (tok : string) (chains : list string)
         (upstream : option (option CrossChainPrices.TokenData))
         (binance : option CrossChainPrices.BinanceTicker)
         (rng : CrossChainPrices.Rng) (body : CrossChainPrices.PricesBody),
    (forall n, 0 <= rng n <= 1) ->
    CrossChainPrices.prices tok chains upstream binance rng = Ok body ->
    0 <= CrossChainPrices.basePrice (CrossChainPrices.marketData body) ->
    0 <= CrossChainPrices.volume24h (CrossChainPrices.marketData body) ->
    forall chain q,
      In (chain, q) (CrossChainPrices.chains body) ->
      (In chain Object_prototype_members ->
       CrossChainPrices.price q = NaN) /\
      (~ In chain Object_prototype_members ->
       exists p,
         CrossChainPrices.price q = finite p /\
         0.9949
           * CrossChainPrices.basePrice (CrossChainPrices.marketData body)
         <= p
         <= 1.0051
            * CrossChainPrices.basePrice (CrossChainPrices.marketData body)).
Proof.
  intros tok chains upstream binance rng body Hrng H Hbase Hvol chain q Hin.
  destruct (prices_ok_fields _ _ _ _ _ _ H)
    as (td & _ & Eq & _ & Eb & Ev & _).
  rewrite Eb in *. rewrite Ev in Hvol. rewrite Eq in Hin.
  destruct (response_quotes (fun r => 0 <= r <= 1) tok chains td rng Hrng)
    as (_ & _ & Hquotes).
  destruct (Hquotes chain q Hin)
    as [(cv & sym & r & Hr & Hni & Ecv & _ & ->)|[Hi ->]].
  - split; [intros Hi; contradiction|]. intros _.
    eexists. split; [reflexivity|].
    destruct (own_chain_variation _ _ Ecv) as [_ Hpf].
    set (vi := Qmin (or_num (CrossChainPrices.usd_24h_vol td) 0 / 10000000000)
                 0.002).
    assert (Hvi : 0 <= vi <= 0.002).
    { split; [|apply Q.le_min_r].
      apply Q.min_glb; [|discriminate].
      unfold Qdiv. change (/ 10000000000) with (1 # 10000000000). lra. }
    set (f := CrossChainPrices.priceFactor cv + vi + (r - 0.5) * 0.004).
    assert (Hf : 0.9949 <= f <= 1.0051) by (unfold f; lra).
    destruct Hf as [Hl Hu].
    rewrite (Qmult_comm (CrossChainPrices.usd td) f).
    split; apply Qmult_le_compat_r; assumption.
  - split; [reflexivity | intros Hni; contradiction].
Qed.

Lemma quotes_close_to_base_price_witness :
  match
    CrossChainPrices.prices "btc" ["ethereum"; "avalanche"; "toString"]
      (Some (Some (CrossChainPrices.mkTokenData
                     60000 (num 30000000000) (num 2))))
      None (fun n => match n with O => 1 | _ => 0 end)
  with
  | Ok body =>
      forall chain q,
        In (chain, q) (CrossChainPrices.chains body) ->
        (In chain Object_prototype_members ->
         CrossChainPrices.price q = NaN) /\
        (~ In chain Object_prototype_members ->
         exists p,
           CrossChainPrices.price q = finite p /\
           0.9949
             * CrossChainPrices.basePrice (CrossChainPrices.marketData body)
           <= p
           <= 1.0051
              * CrossChainPrices.basePrice (CrossChainPrices.marketData body))
  | Error _ _ => False
  end.
Proof.
  destruct (CrossChainPrices.prices _ _ _ _ _) as [body|st msg] eqn:E.
  - intros chain q Hin.
    refine (quotes_close_to_base_price _ _ _ _ _ _ _ E _ _ chain q Hin).
    + intros [|n]; split; discriminate.
    + vm_compute in E. injection E as <-. discriminate.
    + vm_compute in E. injection E as <-. discriminate.
  - vm_compute in E. discriminate E.
Defined.

(** The quote set holds each requested chain for which both lookups of
    [getChainInfo] are truthy, once, except the chain "__proto__", and
    nothing else; the quote of a chain of the table carries its wrapped
    symbol, venue and slippage, the quote of an inherited member carries
    none of them. *)
Theorem quote_set_is_the_requested_chains_that_pass :
  forall (tok : string) (chains : list string)
         (upstream : option (option CrossChainPrices.TokenData))
         (binance : option CrossChainPrices.BinanceTicker)
         (rng : CrossChainPrices.Rng) (body : CrossChainPrices.PricesBody),
    CrossChainPrices.prices tok chains upstream binance rng = Ok body ->
    NoDup (Object_keys (CrossChainPrices.chains body)) /\
    (forall chain,
       In chain (Object_keys (CrossChainPrices.chains body)) <->
       In chain chains /\
       (CrossChainPrices.falsy_variation
          (obj_lookup CrossChainPrices.chainVariations chain) = false /\
        CrossChainPrices.falsy_symbol
          (CrossChainPrices.symbolOn (toUpperCase tok) chain) = false) /\
       chain <> "__proto__") /\
    (forall chain q,
       In (chain, q) (CrossChainPrices.chains body) ->
       (~ In chain Object_prototype_members ->
        exists cv sym,
          obj_get CrossChainPrices.chainVariations chain = Some cv /\
          CrossChainPrices.symbolOn (toUpperCase tok) chain = own sym /\
          CrossChainPrices.symbol q = Some sym /\
          CrossChainPrices.dex q
            = Some (CrossChainPrices.variation_dex cv) /\
          CrossChainPrices.slippage q
            = Some (CrossChainPrices.variation_slippage cv)) /\
       (In chain Object_prototype_members ->
        q = CrossChainPrices.mkChainData None NaN None None)) /\
    (List.length (CrossChainPrices.chains body) <= List.length chains)%nat.
Proof.
  intros tok chains upstream binance rng body H.
  destruct (prices_ok_fields _ _ _ _ _ _ H) as (td & _ & Eq & _).
  rewrite Eq.
  destruct (response_quotes (fun _ => True) tok chains td rng (fun _ => I))
    as (Hnd & Hkeys & Hquotes).
  split; [exact Hnd|]. split; [exact Hkeys|]. split.
  - intros chain q Hin.
    destruct (Hquotes chain q Hin)
      as [(cv & sym & r & _ & Hni & Ecv & Es & ->)|[Hi ->]].
    + split; [|intros Hi; contradiction].
      intros _. exists cv, sym. repeat split; assumption.
    + split; [intros Hni; contradiction | reflexivity].
  - rewrite <- (length_map fst). apply NoDup_incl_length; [exact Hnd|].
    intros chain Hin. apply Hkeys in Hin. tauto.
Qed.

Lemma quote_set_witness :
  match
    CrossChainPrices.prices "sol"
      ["polygon"; "bsc"; "bsc"; "__proto__"; "valueOf"; "solana"]
      (Some (Some (CrossChainPrices.mkTokenData
                     150 (num 4000000000) (num (-3)))))
      None (fun _ => 0.25)
  with
  | Ok body => NoDup (Object_keys (CrossChainPrices.chains body))
  | Error _ _ => False
  end.
Proof.
  destruct (CrossChainPrices.prices _ _ _ _ _) as [body|st msg] eqn:E.
  - exact (proj1 (quote_set_is_the_requested_chains_that_pass
                    _ _ _ _ _ _ E)).
  - vm_compute in E. discriminate E.
Defined.

(** The price route answers 400 to an unknown token before it looks at the
    feed, 503 to a failed fetch, 400 to a feed without the token and 400
    when no requested chain other than "__proto__" passes the guard of
    [getChainInfo]; it succeeds in every other case, in particular when a
    requested chain names an inherited member. *)
Theorem prices_outcomes :
  forall (tok : string) (chains : list string)
         (upstream : option (option CrossChainPrices.TokenData))
         (binance : option CrossChainPrices.BinanceTicker)
         (rng : CrossChainPrices.Rng),
    let quotable chain :=
      (CrossChainPrices.falsy_variation
         (obj_lookup CrossChainPrices.chainVariations chain) = false /\
       CrossChainPrices.falsy_symbol
         (CrossChainPrices.symbolOn (toUpperCase tok) chain) = false) /\
      chain <> "__proto__" in
    (CrossChainPrices.getTokenIds (toUpperCase tok) = None ->
     CrossChainPrices.prices tok chains upstream binance rng
     = Error 400 ("Token " ++ tok ++ " not supported")) /\
    (CrossChainPrices.getTokenIds (toUpperCase tok) <> None ->
     upstream = None ->
     CrossChainPrices.prices tok chains upstream binance rng
     = Error 503
         "Failed to fetch live price data. Please try again later.") /\
    (CrossChainPrices.getTokenIds (toUpperCase tok) <> None ->
     upstream = Some None ->
     CrossChainPrices.prices tok chains upstream binance rng
     = Error 400 ("Price data for " ++ tok ++ " not available")) /\
    (CrossChainPrices.getTokenIds (toUpperCase tok) <> None ->
     (exists tokenData, upstream = Some (Some tokenData)) ->
     (forall chain, In chain chains -> ~ quotable chain) ->
     CrossChainPrices.prices tok chains upstream binance rng
     = Error 400 "No supported chains found for this token") /\
    ((exists body,
        CrossChainPrices.prices tok chains upstream binance rng = Ok body)
     <-> CrossChainPrices.getTokenIds (toUpperCase tok) <> None /\
         (exists tokenData, upstream = Some (Some tokenData)) /\
         exists chain, In chain chains /\ quotable chain).
Proof.
  intros tok chains upstream binance rng quotable.
  unfold CrossChainPrices.prices.
  destruct (CrossChainPrices.getTokenIds (toUpperCase tok)) as [id|].
  2:{ split; [reflexivity|].
      split; [intros H; contradiction H; reflexivity|].
      split; [intros H; contradiction H; reflexivity|].
      split; [intros H; contradiction H; reflexivity|].
      split; [intros (b & H); discriminate
             | intros (H & _); contradiction H; reflexivity]. }
  split; [discriminate|].
  split; [intros _ ->; reflexivity|].
  split; [intros _ ->; reflexivity|].
  destruct upstream as [[td|]|].
  2:{ split; [intros _ (t & H); discriminate|].
      split; [intros (b & H); discriminate
             | intros (_ & (t & H) & _); discriminate]. }
  2:{ split; [intros _ (t & H); discriminate|].
      split; [intros (b & H); discriminate
             | intros (_ & (t & H) & _); discriminate]. }
  destruct (response_quotes (fun _ => True) tok chains td rng (fun _ => I))
    as (_ & Hkeys & _).
  set (quotes := fst (CrossChainPrices.crossChainPrices chains
                        (toUpperCase tok) (CrossChainPrices.usd td)
                        (or_num (CrossChainPrices.usd_24h_vol td) 0) rng))
    in *.
  assert (Hk : forall c, In c (Object_keys quotes) <->
                         In c chains /\ quotable c)
    by (intros c; rewrite Hkeys; unfold quotable; tauto).
  destruct (Object_keys quotes) as [|c0 rest] eqn:Equotes;
    cbn [List.length Nat.eqb].
  - split; [reflexivity|].
    split; [intros (b & H); discriminate|].
    intros (_ & _ & chain & Hin & Hq). exfalso.
    apply (proj2 (Hk chain)). split; assumption.
  - assert (Hc0 : In c0 chains /\ quotable c0)
      by (apply Hk; left; reflexivity).
    split.
    + intros _ _ Hnone. exfalso. apply (Hnone c0); tauto.
    + split; [intros _; split; [discriminate|]; split; eauto | eauto].
Qed.

Lemma prices_outcomes_witness :
  CrossChainPrices.prices "sol" ["polygon"; "near"; "__proto__"]
    (Some (Some (CrossChainPrices.mkTokenData
                   150 (num 4000000000) (num (-3)))))
    None (fun _ => 0.25)
  = Error 400 "No supported chains found for this token".
Proof.
  apply (prices_outcomes "sol" ["polygon"; "near"; "__proto__"]).
  - discriminate.
  - eauto.
  - intros chain [<-|[<-|[<-|[]]]] [[H1 H2] H3];
      try discriminate H1; try discriminate H2.
    apply H3. reflexivity.
Defined.









(** ** More on the strategy builder *)

(** A successful strategy, field by field. *)
Lemma buildStrategy_ok_fields (tok : string) (budget : Q)
    (riskLevel : string) (chains : list string)
    (body : CreateStrategy.StrategyBody) :
  CreateStrategy.buildStrategy tok budget riskLevel chains = Ok body ->
  exists template,
    obj_get (CreateStrategy.strategies (CreateStrategy.maxPosition body))
      (toUpperCase tok) = Some template /\
    CreateStrategy.maxPosition body
      = budget * CreateStrategy.riskMultiplier riskLevel /\
    CreateStrategy.plan_allocation (CreateStrategy.strategy body)
      = CreateStrategy.filterAllocation chains
          (CreateStrategy.allocation template) /\
    CreateStrategy.executionOrder (CreateStrategy.strategy body)
      = CreateStrategy.executionOrderOf
          (CreateStrategy.plan_allocation (CreateStrategy.strategy body)) /\
    CreateStrategy.plan_primary (CreateStrategy.strategy body)
      = CreateStrategy.primary template /\
    CreateStrategy.plan_exitStrategy (CreateStrategy.strategy body)
      = CreateStrategy.exitStrategy template.
Proof.
  unfold CreateStrategy.buildStrategy.
  destruct (obj_get _ (toUpperCase tok)) as [template|] eqn:E;
    [|discriminate].
  intros H. injection H as <-. exists template.
  cbn [CreateStrategy.maxPosition CreateStrategy.strategy
       CreateStrategy.plan_allocation CreateStrategy.executionOrder
       CreateStrategy.plan_primary CreateStrategy.plan_exitStrategy].
  repeat split; try reflexivity. exact E.
Qed.

(** The three templates. *)
Lemma strategies_cases (maxPosition : Q) (key : string)
    (template : CreateStrategy.Strategy) :
  obj_get (CreateStrategy.strategies maxPosition) key = Some template ->
  In (key, template) (CreateStrategy.strategies maxPosition) /\
  In key ["BTC"; "ETH"; "SOL"].
Proof.
  intros H. apply obj_get_In in H. split; [exact H|].
  simpl in H. destruct H as [H|[H|[H|[]]]]; injection H as <- _;
    simpl; tauto.
Qed.

(** The strategy route fails, with 400, exactly on a token without a
    template; budget, risk level and chains never make it fail. *)
Theorem strategy_fails_only_on_unknown_token :
  forall (tok : string) (budget : Q) (riskLevel : string)
         (chains : list string),
    (CreateStrategy.supported tok <->
     exists body,
       CreateStrategy.buildStrategy tok budget riskLevel chains = Ok body) /\
    (~ CreateStrategy.supported tok ->
     CreateStrategy.buildStrategy tok budget riskLevel chains
     = Error 400 ("Strategy for " ++ tok ++ " not available")).
Proof.
  intros tok budget riskLevel chains.
  assert (Hiff : CreateStrategy.supported tok <->
            exists body,
              CreateStrategy.buildStrategy tok budget riskLevel chains
              = Ok body).
  { split.
    - intros Hs. unfold CreateStrategy.buildStrategy.
      destruct (strategies_supported
                  (budget * CreateStrategy.riskMultiplier riskLevel) tok Hs)
        as (template & -> & _).
      eauto.
    - intros (body & H).
      destruct (buildStrategy_ok_fields _ _ _ _ _ H) as (template & E & _).
      apply strategies_cases in E. exact (proj2 E). }
  split; [exact Hiff|].
  intros Hns. unfold CreateStrategy.buildStrategy.
  destruct (obj_get _ (toUpperCase tok)) as [template|] eqn:E;
    [|reflexivity].
  exfalso. apply Hns. apply strategies_cases in E. exact (proj2 E).
Qed.

Lemma strategy_fails_only_on_unknown_token_witness :
  CreateStrategy.buildStrategy "doge" 2000 "low" ["ethereum"]
  = Error 400 "Strategy for doge not available".
Proof.
  apply (strategy_fails_only_on_unknown_token "doge" 2000 "low" ["ethereum"]).
  unfold CreateStrategy.supported. simpl.
  intros [H|[H|[H|[]]]]; discriminate H.
Defined.

(** Exit plan and primary chain belong to the token alone: budget, risk
    level and requested chains do not change them. *)
Theorem exit_plan_depends_on_token_only :
  forall (tok : string) (budget budget' : Q) (riskLevel riskLevel' : string)
         (chains chains' : list string)
         (body body' : CreateStrategy.StrategyBody),
    CreateStrategy.buildStrategy tok budget riskLevel chains = Ok body ->
    CreateStrategy.buildStrategy tok budget' riskLevel' chains' = Ok body' ->
    CreateStrategy.plan_exitStrategy (CreateStrategy.strategy body)
    = CreateStrategy.plan_exitStrategy (CreateStrategy.strategy body') /\
    CreateStrategy.plan_primary (CreateStrategy.strategy body)
    = CreateStrategy.plan_primary (CreateStrategy.strategy body').
Proof.
  intros tok budget budget' riskLevel riskLevel' chains chains' body body'
         H H'.
  destruct (buildStrategy_ok_fields _ _ _ _ _ H)
    as (t & E & _ & _ & _ & -> & ->).
  destruct (buildStrategy_ok_fields _ _ _ _ _ H')
    as (t' & E' & _ & _ & _ & -> & ->).
  apply obj_get_In in E, E'. simpl in E, E'.
  destruct E as [E|[E|[E|[]]]]; injection E as Ek <-;
    destruct E' as [E'|[E'|[E'|[]]]]; injection E' as Ek' <-;
    try (rewrite <- Ek in Ek'; discriminate Ek');
    split; reflexivity.
Qed.

Lemma exit_plan_depends_on_token_only_witness :
  match CreateStrategy.buildStrategy "sol" 500 "high" ["solana"],
        CreateStrategy.buildStrategy "sol" 90000 "low" ["bsc"; "ethereum"]
  with
  | Ok body, Ok body' =>
      CreateStrategy.plan_exitStrategy (CreateStrategy.strategy body)
      = CreateStrategy.plan_exitStrategy (CreateStrategy.strategy body')
  | _, _ => False
  end.
Proof.
  destruct (CreateStrategy.buildStrategy "sol" 500 _ _)
    as [body|st msg] eqn:E; [|vm_compute in E; discriminate E].
  destruct (CreateStrategy.buildStrategy "sol" 90000 _ _)
    as [body'|st msg] eqn:E'; [|vm_compute in E'; discriminate E'].
  exact (proj1 (exit_plan_depends_on_token_only _ _ _ _ _ _ _ _ _ E E')).
Defined.

(** The execution order lists the chains of the returned allocation, each
    once, by descending percentage. *)
Theorem execution_order_sorts_the_allocation :
  forall (tok : string) (budget : Q) (riskLevel : string)
         (chains : list string) (body : CreateStrategy.StrategyBody),
    CreateStrategy.buildStrategy tok budget riskLevel chains = Ok body ->
    let allocation :=
      CreateStrategy.plan_allocation (CreateStrategy.strategy body) in
    let order := CreateStrategy.executionOrder (CreateStrategy.strategy body) in
    Permutation order (Object_keys allocation) /\
    StronglySorted (descending (CreateStrategy.percentageOf allocation))
      order /\
    (forall chain, In chain order -> In chain chains).
Proof.
  intros tok budget riskLevel chains body H allocation order.
  destruct (buildStrategy_ok_fields _ _ _ _ _ H)
    as (template & E & _ & Ealloc & Eorder & _).
  assert (Hperm : Permutation order (Object_keys allocation)).
  { unfold order. rewrite Eorder.
    apply (Array_sort_perm (CreateStrategy.percentageOf allocation)). }
  split; [exact Hperm|].
  split.
  - unfold order. rewrite Eorder.
    apply (Array_sort_sorted (CreateStrategy.percentageOf allocation)).
  - intros chain Hin.
    apply (Permutation_in _ Hperm) in Hin.
    unfold allocation in Hin. rewrite Ealloc in Hin.
    destruct (strategies_cases _ _ _ E) as [Hin' _].
    assert (Hnd : NoDup (Object_keys (CreateStrategy.allocation template))).
    { simpl in Hin'. destruct Hin' as [E'|[E'|[E'|[]]]];
        injection E' as _ <-; simpl;
        repeat (constructor; [simpl; intuition discriminate|]); constructor. }
    rewrite (filterAllocation_filter _ _ Hnd) in Hin.
    apply obj_get_keys in Hin. rewrite obj_get_filter in Hin.
    destruct (includes chains chain) eqn:Ei; [|contradiction Hin; reflexivity].
    apply includes_In. exact Ei.
Qed.

Lemma execution_order_witness :
  match CreateStrategy.buildStrategy "eth" 1000 "high"
          ["polygon"; "arbitrum"; "near"] with
  | Ok body =>
      Permutation
        (CreateStrategy.executionOrder (CreateStrategy.strategy body))
        (Object_keys
           (CreateStrategy.plan_allocation (CreateStrategy.strategy body)))
  | Error _ _ => False
  end.
Proof.
  destruct (CreateStrategy.buildStrategy _ _ _ _) as [body|st msg] eqn:E.
  - exact (proj1 (execution_order_sorts_the_allocation _ _ _ _ _ E)).
  - vm_compute in E. discriminate E.
Defined.

Lemma sum_filter_le {A : Type} (f : A -> Q) (keep : A -> bool)
    (l : list A) :
  Forall (fun x => 0 <= f x) l ->
  sum (map f (filter keep l)) <= sum (map f l).
Proof.
  induction 1 as [|x r Hx Hr IH]; [apply Qle_refl|].
  cbn [filter map]. destruct (keep x); cbn [map]; rewrite ?sum_cons; lra.
Qed.

Lemma filter_all {A : Type} (keep : A -> bool) (l : list A) :
  (forall x, In x l -> keep x = true) -> filter keep l = l.
Proof.
  induction l as [|x r IH]; intros H; [reflexivity|].
  cbn [filter]. rewrite (H x (or_introl eq_refl)), IH; [reflexivity|].
  intros y Hy. apply H. right. exact Hy.
Qed.

(** The unfiltered templates: the percentages add up to 100, and every
    amount lies between zero and the position when the position is not
    negative. *)
Lemma template_totals (maxPosition : Q) (key : string)
    (template : CreateStrategy.Strategy) :
  obj_get (CreateStrategy.strategies maxPosition) key = Some template ->
  let entries := CreateStrategy.allocation template in
  NoDup (Object_keys entries) /\
  sum (map (fun kv => CreateStrategy.percentage (snd kv)) entries) == 100 /\
  Forall (fun kv => 0 <= CreateStrategy.percentage (snd kv)) entries /\
  (0 <= maxPosition ->
   Forall (fun kv => 0 <= CreateStrategy.amount (snd kv) <= maxPosition)
     entries).
Proof.
  intros H. apply obj_get_In in H.
  unfold CreateStrategy.strategies in H. cbn [In] in H.
  destruct H as [H|[H|[H|[]]]]; injection H as _ <-;
    cbn [CreateStrategy.allocation];
    (split; [cbn [Object_keys map fst];
             repeat (constructor; [cbn [In]; intuition discriminate|]);
             constructor|]);
    unfold sum;
    cbn [map snd fold_left CreateStrategy.amount CreateStrategy.percentage];
    (split; [reflexivity|]);
    (split; [repeat constructor; cbn [snd CreateStrategy.percentage];
             discriminate|]);
    intros Hpos; repeat constructor;
    cbn [snd CreateStrategy.amount]; lra.
Qed.

(** The percentages of the returned allocation add up to at most 100, to
    exactly 100 when every chain of the template is requested; with a
    position that is not negative, every amount of the allocation lies
    between zero and the position. *)
Theorem allocation_percentages_at_most_100 :
  forall (tok : string) (budget : Q) (riskLevel : string)
         (chains : list string) (body : CreateStrategy.StrategyBody),
    CreateStrategy.buildStrategy tok budget riskLevel chains = Ok body ->
    let entries :=
      Object_values
        (CreateStrategy.plan_allocation (CreateStrategy.strategy body)) in
    sum (map CreateStrategy.percentage entries) <= 100 /\
    (forall template,
       obj_get (CreateStrategy.strategies (CreateStrategy.maxPosition body))
         (toUpperCase tok) = Some template ->
       (forall chain,
          In chain (Object_keys (CreateStrategy.allocation template)) ->
          In chain chains) ->
       sum (map CreateStrategy.percentage entries) == 100) /\
    (0 <= CreateStrategy.maxPosition body ->
     forall data,
       In data entries ->
       0 <= CreateStrategy.amount data <= CreateStrategy.maxPosition body).
Proof.
  intros tok budget riskLevel chains body H entries.
  destruct (buildStrategy_ok_fields _ _ _ _ _ H)
    as (template & E & _ & Ealloc & _).
  destruct (template_totals _ _ _ E) as (Hnd & Hp & Hp0 & Ha0).
  unfold entries, Object_values. rewrite Ealloc.
  rewrite (filterAllocation_filter _ _ Hnd), !map_map.
  split; [|split].
  - rewrite <- Hp. apply sum_filter_le. exact Hp0.
  - intros t Et Hreq. rewrite E in Et. injection Et as <-.
    rewrite filter_all; [assumption|].
    intros [c d] Hin. cbn [fst]. apply includes_In, Hreq.
    unfold Object_keys. apply in_map_iff. exists (c, d).
    split; [reflexivity | exact Hin].
  - intros Hpos data Hin. apply in_map_iff in Hin.
    destruct Hin as (kv & <- & Hkv). apply filter_In in Hkv.
    destruct Hkv as [Hkv _].
    exact (proj1 (Forall_forall _ _) (Ha0 Hpos) kv Hkv).
Qed.

Lemma allocation_percentages_witness :
  match CreateStrategy.buildStrategy "btc" 2000 "medium"
          ["solana"; "ethereum"] with
  | Ok body =>
      sum (map CreateStrategy.percentage
             (Object_values
                (CreateStrategy.plan_allocation
                   (CreateStrategy.strategy body))))
      <= 100
  | Error _ _ => False
  end.
Proof.
  destruct (CreateStrategy.buildStrategy _ _ _ _) as [body|st msg] eqn:E.
  - exact (proj1 (allocation_percentages_at_most_100 _ _ _ _ _ E)).
  - vm_compute in E. discriminate E.
Defined.

(** ** More on the execution planner *)

Lemma plan_ok_fields (strategy : option string) (tok : string)
    (chains amounts : list string) (body : ExecuteTrade.PlanBody) :
  ExecuteTrade.plan strategy tok chains amounts = Ok body ->
  ExecuteTrade.trades (ExecuteTrade.executionPlan body)
    = ExecuteTrade.mapi (ExecuteTrade.tradeOf tok amounts) chains /\
  ExecuteTrade.transactionPayloads body
    = ExecuteTrade.mapi (ExecuteTrade.payloadOf tok amounts) chains.
Proof.
  unfold ExecuteTrade.plan.
  destruct (match strategy with Some s => String.eqb s "" | None => true end);
    [discriminate|].
  intros H. injection H as <-. split; reflexivity.
Qed.

(** The payloads follow the trades: one per chain in the same order, with
    the chain and the amount of the trade at the same position; the chain
    named exactly "near" gets a NEAR function call for the trade's symbol,
    every other chain an EVM call. *)
Theorem payloads_follow_trades :
  forall (strategy : option string) (tok : string)
         (chains amounts : list string) (body : ExecuteTrade.PlanBody),
    ExecuteTrade.plan strategy tok chains amounts = Ok body ->
    List.length (ExecuteTrade.transactionPayloads body)
      = List.length chains /\
    forall i t,
      nth_error (ExecuteTrade.trades (ExecuteTrade.executionPlan body)) i
        = Some t ->
      exists p,
        nth_error (ExecuteTrade.transactionPayloads body) i = Some p /\
        ExecuteTrade.payload_chain p = ExecuteTrade.chain t /\
        (ExecuteTrade.chain t = "near" ->
         ExecuteTrade.payload p
         = ExecuteTrade.near_transaction "dex.near" "swap" "near"
             (ExecuteTrade.symbol t) (ExecuteTrade.amount t)
             "100000000000000" (ExecuteTrade.amount t)) /\
        (ExecuteTrade.chain t <> "near" ->
         ExecuteTrade.payload p
         = ExecuteTrade.evm_transaction
             (ExecuteTrade.getDexAddress (ExecuteTrade.chain t))
             (ExecuteTrade.amount t)
             (ExecuteTrade.generateSwapData tok (ExecuteTrade.amount t))
             (ExecuteTrade.getChainId (ExecuteTrade.chain t))).
Proof.
  intros strategy tok chains amounts body H.
  destruct (plan_ok_fields _ _ _ _ _ H) as [-> ->].
  unfold ExecuteTrade.mapi.
  split; [apply mapi_from_length|].
  intros i t Ht. rewrite mapi_from_nth in Ht. rewrite mapi_from_nth.
  destruct (nth_error chains i) as [c|]; cbn [option_map] in *;
    [|discriminate Ht].
  injection Ht as <-.
  eexists. split; [reflexivity|].
  unfold ExecuteTrade.payloadOf, ExecuteTrade.tradeOf.
  cbn [ExecuteTrade.chain ExecuteTrade.amount ExecuteTrade.symbol].
  destruct (String.eqb c "near") eqn:E;
    cbn [ExecuteTrade.payload_chain ExecuteTrade.payload].
  - apply String.eqb_eq in E.
    split; [reflexivity|].
    split; [intros _; reflexivity | intros Hne; contradiction].
  - apply String.eqb_neq in E.
    split; [reflexivity|].
    split; [intros Hnear; contradiction | intros _; reflexivity].
Qed.

Lemma payloads_follow_trades_witness :
  match
    ExecuteTrade.plan (Some "surf") "eth" ["near"; "NEAR"; "bsc"] ["10"]
  with
  | Ok body =>
      List.length (ExecuteTrade.transactionPayloads body) = 3%nat
  | Error _ _ => False
  end.
Proof.
  destruct (ExecuteTrade.plan _ _ _ _) as [body|st msg] eqn:E.
  - exact (proj1 (payloads_follow_trades _ _ _ _ _ E)).
  - discriminate E.
Defined.

(** Every trade of a plan is a buy with a priority of at least 1 and an
    amount that is never empty: an empty amount in the list is replaced by
    "1000" like a missing one. *)
Theorem trades_are_buys_with_an_amount :
  forall (strategy : option string) (tok : string)
         (chains amounts : list string) (body : ExecuteTrade.PlanBody),
    ExecuteTrade.plan strategy tok chains amounts = Ok body ->
    forall i t,
      nth_error (ExecuteTrade.trades (ExecuteTrade.executionPlan body)) i
        = Some t ->
      ExecuteTrade.action t = "buy" /\
      (1 <= ExecuteTrade.priority t)%nat /\
      ExecuteTrade.amount t <> "" /\
      (nth_error amounts i = Some "" -> ExecuteTrade.amount t = "1000").
Proof.
  intros strategy tok chains amounts body H i t Ht.
  destruct (plan_ok_fields _ _ _ _ _ H) as [Et _].
  rewrite Et in Ht. unfold ExecuteTrade.mapi in Ht.
  rewrite mapi_from_nth in Ht.
  destruct (nth_error chains i) as [c|]; cbn [option_map] in Ht;
    [|discriminate Ht].
  injection Ht as <-.
  unfold ExecuteTrade.tradeOf.
  cbn [ExecuteTrade.action ExecuteTrade.priority ExecuteTrade.amount
       Nat.add].
  split; [reflexivity|]. split; [lia|].
  unfold ExecuteTrade.amountAt.
  destruct (nth_error amounts i) as [a|].
  - destruct (String.eqb a "") eqn:E.
    + split; [discriminate | reflexivity].
    + apply String.eqb_neq in E.
      split; [exact E | intros Ha; injection Ha as ->; contradiction].
  - split; [discriminate | discriminate].
Qed.

Lemma trades_are_buys_witness :
  match ExecuteTrade.plan (Some "surf") "btc" ["ethereum"; "bsc"] [""; "5"]
  with
  | Ok body =>
      forall i t,
        nth_error (ExecuteTrade.trades (ExecuteTrade.executionPlan body)) i
          = Some t ->
        ExecuteTrade.amount t <> ""
  | Error _ _ => False
  end.
Proof.
  destruct (ExecuteTrade.plan _ _ _ _) as [body|st msg] eqn:E;
    [|discriminate E].
  intros i t Ht.
  exact (proj1 (proj2 (proj2
    (trades_are_buys_with_an_amount _ _ _ _ _ E i t Ht)))).
Defined.

(** For a token other than BTC, ETH and SOL, in any letter case, every
    trade carries the token as it was typed for its symbol. *)
Theorem unknown_token_is_its_own_symbol :
  forall (strategy : option string) (tok : string)
         (chains amounts : list string) (body : ExecuteTrade.PlanBody),
    ~ In (toUpperCase tok) ["BTC"; "ETH"; "SOL"] ->
    ExecuteTrade.plan strategy tok chains amounts = Ok body ->
    forall t,
      In t (ExecuteTrade.trades (ExecuteTrade.executionPlan body)) ->
      ExecuteTrade.symbol t = tok.
Proof.
  intros strategy tok chains amounts body Hunk H t Hin.
  destruct (plan_ok_fields _ _ _ _ _ H) as [Et _].
  rewrite Et in Hin. apply In_nth_error in Hin. destruct Hin as [i Hi].
  unfold ExecuteTrade.mapi in Hi. rewrite mapi_from_nth in Hi.
  destruct (nth_error chains i) as [c|]; cbn [option_map] in Hi;
    [|discriminate Hi].
  injection Hi as <-.
  cbn [ExecuteTrade.tradeOf ExecuteTrade.symbol].
  unfold ExecuteTrade.getTokenSymbol, ExecuteTrade.symbols.
  cbn [obj_get].
  destruct (String.eqb (toUpperCase tok) "BTC") eqn:E1;
    [apply String.eqb_eq in E1; exfalso; apply Hunk; rewrite E1;
     simpl; tauto|].
  destruct (String.eqb (toUpperCase tok) "ETH") eqn:E2;
    [apply String.eqb_eq in E2; exfalso; apply Hunk; rewrite E2;
     simpl; tauto|].
  destruct (String.eqb (toUpperCase tok) "SOL") eqn:E3;
    [apply String.eqb_eq in E3; exfalso; apply Hunk; rewrite E3;
     simpl; tauto|].
  reflexivity.
Qed.

Lemma unknown_token_is_its_own_symbol_witness :
  match ExecuteTrade.plan (Some "surf") "Doge" ["ethereum"; "near"] [] with
  | Ok body =>
      Forall (fun t => ExecuteTrade.symbol t = "Doge")
        (ExecuteTrade.trades (ExecuteTrade.executionPlan body))
  | Error _ _ => False
  end.
Proof.
  destruct (ExecuteTrade.plan _ _ _ _) as [body|st msg] eqn:E;
    [|discriminate E].
  apply Forall_forall. intros t Hin.
  refine (unknown_token_is_its_own_symbol _ _ _ _ _ _ E t Hin).
  simpl. intros [H|[H|[H|[]]]]; discriminate H.
Defined.
